(** * OpenSAS CBSD client (corenet/socket_to_sas.py): request builders,
      response handlers and heartbeat timers.

    The development embeds the Python module function by function.  Python
    values decoded from JSON are a small dynamically typed universe
    ([pyval]); the module's globals, the Node objects they alias, the
    [threading.Timer] objects and the terminal output form an explicit
    [State]; every function is a computation in a state-and-exception monad
    in which a raised exception keeps the state reached so far, as in
    Python. *)

From Stdlib Require Import Floats ZArith String List Bool Lia.
From stdpp Require Import base option list strings pretty.
Import ListNotations.
Local Open Scope string_scope.
Local Open Scope list_scope.
Set Warnings "-register-all".

(** ** Python values *)

(** What [json.loads] produces: None, bool, int, str, list, dict.  JSON
    reals are not part of the universe (numbers are Python ints); a dict is
    the list of its items, keys distinct, in insertion order. *)
Inductive pyval : Type :=
| PNone
| PBool (b : bool)
| PInt (z : Z)
| PStr (s : string)
| PList (l : list pyval)
| PDict (d : list (string * pyval)).

(** [bool(v)]: the truth value Python's [if v] and [not v] use. *)
Definition truthy (v : pyval) : bool :=
  match v with
  | PNone => false
  | PBool b => b
  | PInt z => negb (z =? 0)%Z
  | PStr s => negb (String.eqb s "")
  | PList l => match l with [] => false | _ :: _ => true end
  | PDict d => match d with [] => false | _ :: _ => true end
  end.

Fixpoint dict_get (k : string) (d : list (string * pyval)) : option pyval :=
  match d with
  | [] => None
  | (k', v) :: r => if String.eqb k k' then Some v else dict_get k r
  end.

(** [v.get(k)] on a dict, undefined on anything else: the field [k] of a
    JSON object, when it has one. *)
Definition field (v : pyval) (k : string) : option pyval :=
  match v with
  | PDict d => dict_get k d
  | _ => None
  end.

(** [a == b] on decoded JSON: bool is an int, lists compare elementwise,
    dicts compare item by item whatever the order. *)
Fixpoint py_eq (a b : pyval) : bool :=
  match a, b with
  | PNone, PNone => true
  | PBool x, PBool y => Bool.eqb x y
  | PBool x, PInt y => (Z.b2z x =? y)%Z
  | PInt x, PBool y => (x =? Z.b2z y)%Z
  | PInt x, PInt y => (x =? y)%Z
  | PStr x, PStr y => String.eqb x y
  | PList la, PList lb =>
      (fix go (la lb : list pyval) : bool :=
         match la, lb with
         | [], [] => true
         | x :: xs, y :: ys => py_eq x y && go xs ys
         | _, _ => false
         end) la lb
  | PDict da, PDict db =>
      (length da =? length db)%nat &&
      (fix go (da : list (string * pyval)) : bool :=
         match da with
         | [] => true
         | (k, v) :: r =>
             match dict_get k db with
             | Some w => py_eq v w
             | None => false
             end && go r
         end) da
  | _, _ => false
  end.

(** What a [for x in v] loop walks through; [None] when [v] is not
    iterable (TypeError). *)
Fixpoint str_chars (s : string) : list pyval :=
  match s with
  | EmptyString => []
  | String c r => PStr (String c EmptyString) :: str_chars r
  end.

Definition py_iter (v : pyval) : option (list pyval) :=
  match v with
  | PList l => Some l
  | PDict d => Some (map (fun kv => PStr (fst kv)) d)
  | PStr s => Some (str_chars s)
  | _ => None
  end.

(** ** Nodes and grants *)

Inductive GrantStatus := NONE | REQUESTED | GRANTED | AUTHORIZED | RELINQUISHED.

(** Modelled from the spec: class Grant (module WinnForum / usrps) is not
    part of the sources; its fields are those the spec lists (grantId,
    status, grantExpireTime, transmitExpireTime, heartbeatInterval,
    channelType), each setter called by the handlers stores its argument,
    and a new Grant is empty with status NONE. *)
Record Grant := mkGrant {
  grantId : pyval;
  grantStatus : GrantStatus;
  grantExpireTime : pyval;
  transmitExpireTime : pyval;
  heartbeatInterval : pyval;
  channelType : pyval
}.

Definition emptyGrant : Grant := mkGrant PNone NONE PNone PNone PNone PNone.

Definition setGrantId (v : pyval) (g : Grant) : Grant :=
  mkGrant v (grantStatus g) (grantExpireTime g) (transmitExpireTime g)
          (heartbeatInterval g) (channelType g).
Definition setGrantStatus (s : GrantStatus) (g : Grant) : Grant :=
  mkGrant (grantId g) s (grantExpireTime g) (transmitExpireTime g)
          (heartbeatInterval g) (channelType g).
Definition setGrantExpireTime (v : pyval) (g : Grant) : Grant :=
  mkGrant (grantId g) (grantStatus g) v (transmitExpireTime g)
          (heartbeatInterval g) (channelType g).
Definition setHeartbeatInterval (v : pyval) (g : Grant) : Grant :=
  mkGrant (grantId g) (grantStatus g) (grantExpireTime g)
          (transmitExpireTime g) v (channelType g).
Definition setChanneltype (v : pyval) (g : Grant) : Grant :=
  mkGrant (grantId g) (grantStatus g) (grantExpireTime g)
          (transmitExpireTime g) (heartbeatInterval g) v.

(** Modelled from the spec: class Node (module usrps) is not part of the
    sources; a Node has a network address, a hardware serial number, a
    cbsdId that is absent (None) until a registration response assigns it,
    a measReportConfig replaced in full on update, and owns one Grant.
    Its accessors are the ones the module calls ([getIpAddress],
    [getSerialNumber], [getCbsdId], [setCbsdId], [setMeasReportConfig],
    [getGrant], [getGrantRequest]); a Node object is true in a test.  The
    radio's operating parameters play no part in the handlers and are left
    out. *)
Record Node := mkNode {
  ipAddress : pyval;
  serialNumber : pyval;
  cbsdId : pyval;
  measReportConfig : pyval;
  grant : Grant
}.

Definition Node_setCbsdId (v : pyval) (n : Node) : Node :=
  mkNode (ipAddress n) (serialNumber n) v (measReportConfig n) (grant n).
Definition Node_setMeasReportConfig (v : pyval) (n : Node) : Node :=
  mkNode (ipAddress n) (serialNumber n) (cbsdId n) v (grant n).
Definition Node_setGrant (g : Grant) (n : Node) : Node :=
  mkNode (ipAddress n) (serialNumber n) (cbsdId n) (measReportConfig n) g.

(** ** Timers *)

Inductive Callback := cb_node_stop | cb_heartbeatRequest.
Inductive TimerStatus := Pending | Cancelled | Fired.

(** A Python number as a timer gets it: an int or a float, the floats
    being the binary64 values of the kernel. *)
Inductive number := NInt (z : Z) | NFloat (f : float).

(** A started [threading.Timer(interval, function)]; the interval is in
    seconds. *)
Record Timer := mkTimer {
  interval : number;
  function : Callback;
  status : TimerStatus
}.

(** ** Program state *)

Inductive outline := Line (s : string) | Repr (v : pyval).

(** The module's globals.  Node objects live in a store indexed by object
    identity, so that [created_nodes] and [tempNodeList] alias the same
    Nodes; [tempNodeList] holds Nodes, as the simulation builders fill it
    (the interactive [cmdRegistrationReq], which stores serial numbers, is
    not embedded); [heartbeatTimer] is the global [__heartbeatTimer] (None
    or a Timer of [timers]); [out] is what was printed and [sent] what was
    emitted on the socket. *)
Record State := mkState {
  nodes : nat -> Node;
  created_nodes : list nat;
  tempNodeList : list nat;
  heartbeatTimer : option nat;
  timers : list Timer;
  sent : list (string * pyval);
  out : list outline
}.

Definition set_nodes (f : nat -> Node) (st : State) : State :=
  mkState f (created_nodes st) (tempNodeList st) (heartbeatTimer st)
          (timers st) (sent st) (out st).
Definition set_tempNodeList (l : list nat) (st : State) : State :=
  mkState (nodes st) (created_nodes st) l (heartbeatTimer st)
          (timers st) (sent st) (out st).
Definition set_heartbeatTimer (t : option nat) (st : State) : State :=
  mkState (nodes st) (created_nodes st) (tempNodeList st) t
          (timers st) (sent st) (out st).
Definition set_timers (l : list Timer) (st : State) : State :=
  mkState (nodes st) (created_nodes st) (tempNodeList st) (heartbeatTimer st)
          l (sent st) (out st).
Definition set_sent (l : list (string * pyval)) (st : State) : State :=
  mkState (nodes st) (created_nodes st) (tempNodeList st) (heartbeatTimer st)
          (timers st) l (out st).
Definition set_out (l : list outline) (st : State) : State :=
  mkState (nodes st) (created_nodes st) (tempNodeList st) (heartbeatTimer st)
          (timers st) (sent st) l.

(** In-place update of the Node object [r]. *)
Definition upd_node (r : nat) (f : Node -> Node) (st : State) : State :=
  set_nodes (fun r' => if Nat.eqb r' r then f (nodes st r) else nodes st r') st.

(** ** Computations: state plus exceptions *)

Inductive exn :=
| IndexError | KeyError | TypeError | ValueError | AttributeError
| UnboundLocalError | RecursionError | EOFError | OverflowError.

Inductive res (A : Type) : Type :=
| Ok (a : A) (st : State)
| Raise (e : exn) (st : State).
Arguments Ok {A} a st.
Arguments Raise {A} e st.

Definition M (A : Type) : Type := State -> res A.

Definition ret {A} (a : A) : M A := fun st => Ok a st.
Definition bind {A B} (m : M A) (k : A -> M B) : M B :=
  fun st => match m st with
            | Ok a st' => k a st'
            | Raise e st' => Raise e st'
            end.
Definition raise {A} (e : exn) : M A := fun st => Raise e st.
Definition gets {A} (f : State -> A) : M A := fun st => Ok (f st) st.
Definition modify (f : State -> State) : M unit := fun st => Ok tt (f st).

Declare Scope py_scope.
Delimit Scope py_scope with py.
Notation "x <- c ;; k" := (bind c (fun x => k))
  (at level 100, c at next level, right associativity) : py_scope.
Notation "c ;;; k" := (bind c (fun _ => k))
  (at level 100, right associativity) : py_scope.
Local Open Scope py_scope.

(** The state a computation ends in, returned or raised. *)
Definition final {A} (r : res A) : State :=
  match r with Ok _ st => st | Raise _ st => st end.

Definition print (s : string) : M unit :=
  modify (fun st => set_out (out st ++ [Line s]) st).
Definition print_value (v : pyval) : M unit :=
  modify (fun st => set_out (out st ++ [Repr v]) st).

(** ["literal" + v]: only a str can be added to a str. *)
Definition str_add (s : string) (v : pyval) : M string :=
  match v with
  | PStr t => ret (s +:+ t)
  | _ => raise TypeError
  end.

(** [str(n)] *)
Definition str_of_nat (n : nat) : string := pretty n.

(** A [for] loop whose body sees the loop index and the function's local
    variables that outlive one iteration. *)
Fixpoint for_each {L : Type} (body : nat -> pyval -> L -> M L)
         (iter : nat) (els : list pyval) (loc : L) : M L :=
  match els with
  | [] => ret loc
  | el :: rest => loc' <- body iter el loc ;; for_each body (S iter) rest loc'
  end.

(** ** Helper functions *)

(** [_grabPossibleEntry]: [entry[key]] with KeyError turned into None;
    subscripting anything but a dict with a str raises TypeError. *)
Definition _grabPossibleEntry (entry : pyval) (key : string) : M pyval :=
  match entry with
  | PDict d => ret (match dict_get key d with Some v => v | None => PNone end)
  | _ => raise TypeError
  end.

(** [entry[key]] without the handler: KeyError when the key is missing. *)
Definition py_index (entry : pyval) (key : string) : M pyval :=
  match entry with
  | PDict d => match dict_get key d with Some v => ret v | None => raise KeyError end
  | _ => raise TypeError
  end.

Fixpoint find_node (p : Node -> bool) (store : nat -> Node) (l : list nat) : option nat :=
  match l with
  | [] => None
  | r :: rest => if p (store r) then Some r else find_node p store rest
  end.

Definition findTempNodeByCbsdId (c : pyval) : M (option nat) :=
  gets (fun st => find_node (fun n => py_eq (cbsdId n) c) (nodes st) (tempNodeList st)).

Definition findCreatedNodeByIp (address : pyval) : M (option nat) :=
  gets (fun st => find_node (fun n => py_eq address (ipAddress n)) (nodes st) (created_nodes st)).

Definition reqAddressToNode (request : pyval) (mustBeRegistered : bool) : M (option nat) :=
  address <- _grabPossibleEntry request "nodeIp" ;;
  if negb (truthy address) then
    print "No nodeIp address found." ;;; ret None
  else
    node <- findCreatedNodeByIp address ;;
    match node with
    | None =>
        s <- str_add "No Created Node was found with the IP Address: '" address ;;
        print (s +:+ "'.") ;;; ret None
    | Some r =>
        c <- gets (fun st => cbsdId (nodes st r)) ;;
        if mustBeRegistered && negb (truthy c) then
          print "Node found but not yet registered." ;;; ret None
        else ret (Some r)
    end.

Definition _isValidResponse (response : pyval) : M bool :=
  if truthy response then
    responseCode <- _grabPossibleEntry response "responseCode" ;;
    if negb (truthy responseCode) then
      print "SAS Error: No response code provided." ;;; ret false
    else
      s <- str_add "Response Code: " responseCode ;;
      print s ;;;
      responseMessage <- _grabPossibleEntry response "responseMessage" ;;
      (if truthy responseMessage then
         s <- str_add "Response Message: " responseMessage ;; print s
       else ret tt) ;;;
      responseData <- _grabPossibleEntry response "responseData" ;;
      (if truthy responseData then
         s <- str_add "Response Data: " responseData ;; print s
       else ret tt) ;;;
      if negb (py_eq responseCode (PStr "0")) then
        print "SAS Error: Registration Unsuccessful (non-zero response code)." ;;;
        ret false
      else ret true
  else
    print "SAS Error: No reponse object found." ;;; ret false.

(** ** Registration *)

(** Modelled from the spec: class RegistrationRequest (module WinnForum) is
    not part of the sources; the request object keeps the twelve
    constructor arguments, required ones first, optional ones passed
    through. *)
Record RegistrationRequest := mkRegistrationRequest {
  rq_userId : pyval;
  rq_fccId : pyval;
  rq_cbsdSerialNumber : pyval;
  rq_callSign : pyval;
  rq_cbsdCategory : pyval;
  rq_cbsdInfo : pyval;
  rq_airInterface : pyval;
  rq_installationParam : pyval;
  rq_measCapability : pyval;
  rq_groupingParam : pyval;
  rq_cpiSignatureData : pyval;
  rq_vtParams : pyval
}.

(** One iteration of the loop of [simRegistrationReq]; [arr] is the list of
    requests built so far, [iter] the loop counter after its increment.
    [node.getIpaAddress] in the serial-number diagnostic names an attribute
    a Node does not have (the accessor is [getIpAddress], and it is not
    called here): evaluating it raises AttributeError before anything is
    printed.
    [_grabPossibleEntry(request, installationParam)] looks up the key None,
    which no decoded JSON object has, and yields None. *)
Definition simRegistrationReq_body (iter : nat) (request : pyval)
           (arr : list RegistrationRequest) : M (list RegistrationRequest) :=
  print ("Creating Registration Request [" +:+ str_of_nat (iter + 1) +:+ "]:") ;;;
  node <- reqAddressToNode request false ;;
  match node with
  | None => print "Registration Request invalid." ;;; ret arr
  | Some r =>
      cbsdSerialNumber <- gets (fun st => serialNumber (nodes st r)) ;;
      if negb (truthy cbsdSerialNumber) then
        raise AttributeError
      else
        userId <- _grabPossibleEntry request "userId" ;;
        if negb (truthy userId) then
          print "No userId found for simRegistrationReq. Registration Request invalid." ;;;
          ret arr
        else
          fccId <- _grabPossibleEntry request "fccId" ;;
          if negb (truthy fccId) then
            print "No fccId found for simRegistrationReq. Registration Request invalid." ;;;
            ret arr
          else
            callSign <- _grabPossibleEntry request "callSign" ;;
            cbsdCategory <- _grabPossibleEntry request "cbsdCategory" ;;
            cbsdInfo <- _grabPossibleEntry request "cbsdInfo" ;;
            airInterface <- _grabPossibleEntry request "airInterface" ;;
            let installationParam := PNone in
            measCapability <- _grabPossibleEntry request "measCapability" ;;
            groupingParam <- _grabPossibleEntry request "groupingParam" ;;
            cpiSignatureData <- _grabPossibleEntry request "cpiSignatureData" ;;
            vtParams <- _grabPossibleEntry request "vtParams" ;;
            modify (fun st => set_tempNodeList (tempNodeList st ++ [r]) st) ;;;
            ret (arr ++ [mkRegistrationRequest userId fccId cbsdSerialNumber
                           callSign cbsdCategory cbsdInfo airInterface
                           installationParam measCapability groupingParam
                           cpiSignatureData vtParams])
  end.

(** [simRegistrationReq(requests)]: the correlation queue is emptied, then
    rebuilt while the requests are walked. *)
Definition simRegistrationReq (requests : list pyval) : M (list RegistrationRequest) :=
  modify (set_tempNodeList []) ;;;
  for_each simRegistrationReq_body 0 requests [].

(** [if(not isinstance(v, list)): v = [v]] *)
Definition wrap_list (v : pyval) : pyval :=
  match v with PList _ => v | _ => PList [v] end.

(** One iteration of the loop of [handleRegistrationResponse].  The
    measReportConfig branch concatenates a str and a list in its print, so
    it raises TypeError before [setMeasReportConfig] is reached. *)
Definition handleRegistrationResponse_body (iter : nat) (regResponse : pyval)
           (_ : unit) : M unit :=
  print ("Registration Response [" +:+ str_of_nat (iter + 1) +:+ "]:") ;;;
  response <- _grabPossibleEntry regResponse "response" ;;
  valid <- _isValidResponse response ;;
  if negb valid then
    print "Registration invalid."
  else
    c <- _grabPossibleEntry regResponse "cbsdId" ;;
    if truthy c then
      q <- gets tempNodeList ;;
      match q !! iter with
      | None => raise IndexError
      | Some node =>
          modify (upd_node node (Node_setCbsdId c)) ;;;
          ip <- gets (fun st => ipAddress (nodes st node)) ;;
          s1 <- str_add "Node with IP Address: '" ip ;;
          s2 <- str_add (s1 +:+ "' is given CBSD ID# : '") c ;;
          print (s2 +:+ "'.") ;;;
          mrc <- _grabPossibleEntry response "measReportConfig" ;;
          if truthy mrc then
            s <- str_add "Measurment Report Configuration(s) Assigned: " (wrap_list mrc) ;;
            print s ;;;
            modify (upd_node node (Node_setMeasReportConfig (wrap_list mrc)))
          else ret tt
      end
    else
      print "SAS Error: No cbsdId provided. Registration invalid.".

(** [handleRegistrationResponse(clientio, data)] on the decoded payload
    [json_data = json.loads(data)]. *)
Definition handleRegistrationResponse (json_data : pyval) : M unit :=
  regResponses <- _grabPossibleEntry json_data "registrationResponse" ;;
  if negb (truthy regResponses) then
    print "SAS Error: Unreadable data. Expecting JSON formatted payload. Registration invalid."
  else
    print "Registration Response Received" ;;;
    match py_iter regResponses with
    | None => raise TypeError
    | Some els => for_each handleRegistrationResponse_body 0 els tt
    end.

(** ** Grant *)

(** [low] and [high] are locals of the handler assigned only under
    [if(freqRange)]: they keep their value from one iteration to the next
    and are unbound until first assigned. *)
Record Locals := mkLocals { low : option pyval; high : option pyval }.

Definition no_locals : Locals := mkLocals None None.

Definition read_local (v : option pyval) : M pyval :=
  match v with
  | Some x => ret x
  | None => raise UnboundLocalError
  end.

(** The block that prints the operation parameters the SAS suggests when a
    grant or heartbeat is refused. *)
Definition suggestedOperationParam (el : pyval) (loc : Locals) : M Locals :=
  operationParam <- _grabPossibleEntry el "operationParam" ;;
  if truthy operationParam then
    print "Suggested Operation Parameters:" ;;;
    eirp <- _grabPossibleEntry operationParam "maxEirp" ;;
    freqRange <- _grabPossibleEntry operationParam "operationFrequencyRange" ;;
    loc' <- (if truthy freqRange then
               l <- _grabPossibleEntry freqRange "lowFrequency" ;;
               h <- _grabPossibleEntry freqRange "highFrequency" ;;
               ret (mkLocals (Some l) (Some h))
             else ret loc) ;;
    lo <- read_local (low loc') ;;
    if truthy lo then
      hi <- read_local (high loc') ;;
      if truthy hi && truthy eirp then
        s <- str_add "Max EIRP: " eirp ;;
        print s ;;;
        s1 <- str_add "Operation Frequency Range: " lo ;;
        s2 <- str_add (s1 +:+ " - ") hi ;;
        print (s2 +:+ " Hz") ;;;
        ret loc'
      else ret loc'
    else ret loc'
  else ret loc.

Definition apply_grant (gid expire hb ch : pyval) (g : Grant) : Grant :=
  setChanneltype ch
    (setHeartbeatInterval hb
       (setGrantExpireTime expire
          (setGrantStatus GRANTED
             (setGrantId gid g)))).

Definition handleGrantResponse_body (iter : nat) (grantResponse : pyval)
           (loc : Locals) : M Locals :=
  print ("Grant Response [" +:+ str_of_nat (iter + 1) +:+ "]:") ;;;
  response <- _grabPossibleEntry grantResponse "response" ;;
  valid <- _isValidResponse response ;;
  if negb valid then
    loc' <- suggestedOperationParam grantResponse loc ;;
    print "Grant invalid." ;;; ret loc'
  else
    ch <- _grabPossibleEntry grantResponse "channelType" ;;
    if negb (truthy ch) then
      print "No channelType provided. Grant invalid." ;;; ret loc
    else
      gid <- _grabPossibleEntry grantResponse "grantId" ;;
      if negb (truthy gid) then
        print "No grantId provided. Grant invalid" ;;; ret loc
      else
        expire <- _grabPossibleEntry grantResponse "grantExpireTime" ;;
        if negb (truthy expire) then
          print "No grantExpireTime provided. Grant invalid." ;;; ret loc
        else
          hb <- _grabPossibleEntry grantResponse "heartbeatInterval" ;;
          if negb (truthy hb) then
            print "No heartbeatInterval provided. Grant invalid." ;;; ret loc
          else
            c <- _grabPossibleEntry grantResponse "cbsdId" ;;
            if truthy c then
              node <- findTempNodeByCbsdId c ;;
              match node with
              | None =>
                  s <- str_add "No Node awaiting a response has the cbsdId '" c ;;
                  print (s +:+ "'. Grant invalid.") ;;; ret loc
              | Some r =>
                  mrc <- _grabPossibleEntry grantResponse "measReportConfig" ;;
                  (if truthy mrc then
                     modify (upd_node r (Node_setMeasReportConfig (wrap_list mrc)))
                   else ret tt) ;;;
                  modify (upd_node r (fun n =>
                            Node_setGrant (apply_grant gid expire hb ch (grant n)) n)) ;;;
                  ret loc
              end
            else
              print "SAS Error: No cbsdId provided. Grant invalid." ;;; ret loc.

Definition handleGrantResponse (jsonData : pyval) : M unit :=
  grantResponses <- _grabPossibleEntry jsonData "grantResponse" ;;
  if negb (truthy grantResponses) then
    print "Unreadable data. Expecting JSON formatted payload. Grant(s) invalid."
  else
    print "Grant Response Received" ;;;
    match py_iter grantResponses with
    | None => raise TypeError
    | Some els => for_each handleGrantResponse_body 0 els no_locals ;;; ret tt
    end.

(** ** Spectrum inquiry, heartbeat, relinquishment, deregistration *)

Section Handlers.

(** Python built-ins and collaborators outside the module: [float(s)] and
    [int(s)] on a str (the binary64 value the text denotes, infinities and
    nan included, or whether the text is accepted; None and false stand
    for ValueError), the interactive request builder [cmdHeartbeatReq] (it
    reads the prompts of cmd_prompts) and [node_stop], the callback of the
    expiry watchdog, taken to be bound by one of the star imports. *)
Variable float_of_str : string -> option float.
Variable int_ok : string -> bool.
Variable cmdHeartbeatReq : M (list pyval).
Variable node_stop : M unit.

(** [threading.Timer(d, f).start()]: a new pending timer; the call
    evaluates to None. *)
Definition start_timer (d : number) (f : Callback) : M unit :=
  modify (fun st => set_timers (timers st ++ [mkTimer d f Pending]) st).

Definition cancel_timer (k : nat) (st : State) : State :=
  match timers st !! k with
  | Some (mkTimer d f Pending) => set_timers (<[k := mkTimer d f Cancelled]> (timers st)) st
  | _ => st
  end.

(** [__heartbeatTimer.cancel()]: None has no attribute [cancel]. *)
Definition cancel_heartbeatTimer : M unit :=
  t <- gets heartbeatTimer ;;
  match t with
  | None => raise AttributeError
  | Some k => modify (cancel_timer k)
  end.

(** [float(z)] on an int: the nearest binary64 value, ties to even; None
    stands for OverflowError, raised when that value is out of range. *)
Definition float_of_int (z : Z) : option float :=
  match SpecFloat.binary_normalize 53 1024 z 0 false with
  | SpecFloat.S754_infinity _ => None
  | x => Some (SF2Prim x)
  end.

(** [float(v)] *)
Definition py_float (v : pyval) : M float :=
  match v with
  | PStr s => match float_of_str s with Some q => ret q | None => raise ValueError end
  | PInt z => match float_of_int z with Some q => ret q | None => raise OverflowError end
  | PBool b => ret (if b then 1%float else 0%float)
  | _ => raise TypeError
  end.

(** The literal [0.9]: the binary64 value nearest to nine tenths. *)
Definition nine_tenths : float := 0x1.ccccccccccccdp-1%float.

(** [delayTilNextHeartbeat]: [float(heartbeatInterval) * 0.9] in binary64,
    replaced by the int 1 when below 1 (a nan is not below 1). *)
Definition delayTilNextHeartbeat (h : float) : number :=
  let d := PrimFloat.mul h nine_tenths in
  if PrimFloat.ltb d 1%float then NInt 1 else NFloat d.

Definition handleHeartbeatResponse_body (iter : nat) (hbResponse : pyval)
           (loc : Locals) : M Locals :=
  print ("Heartbeat Response [" +:+ str_of_nat (iter + 1) +:+ "]:") ;;;
  response <- _grabPossibleEntry hbResponse "response" ;;
  valid <- _isValidResponse response ;;
  if negb valid then
    loc' <- suggestedOperationParam hbResponse loc ;;
    print "Heartbeat invalid." ;;; ret loc'
  else
    c <- _grabPossibleEntry hbResponse "cbsdId" ;;
    if truthy c then
      node <- findTempNodeByCbsdId c ;;
      match node with
      | None =>
          s <- str_add "No Node awaiting a response has the cbsdId '" c ;;
          print (s +:+ "'. Heartbeat invalid.") ;;; ret loc
      | Some r =>
          gid <- _grabPossibleEntry hbResponse "grantId" ;;
          if negb (truthy gid) then
            print "No grantId provided. Heartbeat invalid" ;;; ret loc
          else
            texp <- _grabPossibleEntry hbResponse "transmitExpireTime" ;;
            if negb (truthy texp) then
              print "No transmitExpireTime provided. Heartbeat invalid." ;;; ret loc
            else
              gexp <- _grabPossibleEntry hbResponse "grantExpireTime" ;;
              if negb (truthy gexp) then
                print "No grantExpireTime provided. Heartbeat invalid." ;;; ret loc
              else
                hb <- _grabPossibleEntry hbResponse "heartbeatInterval" ;;
                if negb (truthy hb) then
                  print "No heartbeatInterval provided. Heartbeat invalid." ;;; ret loc
                else
                  mrc <- _grabPossibleEntry hbResponse "measReportConfig" ;;
                  (if truthy mrc then
                     modify (upd_node r (Node_setMeasReportConfig (wrap_list mrc)))
                   else ret tt) ;;;
                  h <- py_float hb ;;
                  start_timer (delayTilNextHeartbeat h) cb_heartbeatRequest ;;;
                  ret loc
      end
    else
      print "No cbsdId provided. Heartbeat invalid." ;;; ret loc.

(** The handler after its first statement. *)
Definition handleHeartbeatResponse_batch (jsonData : pyval) : M unit :=
  hbResponses <- _grabPossibleEntry jsonData "heartbeatResponse" ;;
  if negb (truthy hbResponses) then
    print "SAS Error: Unreadable data. Expecting JSON formatted payload. Heartbeat(s) invalid."
  else
    print "Heartbeat Response Received" ;;;
    match py_iter hbResponses with
    | None => raise TypeError
    | Some els => for_each handleHeartbeatResponse_body 0 els no_locals ;;; ret tt
    end.

Definition handleHeartbeatResponse (jsonData : pyval) : M unit :=
  cancel_heartbeatTimer ;;;
  handleHeartbeatResponse_batch jsonData.

(** The prompt loop of [heartbeatRequest]; [answers] is what [input] will
    read, one line per call, and reading past its end is EOFError. *)
Definition heartbeatRequest_question : string :=
  "Would you like to manually enter the Heartbeat Request info or load from a file? (E)nter or (L)oad: ".

Fixpoint heartbeatRequest_prompt (answers : list string) : M (option (list pyval)) :=
  print heartbeatRequest_question ;;;
  match answers with
  | [] => raise EOFError
  | dataSource :: rest =>
      if String.eqb dataSource "E" || String.eqb dataSource "e" then
        arr <- cmdHeartbeatReq ;; ret (Some arr)
      else if String.eqb dataSource "L" || String.eqb dataSource "l" then
        ret (Some [PNone])
      else if String.eqb dataSource "exit" then
        ret None
      else
        print "Invalid Entry... Please enter 'E' for Manual Entry or 'L' to load from a config file..." ;;;
        heartbeatRequest_prompt rest
  end.

(** [heartbeatRequest(clientio, payload)].  In simulation mode the function
    calls itself, still in simulation mode, and never gets out
    (RecursionError).  Otherwise the request is emitted, the 240 s
    watchdog is started and [__heartbeatTimer] receives what [start()]
    returns: None. *)
Definition heartbeatRequest (sim_mode : bool) (answers : list string) : M unit :=
  if sim_mode then raise RecursionError
  else
    arrOfRequest <- heartbeatRequest_prompt answers ;;
    match arrOfRequest with
    | None => ret tt
    | Some arr =>
        modify (fun st => set_sent (sent st ++
                  [("heartbeatRequest", PDict [("heartbeatRequest", PList arr)])]) st) ;;;
        start_timer (NInt 240) cb_node_stop ;;;
        modify (set_heartbeatTimer None)
    end.

(** What a timer thread runs when the timer expires: [function()] with no
    argument.  [heartbeatRequest] has a required positional parameter
    ([clientio]), so calling it that way is a TypeError. *)
Definition run_callback (f : Callback) : M unit :=
  match f with
  | cb_node_stop => node_stop
  | cb_heartbeatRequest => raise TypeError
  end.

Definition fire_timer (k : nat) : M unit :=
  l <- gets timers ;;
  match l !! k with
  | Some (mkTimer d f Pending) =>
      modify (set_timers (<[k := mkTimer d f Fired]> l)) ;;;
      run_callback f
  | _ => ret tt
  end.

(** Modelled from the spec: [Node.getGrantRequest] and [Grant.__init__]
    belong to the classes that are not part of the sources; the first is
    taken to return the Node's Grant, the second to put it back in its
    empty state (status NONE, no field set). *)
Definition reset_grant (n : Node) : Node := Node_setGrant emptyGrant n.

Definition handleRelinquishmentResponse_body (iter : nat) (relinquishment : pyval)
           (_ : unit) : M unit :=
  print ("Relinquishment Response [" +:+ str_of_nat (iter + 1) +:+ "]:") ;;;
  response <- _grabPossibleEntry relinquishment "response" ;;
  valid <- _isValidResponse response ;;
  if negb valid then
    print "Relinquishment invalid."
  else
    c <- _grabPossibleEntry relinquishment "cbsdId" ;;
    if truthy c then
      node <- findTempNodeByCbsdId c ;;
      match node with
      | None =>
          s <- str_add "No Node awaiting a response has the cbsdId '" c ;;
          print (s +:+ "'. Relinquishment invalid.")
      | Some r =>
          gid <- _grabPossibleEntry relinquishment "grantId" ;;
          if negb (truthy gid) then
            print "No grantId provided. Relinquishment invalid"
          else
            modify (upd_node r reset_grant)
      end
    else
      print "No cbsdId provided. Heartbeat invalid.".

Definition handleRelinquishmentResponse (jsonData : pyval) : M unit :=
  relinquishResponses <- _grabPossibleEntry jsonData "relinquishmentResponse" ;;
  if negb (truthy relinquishResponses) then
    print "Unreadable data. Expecting JSON formatted payload. Relinquishment(s) invalid."
  else
    print "Relinquishment Response Received" ;;;
    match py_iter relinquishResponses with
    | None => raise TypeError
    | Some els => for_each handleRelinquishmentResponse_body 0 els tt
    end.

(** [isVaildInt(value)]: [int(value)] with ValueError reported. *)
Definition isVaildInt (value : pyval) : M bool :=
  match value with
  | PStr s =>
      if int_ok s then ret true
      else print ("'" +:+ s +:+ "' is not a vaild int") ;;; ret false
  | PInt _ | PBool _ => ret true
  | _ => raise TypeError
  end.

(** One iteration of [handleSpectrumInquiryResponse].  The fields are read
    with plain subscripts (KeyError when missing) into locals nothing
    uses; the print of the decoded code adds an int to a str. *)
Definition handleSpectrumInquiryResponse_body (iter : nat) (SIResponse : pyval)
           (_ : unit) : M unit :=
  print_value SIResponse ;;;
  _ <- py_index SIResponse "cbsdId" ;;
  _ <- py_index SIResponse "availableChannel" ;;
  response <- py_index SIResponse "response" ;;
  if truthy response then
    responseCode <- py_index response "responseCode" ;;
    (if truthy responseCode then
       ok <- isVaildInt responseCode ;;
       if ok then raise TypeError else ret tt
     else ret tt) ;;;
    _ <- py_index response "responseMessage" ;;
    _ <- py_index response "responseData" ;;
    ret tt
  else ret tt.

Definition handleSpectrumInquiryResponse (jsonData : pyval) : M unit :=
  l <- py_index jsonData "spectrumInquiryResponse" ;;
  match py_iter l with
  | None => raise TypeError
  | Some els => for_each handleSpectrumInquiryResponse_body 0 els tt
  end.

Definition handleDeregistrationResponse_body (iter : nat) (dereg : pyval)
           (_ : unit) : M unit :=
  _ <- py_index dereg "cbsdId" ;;
  _ <- py_index dereg "response" ;;
  ret tt.

Definition handleDeregistrationResponse (jsonData : pyval) : M unit :=
  l <- py_index jsonData "deregistrationResponse" ;;
  match py_iter l with
  | None => raise TypeError
  | Some els => for_each handleDeregistrationResponse_body 0 els tt
  end.

End Handlers.

(** ** The other request builders *)

(** Modelled from the spec: the request classes of module WinnForum are not
    part of the sources; each request object keeps its constructor
    arguments, in the order the builders pass them. *)
Record SpectrumInquiryRequest := mkSpectrumInquiryRequest {
  si_cbsdId : pyval;
  si_inquiredSpectrum : pyval;
  si_measReport : pyval
}.

Record GrantRequest := mkGrantRequest {
  gr_cbsdId : pyval;
  gr_operationParam : pyval;
  gr_measReport : pyval;
  gr_vtGrantParams : pyval
}.

Record RelinquishmentRequest := mkRelinquishmentRequest {
  rl_cbsdId : pyval;
  rl_grantId : pyval
}.

Record DeregistrationRequest := mkDeregistrationRequest {
  dr_cbsdId : pyval
}.

(** The diagnostic the builders share for a Node without cbsdId, [what]
    being the kind of request. *)
Definition print_no_cbsdId (r : nat) (what : string) : M unit :=
  ip <- gets (fun st => ipAddress (nodes st r)) ;;
  s <- str_add "No cbsdId found for the node with IP Address: '" ip ;;
  print (s +:+ "'. " +:+ what +:+ " Request invalid.").

Definition enqueue (r : nat) : M unit :=
  modify (fun st => set_tempNodeList (tempNodeList st ++ [r]) st).

(** One iteration of [simSpectrumInquiryReq]. *)
Definition simSpectrumInquiryReq_body (iter : nat) (request : pyval)
           (arr : list SpectrumInquiryRequest) : M (list SpectrumInquiryRequest) :=
  print ("Spectrum Inquiry Request [" +:+ str_of_nat (iter + 1) +:+ "':") ;;;
  node <- reqAddressToNode request true ;;
  match node with
  | None => print "Spectrum Inquiry Request invalid." ;;; ret arr
  | Some r =>
      c <- gets (fun st => cbsdId (nodes st r)) ;;
      if negb (truthy c) then
        print_no_cbsdId r "Spectrum Inquiry" ;;; ret arr
      else
        inquiredSpectrum <- _grabPossibleEntry request "inquiredSpectrum" ;;
        measReport <- _grabPossibleEntry request "measReport" ;;
        enqueue r ;;;
        ret (arr ++ [mkSpectrumInquiryRequest c inquiredSpectrum measReport])
  end.

Definition simSpectrumInquiryReq (requests : list pyval) : M (list SpectrumInquiryRequest) :=
  modify (set_tempNodeList []) ;;;
  for_each simSpectrumInquiryReq_body 0 requests [].

(** One iteration of [simGrantReq]. *)
Definition simGrantReq_body (iter : nat) (request : pyval)
           (arr : list GrantRequest) : M (list GrantRequest) :=
  print ("Grant Request [" +:+ str_of_nat (iter + 1) +:+ "':") ;;;
  node <- reqAddressToNode request true ;;
  match node with
  | None => print "Grant Request invalid." ;;; ret arr
  | Some r =>
      c <- gets (fun st => cbsdId (nodes st r)) ;;
      if negb (truthy c) then
        print_no_cbsdId r "Grant" ;;; ret arr
      else
        measReport <- _grabPossibleEntry request "measReport" ;;
        operationParam <- _grabPossibleEntry request "operationParam" ;;
        if negb (truthy operationParam) then
          print "No opeartionParam found. Grant Request invalid." ;;; ret arr
        else
          vtGrantParams <- _grabPossibleEntry request "vtGrantParams" ;;
          enqueue r ;;;
          ret (arr ++ [mkGrantRequest c operationParam measReport vtGrantParams])
  end.

Definition simGrantReq (requests : list pyval) : M (list GrantRequest) :=
  modify (set_tempNodeList []) ;;;
  for_each simGrantReq_body 0 requests [].

(** One iteration of [simRelinquishmentReq].  The counter [iter] of the
    source stays at 0, so every header reads [1].  When no Node is found
    the diagnostic calls [getIpAddress] on None: AttributeError. *)
Definition simRelinquishmentReq_body (_ : nat) (request : pyval)
           (arr : list RelinquishmentRequest) : M (list RelinquishmentRequest) :=
  print ("Creating Relinquishment Request [" +:+ str_of_nat (0 + 1) +:+ "]:") ;;;
  node <- reqAddressToNode request true ;;
  match node with
  | None => raise AttributeError
  | Some r =>
      c <- gets (fun st => cbsdId (nodes st r)) ;;
      if negb (truthy c) then
        print_no_cbsdId r "Relinquishment" ;;; ret arr
      else
        gid <- gets (fun st => grantId (grant (nodes st r))) ;;
        enqueue r ;;;
        ret (arr ++ [mkRelinquishmentRequest c gid])
  end.

Definition simRelinquishmentReq (requests : list pyval) : M (list RelinquishmentRequest) :=
  modify (set_tempNodeList []) ;;;
  for_each simRelinquishmentReq_body 0 requests [].

(** One iteration of [simDeregistrationReq]; same counter, same
    diagnostic on None. *)
Definition simDeregistrationReq_body (_ : nat) (request : pyval)
           (arr : list DeregistrationRequest) : M (list DeregistrationRequest) :=
  print ("Creating Deregistration Request [" +:+ str_of_nat (0 + 1) +:+ "]:") ;;;
  node <- reqAddressToNode request true ;;
  match node with
  | None => raise AttributeError
  | Some r =>
      c <- gets (fun st => cbsdId (nodes st r)) ;;
      if negb (truthy c) then
        print_no_cbsdId r "Deregistration" ;;; ret arr
      else
        enqueue r ;;;
        ret (arr ++ [mkDeregistrationRequest c])
  end.

Definition simDeregistrationReq (requests : list pyval) : M (list DeregistrationRequest) :=
  modify (set_tempNodeList []) ;;;
  for_each simDeregistrationReq_body 0 requests [].

Section Builders.

(** Collaborators outside the module: the serial number the radio at an
    address reports when [Node(address)] is built, [asdict] of a
    registration request, and the interactive builders, which read the
    prompts of cmd_prompts. *)
Variable serial_of : pyval -> pyval.
Variable RegistrationRequest_asdict : RegistrationRequest -> pyval.
Variable cmdRegistrationReq : M (list pyval).
Variable cmdGrantReq : M (list pyval).

(** Modelled from the spec: [Node(address)], a Node with that address, the
    serial number its radio reports, no cbsdId and an empty Grant. *)
Definition Node_new (address : pyval) : Node :=
  mkNode address (serial_of address) PNone PNone emptyGrant.

Definition warn_missing (v : pyval) (what : string) : M unit :=
  if negb (truthy v) then print ("No " +:+ what +:+ " found for simCreateNode.")
  else ret tt.

(** One iteration of [simCreateNode]; [arr] holds the Nodes built so far,
    objects no global list refers to yet. *)
Definition simCreateNode_body (_ : nat) (request : pyval) (arr : list Node)
  : M (list Node) :=
  usrpMode <- _grabPossibleEntry request "mode" ;;
  if negb (truthy usrpMode) then
    print "No usrpMode found for simCreateNode. Node not created." ;;; ret arr
  else
    address <- _grabPossibleEntry request "address" ;;
    if negb (truthy address) then
      print "No address found for simCreateNode. Node not created." ;;; ret arr
    else
      known <- findCreatedNodeByIp address ;;
      match known with
      | Some _ =>
          print "IP Address already belongs to a created Node. Node not created." ;;;
          ret arr
      | None =>
          centerFreq <- _grabPossibleEntry request "centerFreq" ;;
          if negb (truthy centerFreq) then
            print "No centerFreq found for simCreateNode. Node not created." ;;; ret arr
          else
            gain <- _grabPossibleEntry request "gain" ;;
            warn_missing gain "gain" ;;;
            sampleRate <- _grabPossibleEntry request "sampleRate" ;;
            warn_missing sampleRate "sampleRate" ;;;
            signalAmp <- _grabPossibleEntry request "signalAmp" ;;
            warn_missing signalAmp "signalAmp" ;;;
            waveform <- _grabPossibleEntry request "waveform" ;;
            (if negb (truthy waveform) && py_eq usrpMode (PStr "TX")
             then print "No waveform found for simCreateNode."
             else ret tt) ;;;
            if py_eq usrpMode (PStr "TX") || py_eq usrpMode (PStr "RX")
            then ret (arr ++ [Node_new address])
            else ret arr
      end.

Definition simCreateNode (requests : list pyval) : M (list Node) :=
  for_each simCreateNode_body 0 requests [].

(** The prompt loop the request functions share: the question, the
    interactive builder behind answer E, the array behind answer L. *)
Fixpoint request_prompt (question : string) (cmd : M (list pyval))
         (config : list pyval) (answers : list string) : M (option (list pyval)) :=
  print question ;;;
  match answers with
  | [] => raise EOFError
  | dataSource :: rest =>
      if String.eqb dataSource "E" || String.eqb dataSource "e" then
        arr <- cmd ;; ret (Some arr)
      else if String.eqb dataSource "L" || String.eqb dataSource "l" then
        ret (Some config)
      else if String.eqb dataSource "exit" then
        ret None
      else
        print "Invalid Entry... Please enter 'E' for Manual Entry or 'L' to load from a config file..." ;;;
        request_prompt question cmd config rest
  end.

Definition emit (event : string) (payload : pyval) : M unit :=
  modify (fun st => set_sent (sent st ++ [(event, payload)]) st).

(** [registrationRequest(clientio, payload)]: in simulation mode the array
    comes from [simRegistrationReq] (which empties the queue before it
    starts to walk the payload, iterable or not); otherwise from the
    prompt, where the configuration file stands for an empty array. *)
Definition registrationRequest (sim_mode : bool) (payload : pyval)
           (answers : list string) : M unit :=
  arrOfRequest <-
    (if sim_mode then
       match py_iter payload with
       | None => modify (set_tempNodeList []) ;;; raise TypeError
       | Some requests =>
           arr <- simRegistrationReq requests ;;
           ret (Some (map RegistrationRequest_asdict arr))
       end
     else
       request_prompt
         "Would you like to manually enter the registraion info or load from a file? (E)nter or (L)oad: "
         cmdRegistrationReq [] answers) ;;
  match arrOfRequest with
  | None => ret tt
  | Some arr => emit "registrationRequest" (PDict [("registrationRequest", PList arr)])
  end.

(** [grantRequest(clientio, payload)]: the prompt loop is not under an
    [else], so it runs in simulation mode too and what it yields replaces
    the array [simGrantReq] has built. *)
Definition grantRequest (sim_mode : bool) (payload : pyval)
           (answers : list string) : M unit :=
  (if sim_mode then
     match py_iter payload with
     | None => modify (set_tempNodeList []) ;;; raise TypeError
     | Some requests => simGrantReq requests ;;; ret tt
     end
   else ret tt) ;;;
  arrOfRequest <-
    request_prompt
      "Would you like to manually enter the Grant Request info or load from a file? (E)nter or (L)oad: "
      cmdGrantReq [PNone] answers ;;
  match arrOfRequest with
  | None => ret tt
  | Some arr => emit "grantRequest" (PDict [("grantRequest", PList arr)])
  end.

End Builders.

(** ** Predicates used by the statements *)

(** The state without its terminal output. *)
Definition core (st : State) : State := set_out [] st.

(** Everything but the terminal output is the same in [st'] as in [st]. *)
Definition same_core (st st' : State) : Prop := core st' = core st.

(** A computation that, returning or raising, only prints. *)
Definition prints_only {A} (m : M A) : Prop :=
  forall st, same_core st (final (m st)).

(** A computation whose effect on the state, output aside, is within the
    relation [P], whether it returns or raises. *)
Definition within (P : State -> State -> Prop) {A} (m : M A) : Prop :=
  forall st, P (core st) (core (final (m st))).

(** The state after some more lines were printed. *)
Definition printed (ls : list outline) (st : State) : State :=
  set_out (out st ++ ls) st.

(** What one registration response element may do to the state: nothing,
    or give the Node at index [iter] of the correlation queue the cbsdId
    the element carries. *)
Definition assigns_cbsdId (iter : nat) (el : pyval) (s s' : State) : Prop :=
  s' = s \/
  exists r c, tempNodeList s !! iter = Some r /\ field el "cbsdId" = Some c /\
              truthy c = true /\ s' = upd_node r (Node_setCbsdId c) s.

(** From [s] to [s'] no Node other than [r] has changed, and neither have
    the queue and the registry. *)
Definition touches_only (r : nat) (s s' : State) : Prop :=
  tempNodeList s' = tempNodeList s /\ created_nodes s' = created_nodes s /\
  forall r', r' <> r -> nodes s' r' = nodes s r'.

(** The Node a cbsdId resolves to through the correlation queue: the
    lookup [findTempNodeByCbsdId] makes. *)
Definition resolve_in_queue (st : State) (c : pyval) : option nat :=
  find_node (fun n => py_eq (cbsdId n) c) (nodes st) (tempNodeList st).

(** The lookup as the spec words it, through the device registry: the
    Nodes of [created_nodes]. *)
Definition resolve_in_registry (st : State) (c : pyval) : option nat :=
  find_node (fun n => py_eq (cbsdId n) c) (nodes st) (created_nodes st).

(** From [s] to [s'] the only Node that may have changed is the one the
    cbsdId of [el] resolves to through the correlation queue. *)
Definition only_resolved (el : pyval) (s s' : State) : Prop :=
  tempNodeList s' = tempNodeList s /\ created_nodes s' = created_nodes s /\
  forall r', nodes s' r' <> nodes s r' ->
    exists c, field el "cbsdId" = Some c /\ truthy c = true /\
              resolve_in_queue s c = Some r'.

(** No timer was started, cancelled or fired from [s] to [s']. *)
Definition same_timers (s s' : State) : Prop :=
  timers s' = timers s /\ heartbeatTimer s' = heartbeatTimer s.

(** The envelope of a response element is missing, or has no responseCode,
    or has a responseCode other than "0". *)
Definition envelope_failed (el : pyval) : Prop :=
  field el "response" = None \/
  exists r, field el "response" = Some r /\
    (field r "responseCode" = None \/
     exists c, field r "responseCode" = Some c /\ c <> PStr "0").

(** The field [k] of [el] is there with a value Python takes as true: what
    the handlers call "provided". *)
Definition provided (el : pyval) (k : string) : bool :=
  match field el k with
  | Some v => truthy v
  | None => false
  end.

Definition is_str (v : pyval) : bool :=
  match v with PStr _ => true | _ => false end.

(** An optional text field that the validity check can print: absent,
    false, or a str. *)
Definition printable (v : option pyval) : bool :=
  match v with
  | None => true
  | Some v => negb (truthy v) || is_str v
  end.

(** The envelope reports success: responseCode is "0" and nothing stops the
    validity check before it says so. *)
Definition reports_success (resp : pyval) : bool :=
  match resp with
  | PDict d =>
      truthy resp &&
      match dict_get "responseCode" d with
      | Some (PStr c) => String.eqb c "0"
      | _ => false
      end &&
      printable (dict_get "responseMessage" d) &&
      printable (dict_get "responseData" d)
  | _ => false
  end.

(** The value [_grabPossibleEntry] hands back for a looked-up key. *)
Definition get_or_none (v : option pyval) : pyval :=
  match v with Some x => x | None => PNone end.

(** The optional measReportConfig of a grant or heartbeat response,
    stored as a list in the Node [r]. *)
Definition apply_measReportConfig (el : pyval) (r : nat) (st : State) : State :=
  let mrc := get_or_none (field el "measReportConfig") in
  if truthy mrc then upd_node r (Node_setMeasReportConfig (wrap_list mrc)) st else st.

(** The diagnostic of a handler ([what] is Grant, Heartbeat or
    Relinquishment) for a cbsdId no Node of the queue has. *)
Definition unresolved_report (c what : string) : outline :=
  Line ("No Node awaiting a response has the cbsdId '" +:+ (c +:+ ("'. " +:+ what +:+ " invalid."))).

(** The first line [simRegistrationReq] prints for a parameter set. *)
Definition registration_header (iter : nat) : outline :=
  Line ("Creating Registration Request [" +:+ str_of_nat (iter + 1) +:+ "]:").

(** The line for an optional text field, when it is a non-empty str. *)
Definition opt_line (label : string) (v : option pyval) : list outline :=
  match v with
  | Some (PStr s) => if String.eqb s "" then [] else [Line (label +:+ s)]
  | _ => []
  end.

(** What the validity check prints for an envelope [d] whose code is the
    str [c]. *)
Definition envelope_lines (c : string) (d : list (string * pyval)) : list outline :=
  [Line ("Response Code: " +:+ c)] ++
  opt_line "Response Message: " (dict_get "responseMessage" d) ++
  opt_line "Response Data: " (dict_get "responseData" d).

Definition nonzero_code_error : outline :=
  Line "SAS Error: Registration Unsuccessful (non-zero response code).".

(** [float(s)] on unsigned decimal integer literals, the texts the
    examples use. *)
Fixpoint digits_value (s : string) (acc : Z) : option Z :=
  match s with
  | EmptyString => Some acc
  | String c r =>
      let n := Ascii.nat_of_ascii c in
      if (48 <=? n)%nat && (n <=? 57)%nat
      then digits_value r (10 * acc + Z.of_nat (n - 48))%Z
      else None
  end.

Definition float_of_digits (s : string) : option float :=
  match s with
  | EmptyString => None
  | _ => option_map (fun z => SF2Prim (SpecFloat.binary_normalize 53 1024 z 0 false))
                    (digits_value s 0%Z)
  end.

Definition int_ok_digits (s : string) : bool :=
  match float_of_digits s with Some _ => true | None => false end.

(** ** Predicates for the builders and the other handlers *)

(** What holds of the result and the state when [m] returns. *)
Definition wp {A} (m : M A) (Q : A -> State -> Prop) (st : State) : Prop :=
  match m st with
  | Ok a st' => Q a st'
  | Raise _ _ => True
  end.

(** Everything but the correlation queue and the terminal output is the
    same in [s'] as in [s]. *)
Definition same_but_queue (s s' : State) : Prop :=
  set_tempNodeList [] (core s') = set_tempNodeList [] (core s).

(** The Node [r] is one [reqAddressToNode] may return for [request]: a
    created Node whose address is the nodeIp of the request, registered
    when that is asked for. *)
Definition found_by_ip (request : pyval) (mustBeRegistered : bool) (st : State)
           (r : nat) : Prop :=
  r ∈ created_nodes st /\
  (exists a, field request "nodeIp" = Some a /\ truthy a = true /\
             py_eq a (ipAddress (nodes st r)) = true) /\
  (mustBeRegistered = true -> truthy (cbsdId (nodes st r)) = true).

(** A request of the array and the Node queued with it, builder by
    builder. *)
Definition reg_entry (st : State) (rq : RegistrationRequest) (r : nat) : Prop :=
  r ∈ created_nodes st /\
  rq_cbsdSerialNumber rq = serialNumber (nodes st r) /\
  truthy (rq_cbsdSerialNumber rq) = true /\
  truthy (rq_userId rq) = true /\ truthy (rq_fccId rq) = true.

Definition si_entry (st : State) (rq : SpectrumInquiryRequest) (r : nat) : Prop :=
  r ∈ created_nodes st /\
  si_cbsdId rq = cbsdId (nodes st r) /\ truthy (si_cbsdId rq) = true.

Definition grant_entry (st : State) (rq : GrantRequest) (r : nat) : Prop :=
  r ∈ created_nodes st /\
  gr_cbsdId rq = cbsdId (nodes st r) /\ truthy (gr_cbsdId rq) = true /\
  truthy (gr_operationParam rq) = true.

Definition rel_entry (st : State) (rq : RelinquishmentRequest) (r : nat) : Prop :=
  r ∈ created_nodes st /\
  rl_cbsdId rq = cbsdId (nodes st r) /\ truthy (rl_cbsdId rq) = true /\
  rl_grantId rq = grantId (grant (nodes st r)).

Definition dereg_entry (st : State) (rq : DeregistrationRequest) (r : nat) : Prop :=
  r ∈ created_nodes st /\
  dr_cbsdId rq = cbsdId (nodes st r) /\ truthy (dr_cbsdId rq) = true.

(** The array [arr] and the queue of [st] go together entry by entry, the
    Nodes and the registry being those of [st0]. *)
Definition built {X} (entry : State -> X -> nat -> Prop) (st0 : State)
           (arr : list X) (st : State) : Prop :=
  nodes st = nodes st0 /\ created_nodes st = created_nodes st0 /\
  Forall2 (entry st0) arr (tempNodeList st).

(** A parameter set [simCreateNode] builds a Node for, no created Node
    having its address. *)
Definition creatable (st : State) (request : pyval) (address : pyval) : Prop :=
  field request "address" = Some address /\ truthy address = true /\
  provided request "centerFreq" = true /\
  (field request "mode" = Some (PStr "TX") \/ field request "mode" = Some (PStr "RX")) /\
  Forall (fun r => py_eq address (ipAddress (nodes st r)) = false) (created_nodes st).

(** ** Scenario data *)

Definition blankNode (ip serial : string) : Node :=
  mkNode (PStr ip) (PStr serial) PNone PNone emptyGrant.

Definition envelope (code : string) : pyval :=
  PDict [("responseCode", PStr code)].

(** Two radios: the first registered as "CBSD-1", the second not
    registered yet. *)
Definition radio1 : Node :=
  mkNode (PStr "10.0.0.1") (PStr "S1") (PStr "CBSD-1") PNone emptyGrant.

Definition radio2 : Node := blankNode "10.0.0.2" "S2".

(** A third radio whose hardware reports no serial number. *)
Definition radio3 : Node := mkNode (PStr "10.0.0.3") PNone PNone PNone emptyGrant.

Definition lab_nodes (r : nat) : Node :=
  match r with
  | 0 => radio1
  | 1 => radio2
  | 2 => radio3
  | _ => blankNode "" ""
  end.

(** Both radios created, the first one waiting for a response. *)
Definition st_lab : State :=
  mkState lab_nodes [0; 1] [0] None [] [] [].

(** The same, the first radio holding grant "G1". *)
Definition grantG1 : Grant :=
  mkGrant (PStr "G1") GRANTED (PStr "2021-03-01T00:00:00Z") PNone (PStr "10") (PStr "GAA").

Definition st_granted : State := upd_node 0 (Node_setGrant grantG1) st_lab.

(** The same as [st_lab], but the queue has been rebuilt by a batch the
    first radio was not part of. *)
Definition st_stale : State := set_tempNodeList [] st_lab.

(** A grant response element with every field the handler asks for, and
    the same with a heartbeatInterval of 0. *)
Definition grant_element (hb : pyval) : pyval :=
  PDict [("response", envelope "0");
         ("cbsdId", PStr "CBSD-1");
         ("grantId", PStr "G2");
         ("channelType", PStr "GAA");
         ("grantExpireTime", PStr "2021-03-01T00:00:00Z");
         ("heartbeatInterval", hb)].

(** A response element refused by the SAS with code 103. *)
Definition el_refused : pyval :=
  PDict [("response", PDict [("responseCode", PStr "103");
                             ("responseMessage", PStr "INVALID_VALUE")]);
         ("cbsdId", PStr "CBSD-1");
         ("grantId", PStr "G2")].

(** The second radio asks to be registered; the SAS answers with a
    cbsdId. *)
Definition reg_requests : list pyval :=
  [PDict [("nodeIp", PStr "10.0.0.2"); ("userId", PStr "U1"); ("fccId", PStr "F1")]].

Definition reg_response (c : string) : pyval :=
  PDict [("response", envelope "0"); ("cbsdId", PStr c)].

Definition st_reg_sent : State := final (simRegistrationReq reg_requests st_lab).

Definition arr_reg_sent : list RegistrationRequest :=
  match simRegistrationReq reg_requests st_lab with
  | Ok arr _ => arr
  | Raise _ _ => []
  end.

(** A registration response with three elements for a queue of one. *)
Definition reg_batch3 : pyval :=
  PDict [("registrationResponse",
          PList ([reg_response "CBSD-2"] ++ reg_response "CBSD-3" :: [reg_response "CBSD-4"]))].

(** The envelope of [el_refused]. *)
Definition refusal : list (string * pyval) :=
  [("responseCode", PStr "103"); ("responseMessage", PStr "INVALID_VALUE")].

(** The three radios created; a batch that asks to register the third,
    then the second. *)
Definition st_lab3 : State :=
  mkState lab_nodes [0; 1; 2] [0] None [] [] [].

Definition reg_requests3 : list pyval :=
  PDict [("nodeIp", PStr "10.0.0.3"); ("userId", PStr "U3"); ("fccId", PStr "F3")]
  :: reg_requests.

(** The first radio holds grant "G1"; its expiry watchdog and a renewal
    timer are pending. *)
Definition st_timers : State :=
  set_timers [mkTimer (NInt 240) cb_node_stop Pending;
              mkTimer (NFloat 9%float) cb_heartbeatRequest Pending]
             st_granted.

Definition relinquishment_element : pyval :=
  PDict [("response", envelope "0"); ("cbsdId", PStr "CBSD-1"); ("grantId", PStr "G1")].

Definition heartbeat_element (hb : pyval) : pyval :=
  PDict [("response", envelope "0");
         ("cbsdId", PStr "CBSD-1");
         ("grantId", PStr "G1");
         ("transmitExpireTime", PStr "2021-03-01T00:04:00Z");
         ("grantExpireTime", PStr "2021-03-01T00:00:00Z");
         ("heartbeatInterval", hb)].

Definition heartbeat_batch (hb : pyval) : pyval :=
  PDict [("heartbeatResponse", PList [heartbeat_element hb])].

(** Parameter sets of the simulation file for the first radio: a grant
    request with an operationParam, and one that only names the radio. *)
Definition grant_requests : list pyval :=
  [PDict [("nodeIp", PStr "10.0.0.1");
          ("operationParam", PDict [("maxEirp", PStr "30")])]].

Definition radio1_requests : list pyval :=
  [PDict [("nodeIp", PStr "10.0.0.1")]].

(** A parameter set of [createNode] for a radio not created yet. *)
Definition create_request : pyval :=
  PDict [("mode", PStr "TX"); ("address", PStr "10.0.0.9");
         ("centerFreq", PInt 3555); ("gain", PInt 10);
         ("sampleRate", PInt 1); ("signalAmp", PInt 1);
         ("waveform", PStr "sine")].

(** The serial number a radio reports, for the scenarios. *)
Definition lab_serial (address : pyval) : pyval := PStr "S9".

(** A successful spectrum inquiry response element, and a refused grant
    whose suggested operationParam gives a power but no frequency range. *)
Definition inquiry_element : pyval :=
  PDict [("cbsdId", PStr "CBSD-1");
         ("availableChannel", PList [PDict [("channelType", PStr "GAA")]]);
         ("response", envelope "0")].

Definition el_suggested_power : pyval :=
  PDict [("cbsdId", PStr "CBSD-1");
         ("operationParam", PDict [("maxEirp", PStr "20")]);
         ("response", envelope "400")].

(** A refusal whose responseData is a list of the offending parameters,
    and a grant response element, complete, whose cbsdId is a number. *)
Definition refusal_with_data : list (string * pyval) :=
  [("responseCode", PStr "102");
   ("responseMessage", PStr "MISSING_PARAM");
   ("responseData", PList [PStr "fccId"])].

Definition grant_element_numeric_id : pyval :=
  PDict [("response", envelope "0");
         ("cbsdId", PInt 7);
         ("grantId", PStr "G7");
         ("channelType", PStr "GAA");
         ("grantExpireTime", PStr "2021-03-01T00:00:00Z");
         ("heartbeatInterval", PStr "10")].

(** * Properties *)

(** ** The monad and the loop *)

Lemma same_core_refl st : same_core st st.
Proof. reflexivity. Qed.

Lemma same_core_trans a b c : same_core a b -> same_core b c -> same_core a c.
Proof. unfold same_core; congruence. Qed.

Lemma same_core_printed ls st : same_core st (printed ls st).
Proof. reflexivity. Qed.

Lemma same_core_nodes st st' : same_core st st' -> nodes st' = nodes st.
Proof. intros H. change (nodes (core st') = nodes (core st)). now rewrite H. Qed.

Lemma same_core_timers st st' : same_core st st' -> timers st' = timers st.
Proof. intros H. change (timers (core st') = timers (core st)). now rewrite H. Qed.

Lemma same_core_queue st st' : same_core st st' -> tempNodeList st' = tempNodeList st.
Proof. intros H. change (tempNodeList (core st') = tempNodeList (core st)). now rewrite H. Qed.

Lemma same_core_heartbeatTimer st st' :
  same_core st st' -> heartbeatTimer st' = heartbeatTimer st.
Proof. intros H. change (heartbeatTimer (core st') = heartbeatTimer (core st)). now rewrite H. Qed.

Lemma prints_only_ret {A} (a : A) : prints_only (ret a).
Proof. intros st; apply same_core_refl. Qed.

Lemma prints_only_raise {A} e : prints_only (@raise A e).
Proof. intros st; apply same_core_refl. Qed.

Lemma prints_only_gets {A} (f : State -> A) : prints_only (gets f).
Proof. intros st; apply same_core_refl. Qed.

Lemma prints_only_print s : prints_only (print s).
Proof. intros st; reflexivity. Qed.

Lemma prints_only_print_value v : prints_only (print_value v).
Proof. intros st; reflexivity. Qed.

Lemma prints_only_bind_ok {A B} (m : M A) (k : A -> M B) :
  prints_only m ->
  (forall st a st', m st = Ok a st' -> prints_only (k a)) ->
  prints_only (bind m k).
Proof.
  intros Hm Hk st. unfold bind. specialize (Hm st).
  destruct (m st) as [a st'|e st'] eqn:E; cbn in *; [|exact Hm].
  eapply same_core_trans; [exact Hm|]. exact (Hk _ _ _ E st').
Qed.

Lemma prints_only_bind {A B} (m : M A) (k : A -> M B) :
  prints_only m -> (forall a, prints_only (k a)) -> prints_only (bind m k).
Proof. intros Hm Hk. apply prints_only_bind_ok; auto. Qed.

Lemma prints_only_str_add s v : prints_only (str_add s v).
Proof. destruct v; first [apply prints_only_ret | apply prints_only_raise]. Qed.

Lemma prints_only_grab e k : prints_only (_grabPossibleEntry e k).
Proof. destruct e; first [apply prints_only_ret | apply prints_only_raise]. Qed.

Lemma prints_only_index e k : prints_only (py_index e k).
Proof.
  destruct e; cbn; try apply prints_only_raise.
  destruct (dict_get k d); first [apply prints_only_ret | apply prints_only_raise].
Qed.

Lemma prints_only_read_local v : prints_only (read_local v).
Proof. destruct v; first [apply prints_only_ret | apply prints_only_raise]. Qed.

Lemma prints_only_findTemp c : prints_only (findTempNodeByCbsdId c).
Proof. apply prints_only_gets. Qed.

Lemma prints_only_findCreated a : prints_only (findCreatedNodeByIp a).
Proof. apply prints_only_gets. Qed.

(** A str and a list cannot be added: the print never happens. *)
Lemma str_add_wrap_list s v : str_add s (wrap_list v) = raise TypeError.
Proof. now destruct v. Qed.

Lemma prints_only_str_add_list {B} s v (k : string -> M B) :
  prints_only (bind (str_add s (wrap_list v)) k).
Proof. intros st. now rewrite str_add_wrap_list. Qed.

Create HintDb py_frame.
#[local] Hint Resolve prints_only_ret prints_only_raise prints_only_gets
  prints_only_print prints_only_print_value prints_only_str_add
  prints_only_grab prints_only_index prints_only_read_local
  prints_only_findTemp prints_only_findCreated : py_frame.

(** Walks through a computation built from binds, tests and matches. *)
Ltac frame_step :=
  match goal with
  | |- prints_only (bind (str_add _ (wrap_list _)) _) => apply prints_only_str_add_list
  | |- prints_only (bind _ _) => apply prints_only_bind; [|intros]
  | |- prints_only (if ?b then _ else _) => destruct b
  | |- prints_only (match ?x with _ => _ end) => destruct x
  | |- prints_only _ => solve [auto with py_frame]
  end.

Ltac frame := repeat frame_step.

Lemma prints_only_isValidResponse r : prints_only (_isValidResponse r).
Proof. unfold _isValidResponse. frame. Qed.

Lemma prints_only_suggested el loc : prints_only (suggestedOperationParam el loc).
Proof. unfold suggestedOperationParam. frame. Qed.

Lemma prints_only_reqAddressToNode rq b : prints_only (reqAddressToNode rq b).
Proof. unfold reqAddressToNode. frame. Qed.

Lemma prints_only_isVaildInt int_ok v : prints_only (isVaildInt int_ok v).
Proof. unfold isVaildInt. frame. Qed.

#[local] Hint Resolve prints_only_isValidResponse prints_only_suggested
  prints_only_reqAddressToNode prints_only_isVaildInt : py_frame.

Lemma prints_only_for_each {L} (body : nat -> pyval -> L -> M L) :
  (forall i el loc, prints_only (body i el loc)) ->
  forall els i loc, prints_only (for_each body i els loc).
Proof.
  intros Hb els; induction els as [|el els IH]; intros i loc; cbn.
  - apply prints_only_ret.
  - apply prints_only_bind; auto.
Qed.

(** The loop over [pre ++ el :: post] is the loop over [pre], then the body
    on [el] with the index [el] has in the batch, then the rest. *)
Lemma for_each_app {L} (body : nat -> pyval -> L -> M L) pre :
  forall i rest loc st,
  for_each body i (pre ++ rest) loc st =
  match for_each body i pre loc st with
  | Ok loc' st' => for_each body (i + length pre) rest loc' st'
  | Raise e st' => Raise e st'
  end.
Proof.
  induction pre as [|x pre IH]; intros i rest loc st; cbn.
  - now rewrite Nat.add_0_r.
  - unfold bind. destruct (body i x loc st) as [loc' st'|e st']; [|reflexivity].
    rewrite IH. now rewrite Nat.add_succ_r.
Qed.

(** Composition rules for [within]. *)
Section WithinTrans.

Variable P : State -> State -> Prop.
Hypothesis P_trans : forall a b c, P a b -> P b c -> P a c.

Lemma within_seq {A B} (m : M A) (k : A -> M B) :
  within P m -> (forall a, within P (k a)) -> within P (bind m k).
Proof.
  intros Hm Hk st. unfold bind. specialize (Hm st).
  destruct (m st) as [a st'|e st']; cbn in *; [|exact Hm].
  eapply P_trans; [exact Hm|apply Hk].
Qed.

Lemma within_pure_modify (f : State -> State) :
  (forall st, P (core st) (core (f st))) -> within P (modify f).
Proof. intros Hf st. apply Hf. Qed.

End WithinTrans.

Section Within.

Variable P : State -> State -> Prop.
Hypothesis P_refl : forall c, P c c.

Lemma within_prints {A} (m : M A) : prints_only m -> within P m.
Proof. intros Hm st. rewrite (Hm st). apply P_refl. Qed.

Lemma within_bind_ok {A B} (m : M A) (k : A -> M B) :
  prints_only m ->
  (forall st a st', m st = Ok a st' -> within P (k a)) ->
  within P (bind m k).
Proof.
  intros Hm Hk st. unfold bind. specialize (Hm st).
  destruct (m st) as [a st'|e st'] eqn:E; cbn in *.
  - rewrite <- Hm. exact (Hk _ _ _ E st').
  - rewrite Hm. apply P_refl.
Qed.

Lemma within_bind {A B} (m : M A) (k : A -> M B) :
  prints_only m -> (forall a, within P (k a)) -> within P (bind m k).
Proof. intros Hm Hk. apply within_bind_ok; auto. Qed.

Lemma within_modify {B} (f : State -> State) (k : unit -> M B) :
  (forall st, P (core st) (core (f st))) ->
  (forall a, prints_only (k a)) ->
  within P (bind (modify f) k).
Proof.
  intros Hf Hk st. unfold bind, modify. rewrite (Hk tt (f st)). apply Hf.
Qed.

End Within.

(** ** The validity check *)

Lemma py_eq_str_true v s : py_eq v (PStr s) = true -> v = PStr s.
Proof.
  destruct v; cbn; try discriminate.
  intros H. apply String.eqb_eq in H. now subst.
Qed.

Lemma grab_field el k st r st' :
  _grabPossibleEntry el k st = Ok r st' ->
  st' = st /\ r = match field el k with Some v => v | None => PNone end.
Proof.
  destruct el; cbn; try discriminate. intros H; inversion H; auto.
Qed.

(** A failed envelope never passes the validity check. *)
Lemma failed_envelope_invalid el st r st1 st2 b st3 :
  envelope_failed el ->
  _grabPossibleEntry el "response" st = Ok r st1 ->
  _isValidResponse r st2 = Ok b st3 ->
  b = false.
Proof.
  intros Hf Hg Hv. apply grab_field in Hg as [_ ->].
  unfold _isValidResponse in Hv.
  destruct Hf as [Hf | (r & Hf & Hc)]; rewrite Hf in Hv; cbn in Hv.
  - inversion Hv; reflexivity.
  - destruct (truthy r) eqn:Tr; [|cbn in Hv; inversion Hv; reflexivity].
    destruct r; cbn in Hv; try discriminate.
    cbn in Hc.
    destruct Hc as [Hc | (c & Hc & Hne)]; rewrite Hc in Hv; cbn in Hv.
    + inversion Hv; reflexivity.
    + destruct (truthy c); cbn in Hv; [|inversion Hv; reflexivity].
      unfold bind in Hv.
      repeat match type of Hv with
             | match ?x with Ok _ _ => _ | Raise _ _ => _ end = _ =>
                 destruct x; [|discriminate]
             end.
      destruct (py_eq c (PStr "0")) eqn:E.
      * apply py_eq_str_true in E. contradiction.
      * cbn in Hv. now inversion Hv.
Qed.

(** ** Failed envelopes *)

Section FailedEnvelope.

Variable float_of_str : string -> option float.
Variable el : pyval.
Hypothesis Hfailed : envelope_failed el.

Lemma grant_body_failed iter loc :
  prints_only (handleGrantResponse_body iter el loc).
Proof.
  unfold handleGrantResponse_body.
  apply prints_only_bind; [frame|intros _].
  apply prints_only_bind_ok; [frame|intros st r st1 Hg].
  apply prints_only_bind_ok; [frame|intros st2 b st3 Hv].
  rewrite (failed_envelope_invalid _ _ _ _ _ _ _ Hfailed Hg Hv). cbn. frame.
Qed.

Lemma heartbeat_body_failed iter loc :
  prints_only (handleHeartbeatResponse_body float_of_str iter el loc).
Proof.
  unfold handleHeartbeatResponse_body.
  apply prints_only_bind; [frame|intros _].
  apply prints_only_bind_ok; [frame|intros st r st1 Hg].
  apply prints_only_bind_ok; [frame|intros st2 b st3 Hv].
  rewrite (failed_envelope_invalid _ _ _ _ _ _ _ Hfailed Hg Hv). cbn. frame.
Qed.

Lemma relinquishment_body_failed iter u :
  prints_only (handleRelinquishmentResponse_body iter el u).
Proof.
  unfold handleRelinquishmentResponse_body.
  apply prints_only_bind; [frame|intros _].
  apply prints_only_bind_ok; [frame|intros st r st1 Hg].
  apply prints_only_bind_ok; [frame|intros st2 b st3 Hv].
  rewrite (failed_envelope_invalid _ _ _ _ _ _ _ Hfailed Hg Hv). cbn. frame.
Qed.

End FailedEnvelope.

(** C2.  Whatever the batch and the position in it, processing a grant,
    heartbeat or relinquishment response element whose envelope is missing,
    has no responseCode, or has a responseCode other than "0" leaves every
    Node's Grant, the resolved one included, with the status and the fields
    it had: the element only prints, whether the handler goes on to the
    next element or stops on an exception. *)
Theorem C2_failed_envelope_keeps_grant :
  forall (float_of_str : string -> option float) (el : pyval) (iter : nat)
         (loc : Locals) (st : State) (r : nat),
    envelope_failed el ->
    grant (nodes (final (handleGrantResponse_body iter el loc st)) r)
      = grant (nodes st r) /\
    grant (nodes (final (handleHeartbeatResponse_body float_of_str iter el loc st)) r)
      = grant (nodes st r) /\
    grant (nodes (final (handleRelinquishmentResponse_body iter el tt st)) r)
      = grant (nodes st r).
Proof.
  intros fos el iter loc st r Hf.
  rewrite (same_core_nodes _ _ (grant_body_failed el Hf iter loc st)).
  rewrite (same_core_nodes _ _ (heartbeat_body_failed fos el Hf iter loc st)).
  rewrite (same_core_nodes _ _ (relinquishment_body_failed el Hf iter tt st)).
  auto.
Qed.

Lemma el_refused_failed : envelope_failed el_refused.
Proof.
  right. eexists. split; [reflexivity|].
  right. eexists. split; [reflexivity|discriminate].
Defined.

Lemma C2_failed_envelope_keeps_grant_witness :
  envelope_failed el_refused /\
  grantStatus (grant (nodes (final (handleGrantResponse_body 0 el_refused no_locals
                                     st_granted)) 0))
    = GRANTED.
Proof.
  split; [exact el_refused_failed|].
  destruct (C2_failed_envelope_keeps_grant float_of_digits el_refused 0
              no_locals st_granted 0 el_refused_failed) as (H & _ & _).
  rewrite H. reflexivity.
Defined.

Lemma printed_printed l1 l2 st : printed l2 (printed l1 st) = printed (l1 ++ l2) st.
Proof. unfold printed, set_out; cbn. now rewrite app_assoc. Qed.

Lemma printed_nil st : printed [] st = st.
Proof. destruct st; unfold printed, set_out; cbn. now rewrite app_nil_r. Qed.

Lemma opt_print label v st :
  printable v = true ->
  (if truthy (get_or_none v)
   then s <- str_add label (get_or_none v) ;; print s
   else ret tt) st = Ok tt (printed (opt_line label v) st).
Proof.
  intros H. rewrite <- (printed_nil st) at 1.
  destruct v as [v|]; [|reflexivity].
  destruct v; cbn in H; try discriminate; try reflexivity.
  - destruct b; [discriminate|reflexivity].
  - cbn. destruct (z =? 0)%Z; [reflexivity|discriminate].
  - cbn. destruct (String.eqb s ""); [reflexivity|]. cbn.
    now rewrite printed_nil.
  - destruct l; [reflexivity|discriminate].
  - destruct d; [reflexivity|discriminate].
Qed.

Lemma bind_run {A B} (m : M A) (k : A -> M B) st :
  bind m k st = match m st with Ok a st' => k a st' | Raise e st' => Raise e st' end.
Proof. reflexivity. Qed.

Lemma bind_ret_l {A B} (a : A) (k : A -> M B) st : bind (ret a) k st = k a st.
Proof. reflexivity. Qed.

Lemma bind_gets {A B} (f : State -> A) (k : A -> M B) st :
  bind (gets f) k st = k (f st) st.
Proof. reflexivity. Qed.

Lemma bind_print {B} l (k : unit -> M B) st :
  bind (print l) k st = k tt (printed [Line l] st).
Proof. reflexivity. Qed.

Lemma print_run l st : print l st = Ok tt (printed [Line l] st).
Proof. reflexivity. Qed.

Lemma bind_modify {B} f (k : unit -> M B) st : bind (modify f) k st = k tt (f st).
Proof. reflexivity. Qed.

Lemma bind_raise {A B} e (k : A -> M B) st : bind (raise e) k st = Raise e st.
Proof. reflexivity. Qed.

Lemma bind_ret_r {A} (m : M A) st : bind m ret st = m st.
Proof. unfold bind. now destruct (m st). Qed.

Lemma bind_opt_print {B} label v (k : unit -> M B) st :
  printable v = true ->
  bind (if truthy (get_or_none v)
        then s <- str_add label (get_or_none v) ;; print s
        else ret tt) k st
  = k tt (printed (opt_line label v) st).
Proof. intros H. unfold bind at 1. now rewrite opt_print. Qed.

Lemma grab_dict d k : _grabPossibleEntry (PDict d) k = ret (get_or_none (dict_get k d)).
Proof. reflexivity. Qed.

Lemma truthy_str c : c <> "" -> truthy (PStr c) = true.
Proof. intros H. cbn. now destruct (String.eqb_spec c ""). Qed.

(** What the validity check does on an envelope whose responseCode is a
    non-empty str and whose message and data can be printed. *)
Lemma isValidResponse_str_code d c st :
  dict_get "responseCode" d = Some (PStr c) ->
  c <> "" ->
  printable (dict_get "responseMessage" d) = true ->
  printable (dict_get "responseData" d) = true ->
  _isValidResponse (PDict d) st =
  if String.eqb c "0"
  then Ok true (printed (envelope_lines c d) st)
  else Ok false (printed (envelope_lines c d ++ [nonzero_code_error]) st).
Proof.
  intros Hc Hne Hm Hd.
  assert (Td : truthy (PDict d) = true) by (destruct d; [discriminate|reflexivity]).
  unfold _isValidResponse. rewrite Td, !grab_dict, bind_ret_l, Hc.
  cbn [get_or_none]. rewrite (truthy_str c Hne). cbn [negb].
  change (str_add "Response Code: " (PStr c)) with (ret ("Response Code: " +:+ c)).
  rewrite bind_ret_l, bind_print, bind_ret_l, bind_opt_print by assumption.
  rewrite bind_ret_l, bind_opt_print by assumption.
  change (py_eq (PStr c) (PStr "0")) with (String.eqb c "0").
  unfold envelope_lines.
  destruct (String.eqb c "0"); cbn [negb].
  - unfold ret. now rewrite !printed_printed.
  - rewrite bind_print. unfold ret, nonzero_code_error.
    now rewrite !printed_printed, <- !app_assoc.
Qed.

Lemma reports_success_dict resp :
  reports_success resp = true ->
  exists d, resp = PDict d /\
            dict_get "responseCode" d = Some (PStr "0") /\
            printable (dict_get "responseMessage" d) = true /\
            printable (dict_get "responseData" d) = true.
Proof.
  destruct resp; try discriminate. cbn [reports_success].
  intros H. apply andb_prop in H as [H Hd]. apply andb_prop in H as [H Hm].
  apply andb_prop in H as [_ Hc].
  destruct (dict_get "responseCode" d) as [[]|] eqn:E; try discriminate.
  apply String.eqb_eq in Hc; subst. exists d. auto.
Qed.

(** An envelope that reports success passes the validity check. *)
Lemma isValidResponse_success resp st :
  reports_success resp = true ->
  exists ls, _isValidResponse resp st = Ok true (printed ls st).
Proof.
  intros H. apply reports_success_dict in H as (d & -> & Hc & Hm & Hd).
  eexists. now rewrite (isValidResponse_str_code d "0" st Hc).
Qed.

Lemma opt_print_fails label v st :
  printable v = false ->
  (if truthy (get_or_none v)
   then s <- str_add label (get_or_none v) ;; print s
   else ret tt) st = Raise TypeError st.
Proof.
  destruct v as [v|]; [|discriminate]. cbn [printable get_or_none].
  intros H. apply orb_false_elim in H as [H1 H2].
  apply negb_false_iff in H1. rewrite H1.
  destruct v; try discriminate; reflexivity.
Qed.

(** Conversely, the validity check returns True only for an envelope that
    reports success. *)
Lemma isValidResponse_true resp st st' :
  _isValidResponse resp st = Ok true st' -> reports_success resp = true.
Proof.
  unfold _isValidResponse. destruct (truthy resp) eqn:T; [|discriminate].
  destruct resp; try discriminate. intros H. rewrite !grab_dict, bind_ret_l in H.
  revert H. unfold reports_success. rewrite T.
  destruct (dict_get "responseCode" d) as [c|]; [|discriminate]. cbn [get_or_none].
  destruct (truthy c); [|discriminate]. cbn [negb].
  destruct c; try discriminate.
  change (str_add "Response Code: " (PStr s)) with (ret ("Response Code: " +:+ s)).
  rewrite bind_ret_l, bind_print, bind_ret_l.
  destruct (printable (dict_get "responseMessage" d)) eqn:Pm;
    [rewrite bind_opt_print by assumption
    |unfold bind at 1; rewrite opt_print_fails by assumption; discriminate].
  rewrite bind_ret_l.
  destruct (printable (dict_get "responseData" d)) eqn:Pd;
    [rewrite bind_opt_print by assumption
    |unfold bind at 1; rewrite opt_print_fails by assumption; discriminate].
  change (py_eq (PStr s) (PStr "0")) with (String.eqb s "0").
  destruct (String.eqb s "0"); [reflexivity|discriminate].
Qed.

(** ** Registration responses *)

Lemma final_modify_prints {B} f (k : unit -> M B) st :
  (forall a, prints_only (k a)) ->
  core (final (bind (modify f) k st)) = core (f st).
Proof. intros Hk. rewrite bind_modify. apply Hk. Qed.

Lemma grab_truthy_field el k st c st' :
  _grabPossibleEntry el k st = Ok c st' -> truthy c = true -> field el k = Some c.
Proof.
  intros Hg Tc. apply grab_field in Hg as [_ ->].
  destruct (field el k); [reflexivity|discriminate].
Qed.

Lemma assigns_cbsdId_refl iter el c : assigns_cbsdId iter el c c.
Proof. now left. Qed.

(** One registration response element does nothing to the state but
    print, or gives its cbsdId to the Node at its index in the queue. *)
Lemma registration_body_within iter el u :
  within (assigns_cbsdId iter el) (handleRegistrationResponse_body iter el u).
Proof.
  pose proof (assigns_cbsdId_refl iter el) as R.
  unfold handleRegistrationResponse_body.
  apply within_bind; [exact R|frame|intros _].
  apply within_bind; [exact R|frame|intros response].
  apply within_bind; [exact R|frame|intros valid].
  destruct valid; cbn [negb]; [|apply within_prints; [exact R|frame]].
  apply within_bind_ok; [exact R|frame|intros st0 c st1 Hg].
  destruct (truthy c) eqn:Tc; [|apply within_prints; [exact R|frame]].
  intros st. rewrite bind_gets.
  destruct (tempNodeList st !! iter) as [node|] eqn:Hq; [|now left].
  rewrite final_modify_prints by (intros; frame).
  right. exists node, c. repeat split; try assumption.
  eapply grab_truthy_field; eassumption.
Qed.

Lemma assigns_cbsdId_queue iter el s s' :
  assigns_cbsdId iter el s s' -> tempNodeList s' = tempNodeList s.
Proof. intros [->|(r & c & _ & _ & _ & ->)]; reflexivity. Qed.

Lemma registration_body_queue iter el u st :
  tempNodeList (final (handleRegistrationResponse_body iter el u st)) = tempNodeList st.
Proof.
  exact (assigns_cbsdId_queue _ _ _ _ (registration_body_within iter el u st)).
Qed.

(** A property of the state that every iteration keeps is kept by the
    loop. *)
Lemma for_each_keeps {L} (body : nat -> pyval -> L -> M L) {X} (f : State -> X) :
  (forall i el loc st, f (final (body i el loc st)) = f st) ->
  forall els i loc st, f (final (for_each body i els loc st)) = f st.
Proof.
  intros Hb els; induction els as [|el els IH]; intros i loc st; cbn; [reflexivity|].
  unfold bind. specialize (Hb i el loc st).
  destruct (body i el loc st) as [loc' st'|e st']; cbn in *; [|exact Hb].
  now rewrite IH.
Qed.


(** The same element at an index the queue does not have: IndexError, and
    nothing but output has changed. *)
Lemma registration_body_index_error i el s resp c :
  field el "response" = Some resp -> reports_success resp = true ->
  field el "cbsdId" = Some c -> truthy c = true ->
  length (tempNodeList s) <= i ->
  exists ls, handleRegistrationResponse_body i el tt s = Raise IndexError (printed ls s).
Proof.
  intros Hr Hs Hc Tc Hq. destruct el; try discriminate. cbn [field] in *.
  unfold handleRegistrationResponse_body.
  rewrite bind_print, grab_dict, bind_ret_l, Hr. cbn [get_or_none].
  match goal with |- context [bind (_isValidResponse resp) ?k ?st] =>
    destruct (isValidResponse_success resp st Hs) as [ls E];
    unfold bind at 1; rewrite E end.
  cbn [negb]. rewrite grab_dict, bind_ret_l, Hc. cbn [get_or_none]. rewrite Tc.
  rewrite bind_gets.
  change (tempNodeList (printed ls (printed _ s))) with (tempNodeList s).
  rewrite (lookup_ge_None_2 _ _ Hq). unfold raise.
  rewrite printed_printed. eauto.
Qed.







Lemma truthy_list_app (pre : list pyval) el post : truthy (PList (pre ++ el :: post)) = true.
Proof. now destruct pre. Qed.

(** C10.  A registration response batch longer than the queue, with an
    element beyond the end of the queue that passes the validity check and
    carries a cbsdId: when the loop gets to that element the subscript
    [tempNodeList[iter]] raises IndexError, the state being the one the
    elements before it have left, output aside; if an element before it has
    raised, that exception is the handler's.  Either way no element after
    it is processed. *)
Theorem C10_registration_index_error :
  forall (json_data : pyval) (st : State) (pre post : list pyval) (el resp c : pyval),
    field json_data "registrationResponse" = Some (PList (pre ++ el :: post)) ->
    length (tempNodeList st) <= length pre ->
    field el "response" = Some resp -> reports_success resp = true ->
    field el "cbsdId" = Some c -> truthy c = true ->
    match for_each handleRegistrationResponse_body 0 pre tt
            (printed [Line "Registration Response Received"] st) with
    | Ok _ s =>
        exists ls, handleRegistrationResponse json_data st = Raise IndexError (printed ls s)
    | Raise e s => handleRegistrationResponse json_data st = Raise e s
    end.
Proof.
  intros json_data st pre post el resp c Hj Hlen Hr Hs Hc Tc.
  destruct json_data; try discriminate. cbn [field] in Hj.
  unfold handleRegistrationResponse.
  rewrite grab_dict, bind_ret_l, Hj. cbn [get_or_none].
  rewrite truthy_list_app. cbn [negb py_iter]. rewrite bind_print, for_each_app.
  pose proof (for_each_keeps handleRegistrationResponse_body tempNodeList
                registration_body_queue pre 0 tt
                (printed [Line "Registration Response Received"] st)) as Hq.
  destruct (for_each handleRegistrationResponse_body 0 pre tt
              (printed [Line "Registration Response Received"] st)) as [u s|e s];
    [|reflexivity].
  cbn in Hq. destruct u. cbn [for_each Nat.add].
  destruct (registration_body_index_error (length pre) el s resp c Hr Hs Hc Tc)
    as [ls E]; [now rewrite Hq|].
  exists ls. unfold bind. now rewrite E.
Qed.

Lemma C10_registration_index_error_witness :
  length (tempNodeList st_reg_sent) <= length [reg_response "CBSD-2"] /\
  reports_success (envelope "0") = true /\
  exists s, handleRegistrationResponse reg_batch3 st_reg_sent = Raise IndexError s.
Proof.
  assert (H1 : length (tempNodeList st_reg_sent) <= length [reg_response "CBSD-2"])
    by (vm_compute; lia).
  assert (H2 : reports_success (envelope "0") = true) by reflexivity.
  split; [exact H1|]. split; [exact H2|].
  pose proof (C10_registration_index_error reg_batch3 st_reg_sent
                [reg_response "CBSD-2"] [reg_response "CBSD-4"]
                (reg_response "CBSD-3") (envelope "0") (PStr "CBSD-3")
                eq_refl H1 eq_refl H2 eq_refl eq_refl) as H.
  destruct (for_each handleRegistrationResponse_body 0 [reg_response "CBSD-2"] tt
              (printed [Line "Registration Response Received"] st_reg_sent))
    as [u s|e s] eqn:E.
  - destruct H as [ls H]. eexists. exact H.
  - vm_compute in E. discriminate E.
Defined.

(** ** Resolution of the Node of a response element *)

Lemma touches_only_refl r c : touches_only r c c.
Proof. repeat split. Qed.

Lemma touches_only_trans r a b c :
  touches_only r a b -> touches_only r b c -> touches_only r a c.
Proof.
  intros (Q1 & C1 & N1) (Q2 & C2 & N2). repeat split; try congruence.
  intros r' Hr. now rewrite N2, N1.
Qed.

Lemma touches_only_upd r f st : touches_only r (core st) (core (upd_node r f st)).
Proof.
  repeat split. intros r' Hr. cbn. now destruct (Nat.eqb_spec r' r).
Qed.

Lemma touches_only_timer r d f st :
  touches_only r (core st) (core (set_timers (timers st ++ [mkTimer d f Pending]) st)).
Proof. repeat split. Qed.

Lemma only_resolved_refl el c : only_resolved el c c.
Proof. repeat split. intros r' H. contradiction. Qed.

Lemma prints_only_py_float fos v : prints_only (py_float fos v).
Proof.
  unfold py_float. destruct v as [| b | z | s | l | d]; auto with py_frame.
  - destruct (float_of_int z); auto with py_frame.
  - destruct (fos s); auto with py_frame.
Qed.

#[local] Hint Resolve prints_only_py_float : py_frame.

(** Walks through the part of a handler body that runs once the Node [r]
    is resolved. *)
Ltac touch_step r :=
  match goal with
  | |- within _ (if ?b then _ else _) => destruct b
  | |- within _ (modify (upd_node _ _)) =>
      apply within_pure_modify; intros; apply touches_only_upd
  | |- within _ (start_timer _ _) =>
      apply within_pure_modify; intros; apply touches_only_timer
  | |- within _ (bind _ _) =>
      first [ apply within_bind; [apply touches_only_refl|solve [frame]|intros]
            | apply within_seq; [apply touches_only_trans| |intros] ]
  | |- within _ _ => apply within_prints; [apply touches_only_refl|solve [frame]]
  end.

(** Walks through the part of a handler body before the Node is looked
    up. *)
Ltac resolve_step el :=
  match goal with
  | |- within _ (if ?b then _ else _) => destruct b eqn:?
  | |- within _ (bind (findTempNodeByCbsdId _) _) => fail 1
  | |- within _ (bind _ _) =>
      apply within_bind_ok; [apply only_resolved_refl|solve [frame]|intros ? ? ? ?]
  | |- within _ _ => apply within_prints; [apply only_resolved_refl|solve [frame]]
  end.

(** The step at which the Node is looked up in the queue. *)
Lemma within_resolution {B} el c st0 st1 (k : option nat -> M B) :
  _grabPossibleEntry el "cbsdId" st0 = Ok c st1 -> truthy c = true ->
  prints_only (k None) ->
  (forall r, within (touches_only r) (k (Some r))) ->
  within (only_resolved el) (bind (findTempNodeByCbsdId c) k).
Proof.
  intros Hg Tc Hn Hs st. unfold findTempNodeByCbsdId. rewrite bind_gets.
  destruct (find_node _ (nodes st) (tempNodeList st)) as [r|] eqn:E.
  - destruct (Hs r st) as (Q & C & N). repeat split; try assumption.
    intros r' Hr'. exists c. repeat split; auto.
    + eapply grab_truthy_field; eassumption.
    + destruct (Nat.eq_dec r' r) as [->|Hne]; [exact E|].
      now apply N in Hne.
  - rewrite (Hn st). apply only_resolved_refl.
Qed.

Lemma grant_body_only_resolved iter el loc :
  within (only_resolved el) (handleGrantResponse_body iter el loc).
Proof.
  unfold handleGrantResponse_body. repeat resolve_step el.
  eapply within_resolution; try eassumption; [frame|intros r].
  repeat touch_step r.
Qed.

Lemma heartbeat_body_only_resolved fos iter el loc :
  within (only_resolved el) (handleHeartbeatResponse_body fos iter el loc).
Proof.
  unfold handleHeartbeatResponse_body. repeat resolve_step el.
  eapply within_resolution; try eassumption; [frame|intros r].
  repeat touch_step r.
Qed.

Lemma relinquishment_body_only_resolved iter el u :
  within (only_resolved el) (handleRelinquishmentResponse_body iter el u).
Proof.
  unfold handleRelinquishmentResponse_body. repeat resolve_step el.
  eapply within_resolution; try eassumption; [frame|intros r].
  repeat touch_step r.
Qed.

Lemma inquiry_body_prints int_ok iter el u :
  prints_only (handleSpectrumInquiryResponse_body int_ok iter el u).
Proof. unfold handleSpectrumInquiryResponse_body. frame. Qed.

Lemma deregistration_body_prints iter el u :
  prints_only (handleDeregistrationResponse_body iter el u).
Proof. unfold handleDeregistrationResponse_body. frame. Qed.

(** The other three kinds of response never write a Grant, whatever the
    envelope says. *)
Lemma other_bodies_keep_grant int_ok iter el st r :
  grant (nodes (final (handleRegistrationResponse_body iter el tt st)) r)
    = grant (nodes st r) /\
  grant (nodes (final (handleSpectrumInquiryResponse_body int_ok iter el tt st)) r)
    = grant (nodes st r) /\
  grant (nodes (final (handleDeregistrationResponse_body iter el tt st)) r)
    = grant (nodes st r).
Proof.
  split; [|split].
  - change (nodes (final (handleRegistrationResponse_body iter el tt st)) r)
      with (nodes (core (final (handleRegistrationResponse_body iter el tt st))) r).
    destruct (registration_body_within iter el tt st) as [E|(r0 & c & _ & _ & _ & E)];
      rewrite E; cbn; [reflexivity|].
    destruct (Nat.eqb_spec r r0); [now subst|reflexivity].
  - now rewrite (same_core_nodes _ _ (inquiry_body_prints int_ok iter el tt st)).
  - now rewrite (same_core_nodes _ _ (deregistration_body_prints iter el tt st)).
Qed.

(** ** Grant responses *)

Lemma provided_dict d k : truthy (get_or_none (dict_get k d)) = provided (PDict d) k.
Proof. unfold provided. cbn [field]. now destruct (dict_get k d). Qed.

Lemma provided_field el k v : field el k = Some v -> truthy v = true -> provided el k = true.
Proof. unfold provided. now intros ->. Qed.

(** Runs the validity check of a body on an envelope that reports
    success. *)
Ltac step_valid Hs :=
  match goal with
  | |- context [bind (_isValidResponse ?resp) ?k ?st] =>
      let ls := fresh "ls" in
      let E := fresh "E" in
      destruct (isValidResponse_success resp st Hs) as [ls E];
      unfold bind at 1; rewrite E; cbn [negb]
  end.

(** Runs one field check of a body. *)
Ltac step_field :=
  rewrite grab_dict, bind_ret_l, provided_dict.

(** A grant element with a valid envelope but one of the four fields not
    provided is reported and dropped. *)
Lemma grant_body_not_provided iter el loc st resp :
  field el "response" = Some resp -> reports_success resp = true ->
  provided el "grantId" && provided el "channelType" &&
  provided el "grantExpireTime" && provided el "heartbeatInterval" = false ->
  exists ls, handleGrantResponse_body iter el loc st = Ok loc (printed ls st).
Proof.
  intros Hr Hs Hp. destruct el; try discriminate. cbn [field] in Hr.
  unfold handleGrantResponse_body.
  rewrite bind_print, grab_dict, bind_ret_l, Hr. cbn [get_or_none].
  step_valid Hs.
  step_field. destruct (provided (PDict d) "channelType"); cbn [negb];
    [|rewrite bind_print; unfold ret; rewrite !printed_printed; eauto].
  step_field. destruct (provided (PDict d) "grantId"); cbn [negb];
    [|rewrite bind_print; unfold ret; rewrite !printed_printed; eauto].
  step_field. destruct (provided (PDict d) "grantExpireTime"); cbn [negb];
    [|rewrite bind_print; unfold ret; rewrite !printed_printed; eauto].
  step_field. destruct (provided (PDict d) "heartbeatInterval"); cbn [negb];
    [discriminate|rewrite bind_print; unfold ret; rewrite !printed_printed; eauto].
Qed.

(** A grant element with a valid envelope, the four fields provided and a
    cbsdId that resolves: the Node's Grant is filled in. *)
Lemma grant_body_granted iter el loc st resp gid ch ex hb c r :
  field el "response" = Some resp -> reports_success resp = true ->
  field el "grantId" = Some gid -> truthy gid = true ->
  field el "channelType" = Some ch -> truthy ch = true ->
  field el "grantExpireTime" = Some ex -> truthy ex = true ->
  field el "heartbeatInterval" = Some hb -> truthy hb = true ->
  field el "cbsdId" = Some c -> truthy c = true ->
  resolve_in_queue st c = Some r ->
  exists ls,
    handleGrantResponse_body iter el loc st
    = Ok loc (printed ls
                (upd_node r (fun n => Node_setGrant (apply_grant gid ex hb ch (grant n)) n)
                   (apply_measReportConfig el r st))).
Proof.
  intros Hr Hs Hgid Tgid Hch Tch Hex Tex Hhb Thb Hc Tc Hres.
  destruct el; try discriminate. cbn [field] in *.
  unfold handleGrantResponse_body.
  rewrite bind_print, grab_dict, bind_ret_l, Hr. cbn [get_or_none].
  step_valid Hs.
  rewrite grab_dict, bind_ret_l, Hch. cbn [get_or_none]. rewrite Tch. cbn [negb].
  rewrite grab_dict, bind_ret_l, Hgid. cbn [get_or_none]. rewrite Tgid. cbn [negb].
  rewrite grab_dict, bind_ret_l, Hex. cbn [get_or_none]. rewrite Tex. cbn [negb].
  rewrite grab_dict, bind_ret_l, Hhb. cbn [get_or_none]. rewrite Thb. cbn [negb].
  rewrite grab_dict, bind_ret_l, Hc. cbn [get_or_none]. rewrite Tc.
  unfold findTempNodeByCbsdId. rewrite bind_gets.
  change (find_node _ (nodes (printed ls (printed _ st))) _) with (resolve_in_queue st c).
  rewrite Hres. rewrite grab_dict, bind_ret_l.
  unfold apply_measReportConfig. cbn [field].
  destruct (truthy (get_or_none (dict_get "measReportConfig" d)));
    rewrite printed_printed; eexists; reflexivity.
Qed.

(** C5, as the code has it.  For a grant response element whose envelope
    reports success: if grantId, channelType, grantExpireTime or
    heartbeatInterval is not provided (absent, or present with an empty,
    zero or null value) the element is reported and nothing but the output
    changes; if the four are provided and the cbsdId resolves to a Node of
    the queue, that Node's Grant gets status GRANTED and the grantId,
    grantExpireTime, heartbeatInterval and channelType of the response,
    and no other Node changes. *)
Theorem C5_grant_fields_provided :
  forall (iter : nat) (el : pyval) (loc : Locals) (st : State) (resp : pyval),
    field el "response" = Some resp -> reports_success resp = true ->
    (provided el "grantId" && provided el "channelType" &&
     provided el "grantExpireTime" && provided el "heartbeatInterval" = false ->
     exists ls, handleGrantResponse_body iter el loc st = Ok loc (printed ls st)) /\
    (forall gid ch ex hb c r,
       field el "grantId" = Some gid -> truthy gid = true ->
       field el "channelType" = Some ch -> truthy ch = true ->
       field el "grantExpireTime" = Some ex -> truthy ex = true ->
       field el "heartbeatInterval" = Some hb -> truthy hb = true ->
       field el "cbsdId" = Some c -> truthy c = true ->
       resolve_in_queue st c = Some r ->
       exists st',
         handleGrantResponse_body iter el loc st = Ok loc st' /\
         grant (nodes st' r)
         = mkGrant gid GRANTED ex (transmitExpireTime (grant (nodes st r))) hb ch /\
         forall r', r' <> r -> nodes st' r' = nodes st r').
Proof.
  intros iter el loc st resp Hr Hs. split.
  - now apply grant_body_not_provided with (resp := resp).
  - intros gid ch ex hb c r Hgid Tgid Hch Tch Hex Tex Hhb Thb Hc Tc Hres.
    destruct (grant_body_granted iter el loc st resp gid ch ex hb c r) as [ls E];
      try assumption.
    eexists. split; [exact E|]. unfold apply_measReportConfig. split.
    + destruct (truthy (get_or_none (field el "measReportConfig")));
        unfold printed, upd_node, set_nodes, set_out;
        cbn [nodes]; rewrite !Nat.eqb_refl; reflexivity.
    + intros r' Hne. apply Nat.eqb_neq in Hne.
      destruct (truthy (get_or_none (field el "measReportConfig")));
        unfold printed, upd_node, set_nodes, set_out;
        cbn [nodes]; rewrite !Hne; reflexivity.
Qed.

Lemma C5_grant_fields_provided_witness :
  reports_success (envelope "0") = true /\
  resolve_in_queue st_lab (PStr "CBSD-1") = Some 0 /\
  exists st',
    handleGrantResponse_body 0 (grant_element (PStr "10")) no_locals st_lab
    = Ok no_locals st' /\
    grant (nodes st' 0)
    = mkGrant (PStr "G2") GRANTED (PStr "2021-03-01T00:00:00Z") PNone (PStr "10")
              (PStr "GAA").
Proof.
  assert (H1 : reports_success (envelope "0") = true) by reflexivity.
  assert (H2 : resolve_in_queue st_lab (PStr "CBSD-1") = Some 0) by reflexivity.
  split; [exact H1|]. split; [exact H2|].
  destruct (C5_grant_fields_provided 0 (grant_element (PStr "10")) no_locals st_lab
              (envelope "0") eq_refl H1) as [_ H].
  destruct (H (PStr "G2") (PStr "GAA") (PStr "2021-03-01T00:00:00Z") (PStr "10")
              (PStr "CBSD-1") 0 eq_refl eq_refl eq_refl eq_refl eq_refl eq_refl
              eq_refl eq_refl eq_refl eq_refl H2) as (st' & E & G & _).
  exists st'. split; [exact E|exact G].
Defined.

(** C5, as stated, fails: the four fields are present and the Node
    resolves, yet a heartbeatInterval of 0 counts as not provided and the
    Grant keeps status NONE. *)
Lemma C5_present_but_zero :
  reports_success (envelope "0") = true /\
  field (grant_element (PInt 0)) "response" = Some (envelope "0") /\
  field (grant_element (PInt 0)) "grantId" = Some (PStr "G2") /\
  field (grant_element (PInt 0)) "channelType" = Some (PStr "GAA") /\
  field (grant_element (PInt 0)) "grantExpireTime" = Some (PStr "2021-03-01T00:00:00Z") /\
  field (grant_element (PInt 0)) "heartbeatInterval" = Some (PInt 0) /\
  resolve_in_queue st_lab (PStr "CBSD-1") = Some 0 /\
  handleGrantResponse_body 0 (grant_element (PInt 0)) no_locals st_lab
  = Ok no_locals
       (printed [Line "Grant Response [1]:"; Line "Response Code: 0";
                 Line "No heartbeatInterval provided. Grant invalid."] st_lab) /\
  grantStatus (grant (nodes (final (handleGrantResponse_body 0 (grant_element (PInt 0))
                                      no_locals st_lab)) 0)) = NONE.
Proof.
  repeat match goal with |- _ /\ _ => split end; vm_compute; reflexivity.
Qed.

(** ** Elements whose cbsdId no Node of the queue has *)

Section Unresolved.

Variable float_of_str : string -> option float.
Variables (iter : nat) (el resp : pyval) (c : string) (st : State).
Hypothesis Hresp : field el "response" = Some resp.
Hypothesis Hsuccess : reports_success resp = true.
Hypothesis Hcbsd : field el "cbsdId" = Some (PStr c).
Hypothesis Hc : c <> "".
Hypothesis Hnone : resolve_in_queue st (PStr c) = None.

Lemma grant_body_unresolved loc :
  provided el "grantId" && provided el "channelType" &&
  provided el "grantExpireTime" && provided el "heartbeatInterval" = true ->
  exists ls, handleGrantResponse_body iter el loc st
             = Ok loc (printed (ls ++ [unresolved_report c "Grant"]) st).
Proof.
  intros Hp. apply andb_prop in Hp as [Hp H4]. apply andb_prop in Hp as [Hp H3].
  apply andb_prop in Hp as [H1 H2].
  destruct el; try discriminate. cbn [field] in *.
  unfold handleGrantResponse_body.
  rewrite bind_print, grab_dict, bind_ret_l, Hresp. cbn [get_or_none].
  step_valid Hsuccess.
  step_field. rewrite H2. cbn [negb]. step_field. rewrite H1. cbn [negb].
  step_field. rewrite H3. cbn [negb]. step_field. rewrite H4. cbn [negb].
  rewrite grab_dict, bind_ret_l, Hcbsd. cbn [get_or_none]. rewrite (truthy_str c Hc).
  unfold findTempNodeByCbsdId. rewrite bind_gets.
  change (find_node _ (nodes (printed ls (printed _ st))) _)
    with (resolve_in_queue st (PStr c)).
  rewrite Hnone. cbn [str_add]. rewrite bind_ret_l, bind_print. unfold ret.
  rewrite !printed_printed, app_assoc. eexists. reflexivity.
Qed.

Lemma heartbeat_body_unresolved loc :
  exists ls, handleHeartbeatResponse_body float_of_str iter el loc st
             = Ok loc (printed (ls ++ [unresolved_report c "Heartbeat"]) st).
Proof.
  destruct el; try discriminate. cbn [field] in *.
  unfold handleHeartbeatResponse_body.
  rewrite bind_print, grab_dict, bind_ret_l, Hresp. cbn [get_or_none].
  step_valid Hsuccess.
  rewrite grab_dict, bind_ret_l, Hcbsd. cbn [get_or_none]. rewrite (truthy_str c Hc).
  unfold findTempNodeByCbsdId. rewrite bind_gets.
  change (find_node _ (nodes (printed ls (printed _ st))) _)
    with (resolve_in_queue st (PStr c)).
  rewrite Hnone. cbn [str_add]. rewrite bind_ret_l, bind_print. unfold ret.
  rewrite !printed_printed, app_assoc. eexists. reflexivity.
Qed.

Lemma relinquishment_body_unresolved :
  exists ls, handleRelinquishmentResponse_body iter el tt st
             = Ok tt (printed (ls ++ [unresolved_report c "Relinquishment"]) st).
Proof.
  destruct el; try discriminate. cbn [field] in *.
  unfold handleRelinquishmentResponse_body.
  rewrite bind_print, grab_dict, bind_ret_l, Hresp. cbn [get_or_none].
  step_valid Hsuccess.
  rewrite grab_dict, bind_ret_l, Hcbsd. cbn [get_or_none]. rewrite (truthy_str c Hc).
  unfold findTempNodeByCbsdId. rewrite bind_gets.
  change (find_node _ (nodes (printed ls (printed _ st))) _)
    with (resolve_in_queue st (PStr c)).
  rewrite Hnone. cbn [str_add]. rewrite bind_ret_l.
  rewrite print_run, !printed_printed, app_assoc. eexists. reflexivity.
Qed.

End Unresolved.

Lemma only_resolved_changed el s s' r :
  only_resolved el (core s) (core s') -> nodes s' r <> nodes s r ->
  exists c, field el "cbsdId" = Some c /\ resolve_in_queue s c = Some r.
Proof.
  intros (_ & _ & H) Hne. destruct (H r Hne) as (c & Hc & _ & Hf). eauto.
Qed.

(** X17.  In the loop bodies of the grant, heartbeat and relinquishment
    handlers, a Node whose state the element changes is the one its cbsdId
    resolves to among the Nodes of the correlation queue [tempNodeList];
    the bodies of the spectrum inquiry and deregistration handlers change
    no Node; and an element with a successful envelope and a non-empty str
    cbsdId that no Node of the queue has is reported with the handler's
    "No Node awaiting a response" line and skipped, nothing but the output
    having changed (for a grant, when the four fields are provided). *)
Theorem resolution_through_queue :
  forall (float_of_str : string -> option float) (int_ok : string -> bool)
         (iter : nat) (el : pyval) (loc : Locals) (st : State),
    (forall r, nodes (final (handleGrantResponse_body iter el loc st)) r <> nodes st r ->
       exists c, field el "cbsdId" = Some c /\ resolve_in_queue st c = Some r) /\
    (forall r, nodes (final (handleHeartbeatResponse_body float_of_str iter el loc st)) r
               <> nodes st r ->
       exists c, field el "cbsdId" = Some c /\ resolve_in_queue st c = Some r) /\
    (forall r, nodes (final (handleRelinquishmentResponse_body iter el tt st)) r
               <> nodes st r ->
       exists c, field el "cbsdId" = Some c /\ resolve_in_queue st c = Some r) /\
    nodes (final (handleSpectrumInquiryResponse_body int_ok iter el tt st)) = nodes st /\
    nodes (final (handleDeregistrationResponse_body iter el tt st)) = nodes st /\
    (forall resp c,
       field el "response" = Some resp -> reports_success resp = true ->
       field el "cbsdId" = Some (PStr c) -> c <> "" ->
       resolve_in_queue st (PStr c) = None ->
       (provided el "grantId" && provided el "channelType" &&
        provided el "grantExpireTime" && provided el "heartbeatInterval" = true ->
        exists ls, handleGrantResponse_body iter el loc st
                   = Ok loc (printed (ls ++ [unresolved_report c "Grant"]) st)) /\
       (exists ls, handleHeartbeatResponse_body float_of_str iter el loc st
                   = Ok loc (printed (ls ++ [unresolved_report c "Heartbeat"]) st)) /\
       (exists ls, handleRelinquishmentResponse_body iter el tt st
                   = Ok tt (printed (ls ++ [unresolved_report c "Relinquishment"]) st))).
Proof.
  intros fos int_ok iter el loc st.
  split; [|split; [|split; [|split; [|split]]]].
  - intros r. apply only_resolved_changed, grant_body_only_resolved.
  - intros r. apply only_resolved_changed, heartbeat_body_only_resolved.
  - intros r. apply only_resolved_changed, relinquishment_body_only_resolved.
  - apply same_core_nodes, inquiry_body_prints.
  - apply same_core_nodes, deregistration_body_prints.
  - intros resp c Hr Hs Hc Hne Hnone. split; [|split].
    + now apply grant_body_unresolved with (resp := resp).
    + now apply heartbeat_body_unresolved with (resp := resp).
    + now apply relinquishment_body_unresolved with (resp := resp).
Qed.

Lemma resolution_through_queue_witness :
  reports_success (envelope "0") = true /\
  resolve_in_queue st_stale (PStr "CBSD-1") = None /\
  exists ls, handleRelinquishmentResponse_body 0 (grant_element (PStr "10")) tt st_stale
             = Ok tt (printed (ls ++ [unresolved_report "CBSD-1" "Relinquishment"]) st_stale).
Proof.
  assert (H1 : reports_success (envelope "0") = true) by reflexivity.
  assert (H2 : resolve_in_queue st_stale (PStr "CBSD-1") = None) by reflexivity.
  assert (H3 : "CBSD-1" <> "") by discriminate.
  split; [exact H1|]. split; [exact H2|].
  destruct (resolution_through_queue float_of_digits int_ok_digits 0
              (grant_element (PStr "10")) no_locals st_stale)
    as (_ & _ & _ & _ & _ & H).
  destruct (H (envelope "0") "CBSD-1" eq_refl H1 eq_refl H3 H2) as (_ & _ & Hrel).
  exact Hrel.
Defined.

(** The registry is not consulted: it has a Node with the cbsdId of the
    response, the queue has not; the grant element, complete otherwise, is
    turned down and the Node found through the registry keeps its empty
    Grant. *)
Lemma registry_node_not_resolved :
  resolve_in_registry st_stale (PStr "CBSD-1") = Some 0 /\
  resolve_in_queue st_stale (PStr "CBSD-1") = None /\
  handleGrantResponse_body 0 (grant_element (PStr "10")) no_locals st_stale
  = Ok no_locals
       (printed [Line "Grant Response [1]:"; Line "Response Code: 0";
                 unresolved_report "CBSD-1" "Grant"] st_stale) /\
  grant (nodes (final (handleGrantResponse_body 0 (grant_element (PStr "10")) no_locals
                         st_stale)) 0) = emptyGrant.
Proof.
  repeat match goal with |- _ /\ _ => split end; vm_compute; reflexivity.
Qed.

(** ** Elements whose cbsdId is not a str *)

Lemma valid_envelope_lines d st :
  reports_success (PDict d) = true ->
  _isValidResponse (PDict d) st = Ok true (printed (envelope_lines "0" d) st).
Proof.
  intros Hsuccess.
  destruct (reports_success_dict _ Hsuccess) as (d0 & [= <-] & Hc0 & Hm & Hd).
  now rewrite (isValidResponse_str_code d "0" st Hc0).
Qed.

Lemma unresolved_report_fails {B} c label (k : string -> M B) st :
  is_str c = false -> bind (str_add label c) k st = Raise TypeError st.
Proof. destruct c; try discriminate; reflexivity. Qed.

Lemma grant_body_unresolved_not_str el c d iter loc st :
  field el "response" = Some (PDict d) -> reports_success (PDict d) = true ->
  field el "cbsdId" = Some c -> truthy c = true -> is_str c = false ->
  provided el "grantId" && provided el "channelType" &&
  provided el "grantExpireTime" && provided el "heartbeatInterval" = true ->
  resolve_in_queue st c = None ->
  handleGrantResponse_body iter el loc st
  = Raise TypeError
      (printed (Line ("Grant Response [" +:+ str_of_nat (iter + 1) +:+ "]:")
                :: envelope_lines "0" d) st).
Proof.
  intros Hresp Hsuccess Hcbsd Tc Hstr Hp Hnone.
  apply andb_prop in Hp as [Hp H4]. apply andb_prop in Hp as [Hp H3].
  apply andb_prop in Hp as [H1 H2].
  destruct el; try discriminate. cbn [field] in *.
  unfold handleGrantResponse_body.
  rewrite bind_print, grab_dict, bind_ret_l, Hresp. cbn [get_or_none].
  rewrite bind_run, valid_envelope_lines by assumption. cbn [negb].
  step_field. rewrite H2. cbn [negb]. step_field. rewrite H1. cbn [negb].
  step_field. rewrite H3. cbn [negb]. step_field. rewrite H4. cbn [negb].
  rewrite grab_dict, bind_ret_l, Hcbsd. cbn [get_or_none]. rewrite Tc.
  unfold findTempNodeByCbsdId. rewrite bind_gets.
  change (find_node _ (nodes (printed _ (printed _ st))) _)
    with (resolve_in_queue st c).
  rewrite Hnone, unresolved_report_fails by assumption.
  now rewrite printed_printed.
Qed.

Lemma relinquishment_body_unresolved_not_str el c d iter st :
  field el "response" = Some (PDict d) -> reports_success (PDict d) = true ->
  field el "cbsdId" = Some c -> truthy c = true -> is_str c = false ->
  resolve_in_queue st c = None ->
  handleRelinquishmentResponse_body iter el tt st
  = Raise TypeError
      (printed (Line ("Relinquishment Response [" +:+ str_of_nat (iter + 1) +:+ "]:")
                :: envelope_lines "0" d) st).
Proof.
  intros Hresp Hsuccess Hcbsd Tc Hstr Hnone.
  destruct el; try discriminate. cbn [field] in *.
  unfold handleRelinquishmentResponse_body.
  rewrite bind_print, grab_dict, bind_ret_l, Hresp. cbn [get_or_none].
  rewrite bind_run, valid_envelope_lines by assumption. cbn [negb].
  rewrite grab_dict, bind_ret_l, Hcbsd. cbn [get_or_none]. rewrite Tc.
  unfold findTempNodeByCbsdId. rewrite bind_gets.
  change (find_node _ (nodes (printed _ (printed _ st))) _)
    with (resolve_in_queue st c).
  rewrite Hnone, unresolved_report_fails by assumption.
  now rewrite printed_printed.
Qed.

(** C6, on the code.  A grant or relinquishment response batch has an
    element with a successful envelope (for a grant, the four fields
    provided) whose cbsdId is there but is not a str, a JSON number for
    one, and no Node of the correlation queue holds it.  When the loop
    gets to that element, the handler raises TypeError while it builds the
    "No Node awaiting a response" line: the element is not reported, the
    output ending with the lines of its envelope, and it is not skipped
    either, for the handler ends there and no element after it is
    processed.  If an element before it has raised, that exception is the
    handler's.  The lookup that found no Node is the one through
    [tempNodeList], not through the registry. *)
Theorem C6_unresolved_element_aborts_batch :
  forall (st : State) (pre post : list pyval) (el c : pyval)
         (d : list (string * pyval)),
    field el "response" = Some (PDict d) -> reports_success (PDict d) = true ->
    field el "cbsdId" = Some c -> truthy c = true -> is_str c = false ->
    (forall jsonData,
       field jsonData "grantResponse" = Some (PList (pre ++ el :: post)) ->
       provided el "grantId" && provided el "channelType" &&
       provided el "grantExpireTime" && provided el "heartbeatInterval" = true ->
       match for_each handleGrantResponse_body 0 pre no_locals
               (printed [Line "Grant Response Received"] st) with
       | Ok _ s =>
           resolve_in_queue s c = None ->
           handleGrantResponse jsonData st
           = Raise TypeError
               (printed (Line ("Grant Response [" +:+ str_of_nat (length pre + 1) +:+ "]:")
                         :: envelope_lines "0" d) s)
       | Raise e s => handleGrantResponse jsonData st = Raise e s
       end) /\
    (forall jsonData,
       field jsonData "relinquishmentResponse" = Some (PList (pre ++ el :: post)) ->
       match for_each handleRelinquishmentResponse_body 0 pre tt
               (printed [Line "Relinquishment Response Received"] st) with
       | Ok _ s =>
           resolve_in_queue s c = None ->
           handleRelinquishmentResponse jsonData st
           = Raise TypeError
               (printed (Line ("Relinquishment Response ["
                               +:+ str_of_nat (length pre + 1) +:+ "]:")
                         :: envelope_lines "0" d) s)
       | Raise e s => handleRelinquishmentResponse jsonData st = Raise e s
       end).
Proof.
  intros st pre post el c d Hr Hs Hc Tc Hstr. split.
  - intros jsonData Hj Hp.
    destruct jsonData; try discriminate. cbn [field] in Hj.
    unfold handleGrantResponse.
    rewrite grab_dict, bind_ret_l, Hj. cbn [get_or_none].
    rewrite truthy_list_app. cbn [negb py_iter]. rewrite bind_print, bind_run, for_each_app.
    destruct (for_each handleGrantResponse_body 0 pre no_locals
                (printed [Line "Grant Response Received"] st)) as [loc s|e s];
      [|reflexivity].
    intros Hnone. cbn [for_each Nat.add]. rewrite bind_run.
    now rewrite (grant_body_unresolved_not_str el c d (length pre) loc s
                   Hr Hs Hc Tc Hstr Hp Hnone).
  - intros jsonData Hj.
    destruct jsonData; try discriminate. cbn [field] in Hj.
    unfold handleRelinquishmentResponse.
    rewrite grab_dict, bind_ret_l, Hj. cbn [get_or_none].
    rewrite truthy_list_app. cbn [negb py_iter]. rewrite bind_print, for_each_app.
    destruct (for_each handleRelinquishmentResponse_body 0 pre tt
                (printed [Line "Relinquishment Response Received"] st)) as [[] s|e s];
      [|reflexivity].
    intros Hnone. cbn [for_each Nat.add]. rewrite bind_run.
    now rewrite (relinquishment_body_unresolved_not_str el c d (length pre) s
                   Hr Hs Hc Tc Hstr Hnone).
Qed.

Lemma C6_unresolved_element_aborts_batch_witness :
  resolve_in_queue st_lab (PStr "CBSD-1") = Some 0 /\
  handleGrantResponse
    (PDict [("grantResponse",
             PList [grant_element_numeric_id; grant_element (PStr "10")])]) st_lab
  = Raise TypeError
      (printed [Line "Grant Response Received"; Line "Grant Response [1]:";
                Line "Response Code: 0"] st_lab) /\
  grant (nodes (final (handleGrantResponse
                         (PDict [("grantResponse",
                                  PList [grant_element_numeric_id;
                                         grant_element (PStr "10")])]) st_lab)) 0)
  = emptyGrant.
Proof.
  destruct (C6_unresolved_element_aborts_batch st_lab [] [grant_element (PStr "10")]
              grant_element_numeric_id (PInt 7) [("responseCode", PStr "0")]
              eq_refl eq_refl eq_refl eq_refl eq_refl) as [H _].
  pose proof (H (PDict [("grantResponse",
                         PList [grant_element_numeric_id; grant_element (PStr "10")])])
                eq_refl eq_refl eq_refl) as E.
  split; [reflexivity|]. split; [exact E|]. now rewrite E.
Defined.

(** ** The validity check, case by case *)

(** The validity check stops on TypeError, without a result, where it adds
    a label to something that is not a str. *)
Lemma isValidResponse_code_not_str d c st :
  dict_get "responseCode" d = Some c -> truthy c = true -> is_str c = false ->
  _isValidResponse (PDict d) st = Raise TypeError st.
Proof.
  intros Hc Tc Hs.
  assert (Td : truthy (PDict d) = true) by (destruct d; [discriminate|reflexivity]).
  unfold _isValidResponse. rewrite Td, grab_dict, bind_ret_l, Hc.
  cbn [get_or_none]. rewrite Tc. cbn [negb].
  destruct c; try discriminate; reflexivity.
Qed.

Lemma isValidResponse_message_not_str d c st :
  dict_get "responseCode" d = Some (PStr c) -> c <> "" ->
  printable (dict_get "responseMessage" d) = false ->
  _isValidResponse (PDict d) st
  = Raise TypeError (printed [Line ("Response Code: " +:+ c)] st).
Proof.
  intros Hc Hne Hm.
  assert (Td : truthy (PDict d) = true) by (destruct d; [discriminate|reflexivity]).
  unfold _isValidResponse. rewrite Td, !grab_dict, bind_ret_l, Hc.
  cbn [get_or_none]. rewrite (truthy_str c Hne). cbn [negb].
  change (str_add "Response Code: " (PStr c)) with (ret ("Response Code: " +:+ c)).
  rewrite bind_ret_l, bind_print, bind_ret_l, bind_run.
  now rewrite opt_print_fails.
Qed.

Lemma isValidResponse_data_not_str d c st :
  dict_get "responseCode" d = Some (PStr c) -> c <> "" ->
  printable (dict_get "responseMessage" d) = true ->
  printable (dict_get "responseData" d) = false ->
  _isValidResponse (PDict d) st
  = Raise TypeError
      (printed ([Line ("Response Code: " +:+ c)]
                ++ opt_line "Response Message: " (dict_get "responseMessage" d)) st).
Proof.
  intros Hc Hne Hm Hd.
  assert (Td : truthy (PDict d) = true) by (destruct d; [discriminate|reflexivity]).
  unfold _isValidResponse. rewrite Td, !grab_dict, bind_ret_l, Hc.
  cbn [get_or_none]. rewrite (truthy_str c Hne). cbn [negb].
  change (str_add "Response Code: " (PStr c)) with (ret ("Response Code: " +:+ c)).
  rewrite bind_ret_l, bind_print, bind_ret_l, bind_opt_print by assumption.
  rewrite bind_ret_l, bind_run, opt_print_fails by assumption.
  now rewrite printed_printed.
Qed.

(** C7, on the code.  The validity check returns False, after the matching
    diagnostic, when the envelope is absent or empty and when its
    responseCode is absent or empty.  For a responseCode that is a str
    other than "0", whether it reads as a number or not, with
    responseMessage and responseData absent, empty or strs, it prints the
    code, the message and the data, then the one non-zero-code error, and
    returns False.  But it returns nothing and raises TypeError, where the
    label and the value are added, when the responseCode is a number or
    anything else that is not a str, and when responseMessage or
    responseData is there and is not a str: what has not been printed by
    then is not surfaced. *)
Theorem C7_validity_check :
  forall (st : State),
    (forall resp, truthy resp = false ->
       _isValidResponse resp st
       = Ok false (printed [Line "SAS Error: No reponse object found."] st)) /\
    (forall d, d <> [] -> truthy (get_or_none (dict_get "responseCode" d)) = false ->
       _isValidResponse (PDict d) st
       = Ok false (printed [Line "SAS Error: No response code provided."] st)) /\
    (forall d c,
       dict_get "responseCode" d = Some (PStr c) -> c <> "" -> c <> "0" ->
       printable (dict_get "responseMessage" d) = true ->
       printable (dict_get "responseData" d) = true ->
       _isValidResponse (PDict d) st
       = Ok false (printed (envelope_lines c d ++ [nonzero_code_error]) st)) /\
    (forall d c,
       dict_get "responseCode" d = Some c -> truthy c = true -> is_str c = false ->
       _isValidResponse (PDict d) st = Raise TypeError st) /\
    (forall d c,
       dict_get "responseCode" d = Some (PStr c) -> c <> "" ->
       printable (dict_get "responseMessage" d) = false ->
       _isValidResponse (PDict d) st
       = Raise TypeError (printed [Line ("Response Code: " +:+ c)] st)) /\
    (forall d c,
       dict_get "responseCode" d = Some (PStr c) -> c <> "" ->
       printable (dict_get "responseMessage" d) = true ->
       printable (dict_get "responseData" d) = false ->
       _isValidResponse (PDict d) st
       = Raise TypeError
           (printed ([Line ("Response Code: " +:+ c)]
                     ++ opt_line "Response Message: " (dict_get "responseMessage" d)) st)).
Proof.
  intros st. split; [|split; [|split; [|split; [|split]]]].
  - intros resp T. unfold _isValidResponse. now rewrite T.
  - intros d Hd T. unfold _isValidResponse.
    assert (Td : truthy (PDict d) = true) by (destruct d; [contradiction|reflexivity]).
    now rewrite Td, grab_dict, bind_ret_l, T.
  - intros d c Hc Hne H0 Hm Hdt.
    rewrite (isValidResponse_str_code d c st Hc Hne Hm Hdt).
    now destruct (String.eqb_spec c "0").
  - intros d c. apply isValidResponse_code_not_str.
  - intros d c. apply isValidResponse_message_not_str.
  - intros d c. apply isValidResponse_data_not_str.
Qed.

Lemma C7_validity_check_witness :
  dict_get "responseCode" refusal_with_data = Some (PStr "102") /\
  printable (dict_get "responseData" refusal_with_data) = false /\
  _isValidResponse (PDict refusal_with_data) st_lab
  = Raise TypeError
      (printed [Line "Response Code: 102"; Line "Response Message: MISSING_PARAM"] st_lab).
Proof.
  split; [reflexivity|]. split; [reflexivity|].
  destruct (C7_validity_check st_lab) as (_ & _ & _ & _ & _ & H).
  refine (H refusal_with_data "102" eq_refl _ eq_refl eq_refl); discriminate.
Defined.

(** A responseCode that is not a number gets the report of a non-zero
    code, line for line, and no condition of its own; a responseCode that
    is a JSON number and not a str stops the check. *)
Lemma non_numeric_code_not_distinct :
  int_ok_digits "abc" = false /\ int_ok_digits "5" = true /\
  _isValidResponse (envelope "abc") st_lab
  = Ok false (printed [Line "Response Code: abc"; nonzero_code_error] st_lab) /\
  _isValidResponse (envelope "5") st_lab
  = Ok false (printed [Line "Response Code: 5"; nonzero_code_error] st_lab) /\
  _isValidResponse (PDict [("responseCode", PInt 103)]) st_lab = Raise TypeError st_lab.
Proof.
  repeat match goal with |- _ /\ _ => split end; vm_compute; reflexivity.
Qed.

(** ** Registration requests *)

Section RegistrationRequests.

Variables (iter : nat) (request a : pyval) (r : nat)
          (arr : list RegistrationRequest) (st : State).
Hypothesis Hip : field request "nodeIp" = Some a.
Hypothesis Ta : truthy a = true.
Hypothesis Hnode :
  find_node (fun n => py_eq a (ipAddress n)) (nodes st) (created_nodes st) = Some r.

Lemma reqAddressToNode_found s :
  same_core st s -> reqAddressToNode request false s = Ok (Some r) s.
Proof.
  intros Hs. destruct request; try discriminate. cbn [field] in Hip.
  unfold reqAddressToNode. rewrite grab_dict, bind_ret_l, Hip. cbn [get_or_none].
  rewrite Ta. cbn [negb]. unfold findCreatedNodeByIp. rewrite bind_gets.
  change (created_nodes s) with (created_nodes (core s)).
  change (nodes s) with (nodes (core s)). rewrite Hs. cbn [core set_out nodes created_nodes].
  rewrite Hnode. rewrite bind_gets. reflexivity.
Qed.

(** The Node has no serial number: the diagnostic is never printed, its
    argument raises AttributeError. *)
Lemma simRegistrationReq_body_no_serial :
  truthy (serialNumber (nodes st r)) = false ->
  simRegistrationReq_body iter request arr st = Raise AttributeError (printed [registration_header iter] st).
Proof.
  intros Hser. unfold simRegistrationReq_body.
  rewrite bind_print. unfold bind at 1.
  rewrite reqAddressToNode_found by apply same_core_printed.
  rewrite bind_gets. cbn [printed set_out nodes]. now rewrite Hser.
Qed.

(** The Node has a serial number but the parameter set has no userId, or
    no fccId: a diagnostic, and the loop goes on with [arr] as it was. *)
Lemma simRegistrationReq_body_no_userId :
  truthy (serialNumber (nodes st r)) = true ->
  provided request "userId" = false ->
  simRegistrationReq_body iter request arr st
  = Ok arr (printed [registration_header iter;
                     Line "No userId found for simRegistrationReq. Registration Request invalid."] st).
Proof.
  intros Hser Hu. unfold simRegistrationReq_body.
  rewrite bind_print. unfold bind at 1.
  rewrite reqAddressToNode_found by apply same_core_printed.
  rewrite bind_gets. cbn [printed set_out nodes]. rewrite Hser. cbn [negb].
  destruct request; try discriminate.
  step_field. rewrite Hu. cbn [negb].
  rewrite bind_print. unfold ret. now rewrite printed_printed.
Qed.

Lemma simRegistrationReq_body_no_fccId :
  truthy (serialNumber (nodes st r)) = true ->
  provided request "userId" = true ->
  provided request "fccId" = false ->
  simRegistrationReq_body iter request arr st
  = Ok arr (printed [registration_header iter;
                     Line "No fccId found for simRegistrationReq. Registration Request invalid."] st).
Proof.
  intros Hser Hu Hf. unfold simRegistrationReq_body.
  rewrite bind_print. unfold bind at 1.
  rewrite reqAddressToNode_found by apply same_core_printed.
  rewrite bind_gets. cbn [printed set_out nodes]. rewrite Hser. cbn [negb].
  destruct request; try discriminate.
  step_field. rewrite Hu. cbn [negb]. step_field. rewrite Hf. cbn [negb].
  rewrite bind_print. unfold ret. now rewrite printed_printed.
Qed.

End RegistrationRequests.

(** C9, on the code.  For the first parameter set of a registration batch,
    its Node found by IP address: when the Node has no serial number the
    builder stops on AttributeError, raised while the diagnostic is being
    put together, with nothing printed but the header, no request built and
    the rest of the batch not looked at; when it is the userId or the fccId
    that is missing, the diagnostic is printed and the loop goes on with
    the rest of the batch. *)
Theorem C9_missing_serial_aborts_batch :
  forall (request : pyval) (rest : list pyval) (a : pyval) (r : nat) (st : State),
    field request "nodeIp" = Some a -> truthy a = true ->
    find_node (fun n => py_eq a (ipAddress n)) (nodes st) (created_nodes st) = Some r ->
    (truthy (serialNumber (nodes st r)) = false ->
     simRegistrationReq (request :: rest) st
     = Raise AttributeError
         (printed [Line "Creating Registration Request [1]:"] (set_tempNodeList [] st))) /\
    (truthy (serialNumber (nodes st r)) = true ->
     provided request "userId" = false ->
     simRegistrationReq (request :: rest) st
     = for_each simRegistrationReq_body 1 rest []
         (printed [Line "Creating Registration Request [1]:";
                   Line "No userId found for simRegistrationReq. Registration Request invalid."]
            (set_tempNodeList [] st))) /\
    (truthy (serialNumber (nodes st r)) = true ->
     provided request "userId" = true ->
     provided request "fccId" = false ->
     simRegistrationReq (request :: rest) st
     = for_each simRegistrationReq_body 1 rest []
         (printed [Line "Creating Registration Request [1]:";
                   Line "No fccId found for simRegistrationReq. Registration Request invalid."]
            (set_tempNodeList [] st))).
Proof.
  intros request rest a r st Hip Ta Hnode.
  unfold simRegistrationReq. rewrite bind_modify. cbn [for_each].
  split; [|split].
  - intros Hser. unfold bind.
    now rewrite (simRegistrationReq_body_no_serial 0 request a r [] (set_tempNodeList [] st)).
  - intros Hser Hu. unfold bind at 1.
    now rewrite (simRegistrationReq_body_no_userId 0 request a r [] (set_tempNodeList [] st)).
  - intros Hser Hu Hf. unfold bind at 1.
    now rewrite (simRegistrationReq_body_no_fccId 0 request a r [] (set_tempNodeList [] st)).
Qed.

Lemma C9_missing_serial_aborts_batch_witness :
  find_node (fun n => py_eq (PStr "10.0.0.3") (ipAddress n)) (nodes st_lab3)
            (created_nodes st_lab3) = Some 2 /\
  truthy (serialNumber (nodes st_lab3 2)) = false /\
  simRegistrationReq reg_requests3 st_lab3
  = Raise AttributeError
      (printed [Line "Creating Registration Request [1]:"] (set_tempNodeList [] st_lab3)).
Proof.
  assert (H1 : find_node (fun n => py_eq (PStr "10.0.0.3") (ipAddress n)) (nodes st_lab3)
                 (created_nodes st_lab3) = Some 2) by reflexivity.
  assert (H2 : truthy (serialNumber (nodes st_lab3 2)) = false) by reflexivity.
  split; [exact H1|]. split; [exact H2|].
  destruct (C9_missing_serial_aborts_batch
              (PDict [("nodeIp", PStr "10.0.0.3"); ("userId", PStr "U3"); ("fccId", PStr "F3")])
              reg_requests (PStr "10.0.0.3") 2 st_lab3 eq_refl eq_refl H1) as (H & _ & _).
  exact (H H2).
Defined.

(** ** Relinquishment responses *)

Lemma relinquishment_body_reset iter el st resp c r :
  field el "response" = Some resp -> reports_success resp = true ->
  field el "cbsdId" = Some c -> truthy c = true ->
  resolve_in_queue st c = Some r ->
  provided el "grantId" = true ->
  exists ls, handleRelinquishmentResponse_body iter el tt st
             = Ok tt (printed ls (upd_node r reset_grant st)).
Proof.
  intros Hr Hs Hc Tc Hres Hg. destruct el; try discriminate. cbn [field] in *.
  unfold handleRelinquishmentResponse_body.
  rewrite bind_print, grab_dict, bind_ret_l, Hr. cbn [get_or_none].
  step_valid Hs.
  rewrite grab_dict, bind_ret_l, Hc. cbn [get_or_none]. rewrite Tc.
  unfold findTempNodeByCbsdId. rewrite bind_gets.
  change (find_node _ (nodes (printed ls (printed _ st))) _) with (resolve_in_queue st c).
  rewrite Hres. step_field. rewrite Hg. cbn [negb].
  rewrite printed_printed. eexists. reflexivity.
Qed.

(** C8, on the code.  A relinquishment response element with a successful
    envelope, a cbsdId that resolves to a Node of the queue and a grantId:
    the Node's Grant is put back in its empty state, and that is all; the
    timers are what they were, a pending expiry watchdog or renewal timer
    is still pending, and [__heartbeatTimer] is untouched. *)
Theorem C8_relinquishment_leaves_timers :
  forall (iter : nat) (el : pyval) (st : State) (resp c : pyval) (r : nat),
    field el "response" = Some resp -> reports_success resp = true ->
    field el "cbsdId" = Some c -> truthy c = true ->
    resolve_in_queue st c = Some r ->
    provided el "grantId" = true ->
    exists st',
      handleRelinquishmentResponse_body iter el tt st = Ok tt st' /\
      grant (nodes st' r) = emptyGrant /\
      timers st' = timers st /\
      heartbeatTimer st' = heartbeatTimer st.
Proof.
  intros iter el st resp c r Hr Hs Hc Tc Hres Hg.
  destruct (relinquishment_body_reset iter el st resp c r Hr Hs Hc Tc Hres Hg) as [ls E].
  eexists. split; [exact E|]. cbn. now rewrite Nat.eqb_refl.
Qed.

Lemma C8_relinquishment_leaves_timers_witness :
  resolve_in_queue st_timers (PStr "CBSD-1") = Some 0 /\
  exists st',
    handleRelinquishmentResponse_body 0 relinquishment_element tt st_timers = Ok tt st' /\
    grant (nodes st' 0) = emptyGrant /\
    timers st' = [mkTimer (NInt 240) cb_node_stop Pending;
                  mkTimer (NFloat 9%float) cb_heartbeatRequest Pending].
Proof.
  assert (H : resolve_in_queue st_timers (PStr "CBSD-1") = Some 0) by reflexivity.
  split; [exact H|].
  destruct (C8_relinquishment_leaves_timers 0 relinquishment_element st_timers
              (envelope "0") (PStr "CBSD-1") 0 eq_refl eq_refl eq_refl eq_refl H eq_refl)
    as (st' & E & G & T & _).
  exists st'. split; [exact E|]. split; [exact G|exact T].
Defined.

(** ** Heartbeat timers *)

Lemma delayTilNextHeartbeat_spec h :
  (PrimFloat.ltb (PrimFloat.mul h nine_tenths) 1%float = true /\
   delayTilNextHeartbeat h = NInt 1) \/
  (PrimFloat.ltb (PrimFloat.mul h nine_tenths) 1%float = false /\
   delayTilNextHeartbeat h = NFloat (PrimFloat.mul h nine_tenths)).
Proof.
  unfold delayTilNextHeartbeat. cbv zeta.
  destruct (PrimFloat.ltb (PrimFloat.mul h nine_tenths) 1%float); auto.
Qed.

(** The delays for intervals of 1, 2, 10 and 13 s, as binary64 computes
    them: the int 1, then the floats 1.8, 9.0 and 11.700000000000001 (the
    float next above the one nearest to 11.7). *)
Lemma delayTilNextHeartbeat_examples :
  option_map delayTilNextHeartbeat (float_of_int 1) = Some (NInt 1) /\
  option_map delayTilNextHeartbeat (float_of_int 2) = Some (NFloat 0x1.ccccccccccccdp+0%float) /\
  option_map delayTilNextHeartbeat (float_of_int 10) = Some (NFloat 9%float) /\
  option_map delayTilNextHeartbeat (float_of_int 13)
  = Some (NFloat 0x1.7666666666667p+3%float).
Proof. repeat split; vm_compute; reflexivity. Qed.

(** The loop body of the heartbeat handler, had it been reached: an
    element with a successful envelope, a cbsdId that resolves and the four
    fields provided starts one timer, of delay [delayTilNextHeartbeat],
    whose callback is [heartbeatRequest]. *)
Lemma heartbeat_body_schedules fos iter el loc st resp c r hb h :
  field el "response" = Some resp -> reports_success resp = true ->
  field el "cbsdId" = Some c -> truthy c = true ->
  resolve_in_queue st c = Some r ->
  provided el "grantId" = true -> provided el "transmitExpireTime" = true ->
  provided el "grantExpireTime" = true ->
  field el "heartbeatInterval" = Some hb -> truthy hb = true ->
  py_float fos hb = ret h ->
  exists ls,
    handleHeartbeatResponse_body fos iter el loc st
    = Ok loc (printed ls
                (set_timers (timers st ++ [mkTimer (delayTilNextHeartbeat h)
                                             cb_heartbeatRequest Pending])
                   (apply_measReportConfig el r st))).
Proof.
  intros Hr Hs Hc Tc Hres Hg Ht He Hhb Thb Hf.
  destruct el; try discriminate. cbn [field] in *.
  unfold handleHeartbeatResponse_body.
  rewrite bind_print, grab_dict, bind_ret_l, Hr. cbn [get_or_none].
  step_valid Hs.
  rewrite grab_dict, bind_ret_l, Hc. cbn [get_or_none]. rewrite Tc.
  unfold findTempNodeByCbsdId. rewrite bind_gets.
  change (find_node _ (nodes (printed ls (printed _ st))) _) with (resolve_in_queue st c).
  rewrite Hres.
  step_field. rewrite Hg. cbn [negb]. step_field. rewrite Ht. cbn [negb].
  step_field. rewrite He. cbn [negb].
  rewrite grab_dict, bind_ret_l, Hhb. cbn [get_or_none]. rewrite Thb. cbn [negb].
  rewrite grab_dict, bind_ret_l, Hf.
  unfold apply_measReportConfig. cbn [field].
  destruct (truthy (get_or_none (dict_get "measReportConfig" d)));
    rewrite printed_printed; eexists; reflexivity.
Qed.

Lemma same_timers_refl c : same_timers c c.
Proof. now split. Qed.

Lemma same_timers_trans a b c : same_timers a b -> same_timers b c -> same_timers a c.
Proof. unfold same_timers. intros [] []. split; congruence. Qed.

Ltac timers_step :=
  match goal with
  | |- within _ (if ?b then _ else _) => destruct b
  | |- within _ (match ?x with _ => _ end) => destruct x
  | |- within _ (modify (upd_node _ _)) =>
      apply within_pure_modify; intros; split; reflexivity
  | |- within _ (bind _ _) =>
      first [ apply within_bind; [apply same_timers_refl|solve [frame]|intros]
            | apply within_seq; [apply same_timers_trans| |intros] ]
  | |- within _ _ => apply within_prints; [apply same_timers_refl|solve [frame]]
  end.

(** A grant response element starts no timer. *)
Lemma grant_body_same_timers iter el loc :
  within same_timers (handleGrantResponse_body iter el loc).
Proof. unfold handleGrantResponse_body. repeat timers_step. Qed.

(** [__heartbeatTimer] is None: the handler raises on its first statement
    and the batch is not read. *)
Lemma heartbeat_handler_raises fos data st :
  heartbeatTimer st = None ->
  handleHeartbeatResponse fos data st = Raise AttributeError st.
Proof.
  intros H. unfold handleHeartbeatResponse, cancel_heartbeatTimer.
  unfold bind, gets. now rewrite H.
Qed.

(** Had [__heartbeatTimer] held the watchdog, the handler's first statement
    would have cancelled it; and cancelling a timer that has fired changes
    nothing. *)
Lemma cancel_heartbeatTimer_pending k d f st :
  heartbeatTimer st = Some k ->
  timers st !! k = Some (mkTimer d f Pending) ->
  cancel_heartbeatTimer st
  = Ok tt (set_timers (<[k := mkTimer d f Cancelled]> (timers st)) st).
Proof.
  intros Hk Ht. unfold cancel_heartbeatTimer. rewrite bind_gets, Hk.
  unfold modify, cancel_timer. now rewrite Ht.
Qed.

Lemma cancel_timer_fired k d f st :
  timers st !! k = Some (mkTimer d f Fired) -> cancel_timer k st = st.
Proof. intros Ht. unfold cancel_timer. now rewrite Ht. Qed.

(** C4, on the code.  A heartbeat request sent from the prompt (answer
    "L") starts the 240 s expiry watchdog, and what it stores in
    [__heartbeatTimer] is None; whatever the heartbeat response that comes
    in then, the handler raises AttributeError on [cancel] and leaves the
    state as it was, the watchdog pending. *)
Theorem C4_watchdog_not_cancelled :
  forall (float_of_str : string -> option float) (cmdHeartbeatReq : M (list pyval))
         (st : State) (data : pyval),
    timers (final (heartbeatRequest cmdHeartbeatReq false ["L"] st))
    = timers st ++ [mkTimer (NInt 240) cb_node_stop Pending] /\
    heartbeatTimer (final (heartbeatRequest cmdHeartbeatReq false ["L"] st)) = None /\
    handleHeartbeatResponse float_of_str data
      (final (heartbeatRequest cmdHeartbeatReq false ["L"] st))
    = Raise AttributeError (final (heartbeatRequest cmdHeartbeatReq false ["L"] st)).
Proof.
  intros fos cmd st data. split; [reflexivity|]. split; [reflexivity|].
  now apply heartbeat_handler_raises.
Qed.

(** C3, on the code.  With [__heartbeatTimer] holding None, the only value
    the module ever stores in it, a heartbeat response, successful or not,
    stops the handler on AttributeError before the batch is read: no
    renewal timer is started.  And a pending timer whose callback is
    [heartbeatRequest] raises TypeError when it fires, the callback being
    called without its [clientio] argument: nothing is emitted. *)
Theorem C3_renewal_not_scheduled :
  forall (float_of_str : string -> option float) (node_stop : M unit)
         (st : State) (data : pyval),
    heartbeatTimer st = None ->
    handleHeartbeatResponse float_of_str data st = Raise AttributeError st /\
    (forall k d,
       timers st !! k = Some (mkTimer d cb_heartbeatRequest Pending) ->
       fire_timer node_stop k st
       = Raise TypeError
           (set_timers (<[k := mkTimer d cb_heartbeatRequest Fired]> (timers st)) st)).
Proof.
  intros fos node_stop st data H. split.
  - now apply heartbeat_handler_raises.
  - intros k d Hk. unfold fire_timer. rewrite bind_gets, Hk. reflexivity.
Qed.

Lemma C3_renewal_not_scheduled_witness :
  heartbeatTimer st_timers = None /\
  handleHeartbeatResponse float_of_digits (heartbeat_batch (PStr "10")) st_timers
  = Raise AttributeError st_timers /\
  sent (final (fire_timer (ret tt) 1 st_timers)) = [].
Proof.
  assert (H : heartbeatTimer st_timers = None) by reflexivity.
  destruct (C3_renewal_not_scheduled float_of_digits (ret tt) st_timers
              (heartbeat_batch (PStr "10")) H) as [H1 H2].
  split; [exact H|]. split; [exact H1|].
  rewrite (H2 1 (NFloat 9%float) eq_refl). reflexivity.
Defined.

(** * Further properties of the module *)

(** ** Reasoning on the returning runs *)

Lemma wp_elim {A} (m : M A) Q st a st' : wp m Q st -> m st = Ok a st' -> Q a st'.
Proof. unfold wp. intros H E. now rewrite E in H. Qed.

Lemma wp_ret {A} (a : A) (Q : A -> State -> Prop) st : Q a st -> wp (ret a) Q st.
Proof. auto. Qed.

Lemma wp_raise {A} e (Q : A -> State -> Prop) st : wp (raise e) Q st.
Proof. exact I. Qed.

Lemma wp_bind {A B} (m : M A) (k : A -> M B) Q st :
  wp m (fun a st' => wp (k a) Q st') st -> wp (bind m k) Q st.
Proof. unfold wp, bind. destruct (m st) as [a st'|e st']; auto. Qed.

Lemma wp_mono {A} (m : M A) (Q Q' : A -> State -> Prop) st :
  wp m Q st -> (forall a st', Q a st' -> Q' a st') -> wp m Q' st.
Proof. unfold wp. destruct (m st); auto. Qed.

Lemma wp_gets {A} (f : State -> A) (Q : A -> State -> Prop) st :
  Q (f st) st -> wp (gets f) Q st.
Proof. auto. Qed.

Lemma wp_modify f (Q : unit -> State -> Prop) st : Q tt (f st) -> wp (modify f) Q st.
Proof. auto. Qed.

Lemma wp_print s (Q : unit -> State -> Prop) st :
  Q tt (printed [Line s] st) -> wp (print s) Q st.
Proof. auto. Qed.

Lemma wp_grab e k (Q : pyval -> State -> Prop) st :
  Q (get_or_none (field e k)) st -> wp (_grabPossibleEntry e k) Q st.
Proof. destruct e; cbn; auto; intros; exact I. Qed.

Lemma wp_str_add s v (Q : string -> State -> Prop) st :
  (forall t, v = PStr t -> Q (s +:+ t) st) -> wp (str_add s v) Q st.
Proof. destruct v; cbn; auto; intros; exact I. Qed.

(** The invariant rule of the loop: [I i] holds before the iteration of
    index [i]. *)
Lemma wp_for_each {L} (body : nat -> pyval -> L -> M L) (I : nat -> L -> State -> Prop) :
  (forall i el loc st, I i loc st -> wp (body i el loc) (I (S i)) st) ->
  forall els i loc st,
    I i loc st -> wp (for_each body i els loc) (I (i + length els)) st.
Proof.
  intros Hb els; induction els as [|el els IH]; intros i loc st HI; cbn [for_each length].
  - rewrite Nat.add_0_r. now apply wp_ret.
  - apply wp_bind. eapply wp_mono; [now apply Hb|].
    intros loc' st' HI'. rewrite Nat.add_succ_r. now apply (IH (S i)).
Qed.

(** One step through a computation, for the returning runs. *)
Ltac wp_step :=
  match goal with
  | |- wp (bind _ _) _ _ => apply wp_bind
  | |- wp (ret _) _ _ => apply wp_ret
  | |- wp (raise _) _ _ => apply wp_raise
  | |- wp (print _) _ _ => apply wp_print
  | |- wp (gets _) _ _ => apply wp_gets
  | |- wp (modify _) _ _ => apply wp_modify
  | |- wp (_grabPossibleEntry _ _) _ _ => apply wp_grab
  | |- wp (str_add _ _) _ _ => apply wp_str_add; intros ? ?
  | |- wp (if ?b then _ else _) _ _ => destruct b eqn:?
  | |- wp (match ?o with Some _ => _ | None => _ end) _ _ => destruct o eqn:?
  end.

(** ** Lookups *)

Lemma find_node_Some p store l r :
  find_node p store l = Some r ->
  exists pre post, l = pre ++ r :: post /\ p (store r) = true /\
                   Forall (fun r' => p (store r') = false) pre.
Proof.
  induction l as [|x l IH]; cbn; [discriminate|].
  destruct (p (store x)) eqn:E.
  - intros [= ->]. exists [], l. auto.
  - intros H. destruct (IH H) as (pre & post & -> & Hp & Hpre).
    exists (x :: pre), post. auto.
Qed.

Lemma find_node_None p store l :
  find_node p store l = None -> Forall (fun r => p (store r) = false) l.
Proof.
  induction l as [|x l IH]; cbn; [constructor|].
  destruct (p (store x)) eqn:E; [discriminate|]. auto.
Qed.

Lemma find_node_in p store l r : find_node p store l = Some r -> r ∈ l.
Proof.
  intros H. destruct (find_node_Some _ _ _ _ H) as (pre & post & -> & _).
  apply elem_of_app. right. constructor.
Qed.

(** X1.  [findTempNodeByCbsdId] and [findCreatedNodeByIp] change nothing
    and return the first Node, in list order, of the queue (of the
    registry) whose cbsdId (whose address) equals the argument; they
    return None only when no Node of the list has it. *)
Theorem lookups_return_first_match :
  forall (v : pyval) (st : State),
    (exists o, findTempNodeByCbsdId v st = Ok o st /\
       match o with
       | Some r =>
           exists pre post, tempNodeList st = pre ++ r :: post /\
             py_eq (cbsdId (nodes st r)) v = true /\
             Forall (fun r' => py_eq (cbsdId (nodes st r')) v = false) pre
       | None => Forall (fun r => py_eq (cbsdId (nodes st r)) v = false) (tempNodeList st)
       end) /\
    (exists o, findCreatedNodeByIp v st = Ok o st /\
       match o with
       | Some r =>
           exists pre post, created_nodes st = pre ++ r :: post /\
             py_eq v (ipAddress (nodes st r)) = true /\
             Forall (fun r' => py_eq v (ipAddress (nodes st r')) = false) pre
       | None => Forall (fun r => py_eq v (ipAddress (nodes st r)) = false) (created_nodes st)
       end).
Proof.
  intros v st. split; eexists; (split; [reflexivity|]).
  - destruct (find_node _ _ (tempNodeList st)) eqn:E.
    + now apply find_node_Some in E.
    + now apply find_node_None in E.
  - destruct (find_node _ _ (created_nodes st)) eqn:E.
    + now apply find_node_Some in E.
    + now apply find_node_None in E.
Qed.

(** What [reqAddressToNode] returns, when it returns a Node. *)
Lemma reqAddressToNode_wp request b st :
  wp (reqAddressToNode request b)
     (fun o st' => same_core st st' /\
                   forall r, o = Some r -> found_by_ip request b st r) st.
Proof.
  pose proof (prints_only_reqAddressToNode request b st) as Hc.
  unfold wp. destruct (reqAddressToNode request b st) as [o st'|] eqn:E; [|exact I].
  split; [exact Hc|]. intros r ->. clear Hc.
  unfold reqAddressToNode in E.
  destruct request; try discriminate. rewrite grab_dict, bind_ret_l in E.
  destruct (truthy (get_or_none (dict_get "nodeIp" d))) eqn:Ta; cbn [negb] in E;
    [|discriminate].
  unfold findCreatedNodeByIp in E. rewrite bind_gets in E.
  destruct (find_node _ (nodes st) (created_nodes st)) as [r'|] eqn:F.
  - rewrite bind_gets in E.
    destruct (b && negb (truthy (cbsdId (nodes st r')))) eqn:Hb; [discriminate|].
    injection E as -> _. split; [|split].
    + eapply find_node_in; eauto.
    + exists (get_or_none (dict_get "nodeIp" d)). split; [|split]; auto.
      * cbn. destruct (dict_get "nodeIp" d); [reflexivity|discriminate].
      * now apply find_node_Some in F as (? & ? & _ & ? & _).
    + intros ->. cbn in Hb. now apply negb_false_iff in Hb.
  - unfold bind in E. destruct (str_add _ _ st); [|discriminate]. discriminate.
Qed.

(** X2.  [reqAddressToNode] only prints; the Node it returns is a created
    Node whose address equals the nodeIp of the request, and a registered
    one when [mustBeRegistered] is set. *)
Theorem reqAddressToNode_sound :
  forall (request : pyval) (mustBeRegistered : bool) (st st' : State) (r : nat),
    reqAddressToNode request mustBeRegistered st = Ok (Some r) st' ->
    same_core st st' /\ found_by_ip request mustBeRegistered st r.
Proof.
  intros request b st st' r E.
  destruct (wp_elim _ _ _ _ _ (reqAddressToNode_wp request b st) E) as [Hc H].
  auto.
Qed.

Lemma reqAddressToNode_sound_witness :
  reqAddressToNode (PDict [("nodeIp", PStr "10.0.0.1")]) true st_lab = Ok (Some 0) st_lab /\
  found_by_ip (PDict [("nodeIp", PStr "10.0.0.1")]) true st_lab 0.
Proof.
  assert (H : reqAddressToNode (PDict [("nodeIp", PStr "10.0.0.1")]) true st_lab
              = Ok (Some 0) st_lab) by reflexivity.
  split; [exact H|]. exact (proj2 (reqAddressToNode_sound _ _ _ _ _ H)).
Defined.

(** ** The request builders *)

Lemma same_but_queue_refl c : same_but_queue c c.
Proof. reflexivity. Qed.

Lemma same_but_queue_trans a b c :
  same_but_queue a b -> same_but_queue b c -> same_but_queue a c.
Proof. unfold same_but_queue. congruence. Qed.

Lemma same_but_queue_nodes s s' :
  same_but_queue (core s) (core s') -> nodes s' = nodes s.
Proof.
  intros H. change (nodes (set_tempNodeList [] (core (core s')))
                    = nodes (set_tempNodeList [] (core (core s)))).
  now rewrite H.
Qed.

Lemma same_but_queue_created s s' :
  same_but_queue (core s) (core s') -> created_nodes s' = created_nodes s.
Proof.
  intros H. change (created_nodes (set_tempNodeList [] (core (core s')))
                    = created_nodes (set_tempNodeList [] (core (core s)))).
  now rewrite H.
Qed.

Lemma same_but_queue_sent s s' :
  same_but_queue (core s) (core s') -> sent s' = sent s.
Proof.
  intros H. change (sent (set_tempNodeList [] (core (core s')))
                    = sent (set_tempNodeList [] (core (core s)))).
  now rewrite H.
Qed.

Lemma same_but_queue_timers s s' :
  same_but_queue (core s) (core s') ->
  timers s' = timers s /\ heartbeatTimer s' = heartbeatTimer s.
Proof.
  intros H. split.
  - change (timers (set_tempNodeList [] (core (core s')))
            = timers (set_tempNodeList [] (core (core s)))). now rewrite H.
  - change (heartbeatTimer (set_tempNodeList [] (core (core s')))
            = heartbeatTimer (set_tempNodeList [] (core (core s)))). now rewrite H.
Qed.

Lemma prints_only_print_no_cbsdId r what : prints_only (print_no_cbsdId r what).
Proof. unfold print_no_cbsdId. frame. Qed.

#[local] Hint Resolve prints_only_print_no_cbsdId : py_frame.

Lemma within_for_each {L} (P : State -> State -> Prop)
      (body : nat -> pyval -> L -> M L) :
  (forall c, P c c) -> (forall a b c, P a b -> P b c -> P a c) ->
  (forall i el loc, within P (body i el loc)) ->
  forall els i loc, within P (for_each body i els loc).
Proof.
  intros Hr Ht Hb els; induction els as [|el els IH]; intros i loc; cbn [for_each].
  - intros st. apply Hr.
  - apply within_seq; auto.
Qed.

(** Walks through the body of a builder, whatever its outcome. *)
Ltac builder_step :=
  match goal with
  | |- within _ (if ?b then _ else _) => destruct b
  | |- within _ (match ?x with _ => _ end) => destruct x
  | |- within _ (enqueue _) =>
      apply within_pure_modify; intros; reflexivity
  | |- within _ (modify (set_tempNodeList _)) =>
      apply within_pure_modify; intros; reflexivity
  | |- within _ (modify (fun st => set_tempNodeList _ st)) =>
      apply within_pure_modify; intros; reflexivity
  | |- within _ (for_each _ _ _ _) =>
      apply within_for_each;
        [apply same_but_queue_refl|apply same_but_queue_trans|intros]
  | |- within _ (bind _ _) =>
      first [ apply within_bind; [apply same_but_queue_refl|solve [frame]|intros]
            | apply within_seq; [apply same_but_queue_trans| |intros] ]
  | |- within _ _ => apply within_prints; [apply same_but_queue_refl|solve [frame]]
  end.

(** Returning or raising, the five builders change nothing but the
    correlation queue and the terminal output. *)
Lemma builders_same_but_queue requests :
  within same_but_queue (simRegistrationReq requests) /\
  within same_but_queue (simSpectrumInquiryReq requests) /\
  within same_but_queue (simGrantReq requests) /\
  within same_but_queue (simRelinquishmentReq requests) /\
  within same_but_queue (simDeregistrationReq requests).
Proof.
  repeat split.
  - unfold simRegistrationReq, simRegistrationReq_body. repeat builder_step.
  - unfold simSpectrumInquiryReq, simSpectrumInquiryReq_body. repeat builder_step.
  - unfold simGrantReq, simGrantReq_body. repeat builder_step.
  - unfold simRelinquishmentReq, simRelinquishmentReq_body. repeat builder_step.
  - unfold simDeregistrationReq, simDeregistrationReq_body. repeat builder_step.
Qed.

Lemma found_by_ip_core request b s s0 r :
  found_by_ip request b s r ->
  nodes s = nodes s0 -> created_nodes s = created_nodes s0 ->
  found_by_ip request b s0 r.
Proof. unfold found_by_ip. intros H Hn Hc. now rewrite <- Hn, <- Hc. Qed.

(** Closes the case of a builder's body in which a request joins the
    array and its Node the queue. *)
Ltac built_append Hq Hq' Ho :=
  split; [cbn; congruence|split; [cbn; congruence|]];
  cbn [tempNodeList set_tempNodeList printed set_out]; rewrite Hq';
  apply Forall2_app; [exact Hq|];
  constructor; [|constructor];
  destruct Ho as (? & ? & ?);
  repeat match goal with
         | H : negb _ = false |- _ => apply negb_false_iff in H
         end;
  repeat split; cbn; auto; congruence.

(** Runs a builder's body up to the Node [reqAddressToNode] returns. *)
Ltac builder_lookup st0 Hn Hcr :=
  wp_step; wp_step; apply wp_bind;
  eapply wp_mono; [apply reqAddressToNode_wp|];
  let o := fresh "o" in
  let st' := fresh "st'" in
  let Hc := fresh "Hc" in
  let Ho := fresh "Ho" in
  let Hn' := fresh "Hn'" in
  let Hq' := fresh "Hq'" in
  let Hcr' := fresh "Hcr'" in
  intros o st' [Hc Ho];
  pose proof (same_core_nodes _ _ Hc) as Hn';
  pose proof (same_core_queue _ _ Hc) as Hq';
  assert (Hcr' : created_nodes st' = created_nodes (core st'))
    by reflexivity;
  rewrite Hc in Hcr'; cbn in Hn', Hq', Hcr';
  destruct o as [r|];
  [specialize (Ho r eq_refl);
   apply found_by_ip_core with (s0 := st0) in Ho; [|cbn; congruence..]
  |].

Section Aligned.

Variable st0 : State.

Lemma simRegistrationReq_body_aligned i request arr st :
  built reg_entry st0 arr st ->
  wp (simRegistrationReq_body i request arr) (built reg_entry st0) st.
Proof.
  intros (Hn & Hcr & Hq). unfold simRegistrationReq_body.
  builder_lookup st0 Hn Hcr;
    repeat wp_step; try (repeat split; cbn; congruence).
  built_append Hq Hq' Ho.
Qed.

Lemma simSpectrumInquiryReq_body_aligned i request arr st :
  built si_entry st0 arr st ->
  wp (simSpectrumInquiryReq_body i request arr) (built si_entry st0) st.
Proof.
  intros (Hn & Hcr & Hq). unfold simSpectrumInquiryReq_body, print_no_cbsdId, enqueue.
  builder_lookup st0 Hn Hcr;
    repeat wp_step; try (repeat split; cbn; congruence).
  built_append Hq Hq' Ho.
Qed.

Lemma simGrantReq_body_aligned i request arr st :
  built grant_entry st0 arr st ->
  wp (simGrantReq_body i request arr) (built grant_entry st0) st.
Proof.
  intros (Hn & Hcr & Hq). unfold simGrantReq_body, print_no_cbsdId, enqueue.
  builder_lookup st0 Hn Hcr;
    repeat wp_step; try (repeat split; cbn; congruence).
  built_append Hq Hq' Ho.
Qed.

End Aligned.

(** The invariant rule of the loop, the invariant speaking of the elements
    gone through so far. *)
Lemma wp_for_each_prefix {L} (body : nat -> pyval -> L -> M L)
      (I : list pyval -> L -> State -> Prop) :
  (forall i done el loc st, I done loc st -> wp (body i el loc) (I (done ++ [el])) st) ->
  forall els done i loc st,
    I done loc st -> wp (for_each body i els loc) (I (done ++ els)) st.
Proof.
  intros Hb els; induction els as [|el els IH]; intros done i loc st HI; cbn [for_each].
  - rewrite app_nil_r. now apply wp_ret.
  - apply wp_bind. eapply wp_mono; [exact (Hb i done el loc st HI)|].
    intros loc' st' HI'. cbv beta in HI'.
    replace (done ++ el :: els) with ((done ++ [el]) ++ els)
      by (now rewrite <- app_assoc).
    now apply IH.
Qed.

Section AllOrNothing.

Variable st0 : State.

Lemma simRelinquishmentReq_body_aligned i done request arr st :
  Forall2 (fun rq r => found_by_ip rq true st0 r) done (tempNodeList st) /\
  built rel_entry st0 arr st ->
  wp (simRelinquishmentReq_body i request arr)
     (fun arr' st' =>
        Forall2 (fun rq r => found_by_ip rq true st0 r) (done ++ [request])
                (tempNodeList st') /\
        built rel_entry st0 arr' st') st.
Proof.
  intros (Hd & Hn & Hcr & Hq).
  unfold simRelinquishmentReq_body, print_no_cbsdId, enqueue.
  builder_lookup st0 Hn Hcr; repeat wp_step.
  - destruct Ho as (_ & _ & Ho). specialize (Ho eq_refl).
    rewrite Hn', Hn, Ho in *. discriminate.
  - split.
    + cbn [tempNodeList set_tempNodeList printed set_out]. rewrite Hq'.
      apply Forall2_app; [exact Hd|]. constructor; [exact Ho|constructor].
    + built_append Hq Hq' Ho.
Qed.

Lemma simDeregistrationReq_body_aligned i done request arr st :
  Forall2 (fun rq r => found_by_ip rq true st0 r) done (tempNodeList st) /\
  built dereg_entry st0 arr st ->
  wp (simDeregistrationReq_body i request arr)
     (fun arr' st' =>
        Forall2 (fun rq r => found_by_ip rq true st0 r) (done ++ [request])
                (tempNodeList st') /\
        built dereg_entry st0 arr' st') st.
Proof.
  intros (Hd & Hn & Hcr & Hq).
  unfold simDeregistrationReq_body, print_no_cbsdId, enqueue.
  builder_lookup st0 Hn Hcr; repeat wp_step.
  - destruct Ho as (_ & _ & Ho). specialize (Ho eq_refl).
    rewrite Hn', Hn, Ho in *. discriminate.
  - split.
    + cbn [tempNodeList set_tempNodeList printed set_out]. rewrite Hq'.
      apply Forall2_app; [exact Hd|]. constructor; [exact Ho|constructor].
    + built_append Hq Hq' Ho.
Qed.

End AllOrNothing.

Lemma built_start {X} (entry : State -> X -> nat -> Prop) st0 :
  built entry st0 [] (set_tempNodeList [] st0).
Proof. repeat split. constructor. Qed.

(** The array and the queue a returning builder leaves, entry by entry. *)
Lemma simRegistrationReq_entries requests st0 st arr :
  simRegistrationReq requests st0 = Ok arr st ->
  Forall2 (reg_entry st0) arr (tempNodeList st).
Proof.
  intros E. unfold simRegistrationReq in E. rewrite bind_modify in E.
  assert (H : wp (for_each simRegistrationReq_body 0 requests [])
                 (built reg_entry st0) (set_tempNodeList [] st0)).
  { apply (wp_for_each _ (fun _ => built reg_entry st0)).
    - intros. now apply simRegistrationReq_body_aligned.
    - apply built_start. }
  exact (proj2 (proj2 (wp_elim _ _ _ _ _ H E))).
Qed.

Lemma simGrantReq_entries requests st0 st arr :
  simGrantReq requests st0 = Ok arr st ->
  Forall2 (grant_entry st0) arr (tempNodeList st).
Proof.
  intros E. unfold simGrantReq in E. rewrite bind_modify in E.
  assert (H : wp (for_each simGrantReq_body 0 requests [])
                 (built grant_entry st0) (set_tempNodeList [] st0)).
  { apply (wp_for_each _ (fun _ => built grant_entry st0)).
    - intros. now apply simGrantReq_body_aligned.
    - apply built_start. }
  exact (proj2 (proj2 (wp_elim _ _ _ _ _ H E))).
Qed.

(** X3.  When [simRegistrationReq] returns, it has changed nothing but the
    correlation queue and the output, and the array and the queue go
    together entry by entry: request [i] was built for the Node at index
    [i] of [tempNodeList], a created Node, carries that Node's serial
    number, and its serial number, userId and fccId are not empty. *)
Theorem simRegistrationReq_aligned :
  forall (requests : list pyval) (st0 st : State) (arr : list RegistrationRequest),
    simRegistrationReq requests st0 = Ok arr st ->
    same_but_queue st0 st /\ Forall2 (reg_entry st0) arr (tempNodeList st).
Proof.
  intros requests st0 st arr E. split.
  - pose proof (proj1 (builders_same_but_queue requests) st0) as H.
    now rewrite E in H.
  - exact (simRegistrationReq_entries _ _ _ _ E).
Qed.

Lemma simRegistrationReq_aligned_witness :
  simRegistrationReq reg_requests st_lab = Ok arr_reg_sent st_reg_sent /\
  Forall2 (reg_entry st_lab) arr_reg_sent (tempNodeList st_reg_sent).
Proof.
  assert (H : simRegistrationReq reg_requests st_lab = Ok arr_reg_sent st_reg_sent)
    by (vm_compute; reflexivity).
  split; [exact H|]. exact (proj2 (simRegistrationReq_aligned _ _ _ _ H)).
Defined.

(** X4.  When [simSpectrumInquiryReq] returns, it has changed nothing but
    the queue and the output, and request [i] of the array carries the
    cbsdId, not empty, of the created Node at index [i] of the queue. *)
Theorem simSpectrumInquiryReq_aligned :
  forall (requests : list pyval) (st0 st : State) (arr : list SpectrumInquiryRequest),
    simSpectrumInquiryReq requests st0 = Ok arr st ->
    same_but_queue st0 st /\ Forall2 (si_entry st0) arr (tempNodeList st).
Proof.
  intros requests st0 st arr E. split.
  - pose proof (proj1 (proj2 (builders_same_but_queue requests)) st0) as H.
    now rewrite E in H.
  - unfold simSpectrumInquiryReq in E. rewrite bind_modify in E.
    assert (H : wp (for_each simSpectrumInquiryReq_body 0 requests [])
                   (built si_entry st0) (set_tempNodeList [] st0)).
    { apply (wp_for_each _ (fun _ => built si_entry st0)).
      - intros. now apply simSpectrumInquiryReq_body_aligned.
      - apply built_start. }
    exact (proj2 (proj2 (wp_elim _ _ _ _ _ H E))).
Qed.

(** X5.  When [simGrantReq] returns, it has changed nothing but the queue
    and the output, and request [i] of the array carries the cbsdId, not
    empty, of the created Node at index [i] of the queue, with an
    operationParam that is not empty. *)
Theorem simGrantReq_aligned :
  forall (requests : list pyval) (st0 st : State) (arr : list GrantRequest),
    simGrantReq requests st0 = Ok arr st ->
    same_but_queue st0 st /\ Forall2 (grant_entry st0) arr (tempNodeList st).
Proof.
  intros requests st0 st arr E. split.
  - pose proof (proj1 (proj2 (proj2 (builders_same_but_queue requests))) st0) as H.
    now rewrite E in H.
  - exact (simGrantReq_entries _ _ _ _ E).
Qed.

(** X6.  [simRelinquishmentReq] is all or nothing: when it returns, every
    parameter set of the batch, in order, has its registered Node in the
    queue and its request in the array, with the Node's cbsdId and the
    grantId of the Node's Grant; a parameter set without a registered Node
    stops the builder on an exception instead of being skipped. *)
Theorem simRelinquishmentReq_all_or_nothing :
  forall (requests : list pyval) (st0 st : State) (arr : list RelinquishmentRequest),
    simRelinquishmentReq requests st0 = Ok arr st ->
    same_but_queue st0 st /\
    Forall2 (fun rq r => found_by_ip rq true st0 r) requests (tempNodeList st) /\
    Forall2 (rel_entry st0) arr (tempNodeList st).
Proof.
  intros requests st0 st arr E. split.
  - pose proof (proj1 (proj2 (proj2 (proj2 (builders_same_but_queue requests)))) st0) as H.
    now rewrite E in H.
  - unfold simRelinquishmentReq in E. rewrite bind_modify in E.
    pose proof (wp_for_each_prefix simRelinquishmentReq_body
                  (fun done arr' st' =>
                     Forall2 (fun rq r => found_by_ip rq true st0 r) done
                             (tempNodeList st') /\ built rel_entry st0 arr' st')
                  (fun i done el loc s => simRelinquishmentReq_body_aligned st0 i done el loc s)
                  requests [] 0 [] (set_tempNodeList [] st0)) as H.
    cbv beta in H. rewrite app_nil_l in H.
    assert (H0 : Forall2 (fun rq r => found_by_ip rq true st0 r) []
                   (tempNodeList (set_tempNodeList [] st0))) by constructor.
    destruct (wp_elim _ _ _ _ _ (H (conj H0 (built_start _ _))) E)
      as (Hd & _ & _ & Hq).
    auto.
Qed.

(** X7.  [simDeregistrationReq] is all or nothing in the same way: when it
    returns, every parameter set, in order, has its registered Node in the
    queue and a request with that Node's cbsdId in the array. *)
Theorem simDeregistrationReq_all_or_nothing :
  forall (requests : list pyval) (st0 st : State) (arr : list DeregistrationRequest),
    simDeregistrationReq requests st0 = Ok arr st ->
    same_but_queue st0 st /\
    Forall2 (fun rq r => found_by_ip rq true st0 r) requests (tempNodeList st) /\
    Forall2 (dereg_entry st0) arr (tempNodeList st).
Proof.
  intros requests st0 st arr E. split.
  - pose proof (proj2 (proj2 (proj2 (proj2 (builders_same_but_queue requests)))) st0) as H.
    now rewrite E in H.
  - unfold simDeregistrationReq in E. rewrite bind_modify in E.
    pose proof (wp_for_each_prefix simDeregistrationReq_body
                  (fun done arr' st' =>
                     Forall2 (fun rq r => found_by_ip rq true st0 r) done
                             (tempNodeList st') /\ built dereg_entry st0 arr' st')
                  (fun i done el loc s => simDeregistrationReq_body_aligned st0 i done el loc s)
                  requests [] 0 [] (set_tempNodeList [] st0)) as H.
    cbv beta in H. rewrite app_nil_l in H.
    assert (H0 : Forall2 (fun rq r => found_by_ip rq true st0 r) []
                   (tempNodeList (set_tempNodeList [] st0))) by constructor.
    destruct (wp_elim _ _ _ _ _ (H (conj H0 (built_start _ _))) E)
      as (Hd & _ & _ & Hq).
    auto.
Qed.

Lemma simSpectrumInquiryReq_aligned_witness :
  exists arr st,
    simSpectrumInquiryReq radio1_requests st_lab = Ok arr st /\
    Forall2 (si_entry st_lab) arr (tempNodeList st).
Proof.
  destruct (simSpectrumInquiryReq radio1_requests st_lab) as [arr st|e st] eqn:E.
  - exists arr, st. split; [reflexivity|].
    exact (proj2 (simSpectrumInquiryReq_aligned _ _ _ _ E)).
  - vm_compute in E. discriminate E.
Defined.

Lemma simGrantReq_aligned_witness :
  exists arr st,
    simGrantReq grant_requests st_lab = Ok arr st /\
    Forall2 (grant_entry st_lab) arr (tempNodeList st).
Proof.
  destruct (simGrantReq grant_requests st_lab) as [arr st|e st] eqn:E.
  - exists arr, st. split; [reflexivity|].
    exact (proj2 (simGrantReq_aligned _ _ _ _ E)).
  - vm_compute in E. discriminate E.
Defined.

Lemma simRelinquishmentReq_all_or_nothing_witness :
  exists arr st,
    simRelinquishmentReq radio1_requests st_granted = Ok arr st /\
    Forall2 (rel_entry st_granted) arr (tempNodeList st).
Proof.
  destruct (simRelinquishmentReq radio1_requests st_granted) as [arr st|e st] eqn:E.
  - exists arr, st. split; [reflexivity|].
    exact (proj2 (proj2 (simRelinquishmentReq_all_or_nothing _ _ _ _ E))).
  - vm_compute in E. discriminate E.
Defined.

Lemma simDeregistrationReq_all_or_nothing_witness :
  exists arr st,
    simDeregistrationReq radio1_requests st_lab = Ok arr st /\
    Forall2 (dereg_entry st_lab) arr (tempNodeList st).
Proof.
  destruct (simDeregistrationReq radio1_requests st_lab) as [arr st|e st] eqn:E.
  - exists arr, st. split; [reflexivity|].
    exact (proj2 (proj2 (simDeregistrationReq_all_or_nothing _ _ _ _ E))).
  - vm_compute in E. discriminate E.
Defined.

(** ** From a grant request to its response *)

Lemma find_node_exists p store l r :
  r ∈ l -> p (store r) = true -> exists r', find_node p store l = Some r'.
Proof.
  induction l as [|x l IH]; intros Hin Hp; [now apply elem_of_nil in Hin|].
  cbn. destruct (p (store x)) eqn:E; [eauto|].
  apply elem_of_cons in Hin as [->|Hin]; [congruence|auto].
Qed.

(** X8.  A request [simGrantReq] has built finds its Node again: for the
    str cbsdId of any request of the array, the lookup of the grant
    response handler succeeds in the queue the builder left, and a complete
    successful response element for that cbsdId gives a Node of the queue
    holding that cbsdId a GRANTED Grant with the fields of the response. *)
Theorem grant_request_round_trip :
  forall (requests : list pyval) (st0 st : State) (arr : list GrantRequest)
         (i : nat) (rq : GrantRequest) (c : string)
         (iter : nat) (el : pyval) (loc : Locals) (resp gid ch ex hb : pyval),
    simGrantReq requests st0 = Ok arr st ->
    arr !! i = Some rq -> gr_cbsdId rq = PStr c ->
    field el "response" = Some resp -> reports_success resp = true ->
    field el "cbsdId" = Some (PStr c) ->
    field el "grantId" = Some gid -> truthy gid = true ->
    field el "channelType" = Some ch -> truthy ch = true ->
    field el "grantExpireTime" = Some ex -> truthy ex = true ->
    field el "heartbeatInterval" = Some hb -> truthy hb = true ->
    exists r st',
      r ∈ tempNodeList st /\ cbsdId (nodes st r) = PStr c /\
      handleGrantResponse_body iter el loc st = Ok loc st' /\
      grant (nodes st' r)
      = mkGrant gid GRANTED ex (transmitExpireTime (grant (nodes st r))) hb ch.
Proof.
  intros requests st0 st arr i rq c iter el loc resp gid ch ex hb
         E Hi Hc Hr Hs Hel Hgid Tgid Hch Tch Hex Tex Hhb Thb.
  pose proof (simGrantReq_entries _ _ _ _ E) as Hall.
  assert (Hn : nodes st = nodes st0).
  { pose proof (proj1 (proj2 (proj2 (builders_same_but_queue requests))) st0) as H.
    rewrite E in H. exact (same_but_queue_nodes _ _ H). }
  destruct (Forall2_lookup_l _ _ _ _ _ Hall Hi) as (r0 & Hq & _ & Hid & Tc & _).
  rewrite Hc in Hid, Tc.
  assert (Hp : py_eq (cbsdId (nodes st r0)) (PStr c) = true).
  { rewrite Hn, <- Hid. cbn. apply String.eqb_refl. }
  destruct (find_node_exists (fun n => py_eq (cbsdId n) (PStr c)) (nodes st)
              (tempNodeList st) r0) as [r Hres]; [|exact Hp|].
  { eapply list_elem_of_lookup_2; eauto. }
  pose proof (find_node_in _ _ _ _ Hres) as Hin.
  apply find_node_Some in Hres as Hf. destruct Hf as (_ & _ & _ & Hpr & _).
  apply py_eq_str_true in Hpr.
  destruct (grant_body_granted iter el loc st resp gid ch ex hb (PStr c) r) as [ls G];
    try assumption.
  eexists r, _. split; [exact Hin|]. split; [exact Hpr|]. split; [exact G|].
  unfold apply_measReportConfig.
  destruct (truthy (get_or_none (field el "measReportConfig")));
    unfold printed, upd_node, set_nodes, set_out;
    cbn [nodes]; rewrite !Nat.eqb_refl; reflexivity.
Qed.

Lemma grant_request_round_trip_witness :
  exists arr st,
    simGrantReq grant_requests st_lab = Ok arr st /\
    exists r st',
      r ∈ tempNodeList st /\
      handleGrantResponse_body 0 (grant_element (PStr "10")) no_locals st
      = Ok no_locals st' /\
      grantStatus (grant (nodes st' r)) = GRANTED.
Proof.
  destruct (simGrantReq grant_requests st_lab) as [arr st|e st] eqn:E;
    [|vm_compute in E; discriminate E].
  exists arr, st. split; [reflexivity|].
  assert (Ha : arr !! 0 = Some (mkGrantRequest (PStr "CBSD-1")
                                  (PDict [("maxEirp", PStr "30")]) PNone PNone)).
  { vm_compute in E. injection E as <- _. reflexivity. }
  destruct (grant_request_round_trip grant_requests st_lab st arr 0 _ "CBSD-1" 0
              (grant_element (PStr "10")) no_locals (envelope "0")
              (PStr "G2") (PStr "GAA") (PStr "2021-03-01T00:00:00Z") (PStr "10")
              E Ha eq_refl eq_refl eq_refl eq_refl eq_refl eq_refl eq_refl eq_refl
              eq_refl eq_refl eq_refl eq_refl) as (r & st' & Hin & _ & G & Hg).
  exists r, st'. split; [exact Hin|]. split; [exact G|]. now rewrite Hg.
Defined.

(** ** The handlers that record nothing *)

(** X9.  [handleDeregistrationResponse] has no effect at all: whatever the
    payload and whether it returns or raises, the state it ends in is the
    state it started from; the deregistered Node keeps its cbsdId, its
    Grant and its place in the queue and in the registry, and nothing is
    printed. *)
Theorem handleDeregistrationResponse_no_effect :
  forall (jsonData : pyval) (st : State),
    final (handleDeregistrationResponse jsonData st) = st.
Proof.
  intros jsonData st. unfold handleDeregistrationResponse, py_index.
  destruct jsonData; try reflexivity.
  destruct (dict_get "deregistrationResponse" d) as [l|]; [|reflexivity].
  cbv iota. rewrite bind_ret_l. destruct (py_iter l) as [els|]; [|reflexivity].
  generalize 0. induction els as [|el els IH]; intros i; [reflexivity|].
  cbn [for_each]. unfold bind at 1.
  assert (H : handleDeregistrationResponse_body i el tt st = Ok tt st \/
              exists e, handleDeregistrationResponse_body i el tt st = Raise e st).
  { unfold handleDeregistrationResponse_body, py_index.
    destruct el; eauto.
    destruct (dict_get "cbsdId" d0); [|right; eauto]. cbv iota. rewrite bind_ret_l.
    destruct (dict_get "response" d0); [|right; eauto]. now left. }
  destruct H as [-> | [e ->]]; [apply IH | reflexivity].
Qed.

Section Inquiry.

Variable int_ok : string -> bool.

Lemma inquiry_body_valid_code_raises iter el resp s st :
  field el "response" = Some resp ->
  field resp "responseCode" = Some (PStr s) -> s <> "" -> int_ok s = true ->
  exists e st', handleSpectrumInquiryResponse_body int_ok iter el tt st = Raise e st'.
Proof.
  intros Hr Hc Hs Hi. unfold handleSpectrumInquiryResponse_body.
  unfold print_value. rewrite bind_modify.
  destruct el as [| | | | |d]; try discriminate. cbn in Hr. unfold py_index.
  destruct (dict_get "cbsdId" d); [|rewrite bind_raise; eauto]. cbv iota. rewrite bind_ret_l.
  destruct (dict_get "availableChannel" d); [|rewrite bind_raise; eauto].
  cbv iota. rewrite bind_ret_l, Hr, bind_ret_l.
  destruct resp as [| | | | |dr]; try discriminate. cbn in Hc.
  replace (truthy (PDict dr)) with true by (destruct dr; [discriminate|reflexivity]).
  rewrite Hc, bind_ret_l, (truthy_str s Hs).
  unfold isVaildInt. rewrite Hi.
  cbv [bind ret raise]. eauto.
Qed.

(** X10.  [handleSpectrumInquiryResponse] cannot get past an element
    whose responseCode is a non-empty str that reads as an integer ("0"
    for a successful inquiry included): the line that reports the code adds
    an int to a str, so the handler ends in an exception at that element at
    the latest, the elements after it are never read, and only the terminal
    output has changed. *)
Theorem inquiry_response_valid_code_raises :
  forall (jsonData l : pyval) (pre post : list pyval) (el resp : pyval)
         (s : string) (st : State),
    field jsonData "spectrumInquiryResponse" = Some l ->
    py_iter l = Some (pre ++ el :: post) ->
    field el "response" = Some resp ->
    field resp "responseCode" = Some (PStr s) -> s <> "" -> int_ok s = true ->
    exists e st',
      handleSpectrumInquiryResponse int_ok jsonData st = Raise e st' /\
      same_core st st' /\
      handleSpectrumInquiryResponse int_ok
        (PDict [("spectrumInquiryResponse", PList (pre ++ [el]))]) st = Raise e st'.
Proof.
  intros jsonData l pre post el resp s st Hl Hit Hr Hc Hs Hi.
  assert (Hp : forall st0, same_core st0 (final (handleSpectrumInquiryResponse int_ok jsonData st0))).
  { intros st0. unfold handleSpectrumInquiryResponse.
    apply prints_only_bind; [apply prints_only_index|]. intros a.
    destruct (py_iter a); [|apply prints_only_raise].
    apply prints_only_for_each. intros. apply inquiry_body_prints. }
  specialize (Hp st).
  assert (E : exists e st', forall post',
             for_each (handleSpectrumInquiryResponse_body int_ok) 0
               (pre ++ el :: post') tt st = Raise e st').
  { destruct (for_each (handleSpectrumInquiryResponse_body int_ok) 0 pre tt st)
      as [[] st1|e st1] eqn:E1.
    - destruct (inquiry_body_valid_code_raises (0 + length pre) el resp s st1 Hr Hc Hs Hi)
        as (e & st' & E2).
      exists e, st'. intros post'. rewrite for_each_app, E1. cbn [for_each].
      unfold bind. now rewrite E2.
    - exists e, st1. intros post'. now rewrite for_each_app, E1. }
  destruct E as (e & st' & E). exists e, st'.
  assert (R : handleSpectrumInquiryResponse int_ok jsonData st = Raise e st').
  { unfold handleSpectrumInquiryResponse, py_index.
    destruct jsonData; try discriminate. cbn in Hl. rewrite Hl, bind_ret_l, Hit.
    apply E. }
  split; [exact R|]. split; [now rewrite R in Hp|].
  unfold handleSpectrumInquiryResponse, py_index. cbn [dict_get String.eqb].
  cbn. apply E.
Qed.

End Inquiry.

Lemma inquiry_response_valid_code_raises_witness :
  exists e st',
    handleSpectrumInquiryResponse int_ok_digits
      (PDict [("spectrumInquiryResponse", PList [inquiry_element])]) st_lab
    = Raise e st' /\ same_core st_lab st'.
Proof.
  destruct (inquiry_response_valid_code_raises int_ok_digits
              (PDict [("spectrumInquiryResponse", PList [inquiry_element])])
              (PList [inquiry_element]) [] [] inquiry_element (envelope "0") "0" st_lab
              eq_refl eq_refl eq_refl eq_refl) as (e & st' & H & Hc & _);
    [discriminate | reflexivity |].
  exists e, st'. split; [exact H | exact Hc].
Defined.

(** ** The suggested operation parameters of a refusal *)

Lemma suggested_without_range_unbound el d loc st :
  field el "operationParam" = Some (PDict d) -> d <> [] ->
  provided (PDict d) "operationFrequencyRange" = false ->
  low loc = None ->
  suggestedOperationParam el loc st
  = Raise UnboundLocalError (printed [Line "Suggested Operation Parameters:"] st).
Proof.
  intros Ho Hd Hr Hl. unfold suggestedOperationParam.
  destruct el as [| | | | |e]; try discriminate. cbn in Ho.
  rewrite grab_dict, bind_ret_l, Ho. cbn [get_or_none].
  replace (truthy (PDict d)) with true by (destruct d; [congruence|reflexivity]).
  rewrite bind_print, !grab_dict, !bind_ret_l, provided_dict, Hr, bind_ret_l, Hl.
  reflexivity.
Qed.

(** X11.  A refused grant that suggests operation parameters without a
    frequency range stops [handleGrantResponse] when it comes first in the
    batch: [low] is assigned only under [if(freqRange)], so reading it
    raises UnboundLocalError, "Grant invalid." is not printed for the
    element, the elements after it are never read, and no Node is
    touched. *)
Theorem refused_grant_without_range_unbound :
  forall (jsonData l el : pyval) (rest : list pyval)
         (r d : list (string * pyval)) (c : string) (st : State),
    field jsonData "grantResponse" = Some l -> truthy l = true ->
    py_iter l = Some (el :: rest) ->
    field el "response" = Some (PDict r) ->
    dict_get "responseCode" r = Some (PStr c) -> c <> "" -> c <> "0" ->
    printable (dict_get "responseMessage" r) = true ->
    printable (dict_get "responseData" r) = true ->
    field el "operationParam" = Some (PDict d) -> d <> [] ->
    provided (PDict d) "operationFrequencyRange" = false ->
    handleGrantResponse jsonData st
    = Raise UnboundLocalError
        (printed ([Line "Grant Response Received"; Line "Grant Response [1]:"]
                  ++ envelope_lines c r
                  ++ [nonzero_code_error; Line "Suggested Operation Parameters:"]) st).
Proof.
  intros jsonData l el rest r d c st Hl Tl Hit Hr Hc Hc0 Hc1 Hm Hd Ho Hd0 Hf.
  unfold handleGrantResponse.
  destruct jsonData as [| | | | |j]; try discriminate. cbn in Hl.
  rewrite grab_dict, bind_ret_l, Hl. cbn [get_or_none]. rewrite Tl. cbn [negb].
  rewrite bind_print, Hit. cbn [for_each].
  unfold bind at 1. unfold bind at 1. unfold handleGrantResponse_body.
  rewrite bind_print.
  destruct el as [| | | | |e]; try discriminate. cbn in Hr.
  rewrite grab_dict, bind_ret_l, Hr. cbn [get_or_none].
  unfold bind at 1.
  rewrite (isValidResponse_str_code r c _ Hc Hc0 Hm Hd).
  apply String.eqb_neq in Hc1. rewrite Hc1. cbn [negb].
  unfold bind at 1.
  rewrite (suggested_without_range_unbound (PDict e) d no_locals _ Ho Hd0 Hf eq_refl).
  rewrite !printed_printed. do 2 f_equal.
  cbn [app]. now rewrite <- !app_assoc.
Qed.

Lemma refused_grant_without_range_unbound_witness :
  handleGrantResponse
    (PDict [("grantResponse", PList [el_suggested_power; grant_element (PStr "10")])])
    st_lab
  = Raise UnboundLocalError
      (printed [Line "Grant Response Received"; Line "Grant Response [1]:";
                Line "Response Code: 400"; nonzero_code_error;
                Line "Suggested Operation Parameters:"] st_lab).
Proof.
  refine (refused_grant_without_range_unbound
            (PDict [("grantResponse", PList [el_suggested_power; grant_element (PStr "10")])])
            _ el_suggested_power [grant_element (PStr "10")]
            [("responseCode", PStr "400")] [("maxEirp", PStr "20")] "400" st_lab
            eq_refl eq_refl eq_refl eq_refl eq_refl _ _ eq_refl eq_refl eq_refl _ eq_refl);
    discriminate.
Defined.

(** ** Creating Nodes from the simulation file *)

Section Creation.

Variable serial_of : pyval -> pyval.

Lemma get_or_none_str o s : get_or_none o = PStr s -> o = Some (PStr s).
Proof. destruct o; cbn; [now intros ->|discriminate]. Qed.

Lemma simCreateNode_body_sound st0 i done request arr st :
  (same_core st0 st /\
   exists chosen, sublist chosen done /\
     Forall2 (fun rq n => exists a, creatable st0 rq a /\ n = Node_new serial_of a)
             chosen arr) ->
  wp (simCreateNode_body serial_of i request arr)
     (fun arr' st' =>
        same_core st0 st' /\
        exists chosen, sublist chosen (done ++ [request]) /\
          Forall2 (fun rq n => exists a, creatable st0 rq a /\ n = Node_new serial_of a)
                  chosen arr') st.
Proof.
  intros (Hc & chosen & Hs & Hall).
  assert (Hskip : forall ls,
             same_core st0 (printed ls st) /\
             exists chosen, sublist chosen (done ++ [request]) /\
               Forall2 (fun rq n => exists a, creatable st0 rq a /\ n = Node_new serial_of a)
                       chosen arr).
  { intros ls. split.
    - eapply same_core_trans; [exact Hc|apply same_core_printed].
    - exists chosen. split; [|exact Hall]. now apply sublist_inserts_r. }
  assert (Hadd : forall ls a,
             creatable st0 request a ->
             same_core st0 (printed ls st) /\
             exists chosen, sublist chosen (done ++ [request]) /\
               Forall2 (fun rq n => exists a, creatable st0 rq a /\ n = Node_new serial_of a)
                       chosen (arr ++ [Node_new serial_of a])).
  { intros ls a Ha. split.
    - eapply same_core_trans; [exact Hc|apply same_core_printed].
    - exists (chosen ++ [request]). split; [now apply sublist_app|].
      apply Forall2_app; [exact Hall|]. constructor; [eauto|constructor]. }
  unfold simCreateNode_body, warn_missing, findCreatedNodeByIp.
  destruct request as [| | | | |d];
    try (apply wp_bind; unfold wp; cbn; exact I).
  rewrite !grab_dict.
  assert (Hfind : forall a,
             find_node (fun n => py_eq a (ipAddress n)) (nodes st) (created_nodes st) = None ->
             Forall (fun r => py_eq a (ipAddress (nodes st0 r)) = false) (created_nodes st0)).
  { intros a E. apply find_node_None in E.
    rewrite (same_core_nodes _ _ Hc) in E.
    assert (Hcr : created_nodes st = created_nodes (core st)) by reflexivity.
    rewrite Hc in Hcr. cbn in Hcr. now rewrite Hcr in E. }
  repeat wp_step;
    try (rewrite <- (printed_nil st); apply Hskip);
    try (rewrite ?printed_printed; apply Hskip).
  all: repeat match goal with
         | H : negb _ = false |- _ => apply negb_false_iff in H
         | H : _ || _ = true |- _ => apply orb_true_iff in H
         | H : _ || _ = false |- _ => apply orb_false_iff in H; destruct H
         end.
  all: try (rewrite <- (printed_nil st); apply Hskip).
  all: try (rewrite ?printed_printed; apply Hskip).
  all: try rewrite <- (printed_nil st); rewrite ?printed_printed; apply Hadd.
  all: unfold creatable; cbn [field]; rewrite <- !provided_dict.
  all: repeat match goal with |- _ /\ _ => split end; auto.
  all: try (destruct (dict_get "address" d); [reflexivity|discriminate]).
  all: match goal with
       | H : _ \/ _ |- _ =>
           destruct H as [H|H]; apply py_eq_str_true, get_or_none_str in H; auto
       end.
Qed.

Lemma simCreateNode_body_creatable st0 i request a arr st :
  creatable st0 request a -> same_core st0 st ->
  exists ls, simCreateNode_body serial_of i request arr st
             = Ok (arr ++ [Node_new serial_of a]) (printed ls st).
Proof.
  intros (Ha & Ta & Hcf & Hm & Hreg) Hc.
  assert (Hfind : find_node (fun n => py_eq a (ipAddress n)) (nodes st) (created_nodes st)
                  = None).
  { assert (Hcr : created_nodes st = created_nodes (core st)) by reflexivity.
    rewrite Hc in Hcr. cbn in Hcr. rewrite Hcr, (same_core_nodes _ _ Hc).
    clear -Hreg. induction Hreg as [|x l Hx _ IH]; [reflexivity|].
    cbn. now rewrite Hx. }
  unfold simCreateNode_body, warn_missing, findCreatedNodeByIp.
  destruct request as [| | | | |d]; try discriminate. cbn [field] in Ha, Hm.
  rewrite <- provided_dict in Hcf.
  rewrite !grab_dict, bind_ret_l.
  assert (Hmode : exists m, get_or_none (dict_get "mode" d) = PStr m /\
                            (m = "TX" \/ m = "RX")).
  { destruct Hm as [-> | ->]; eexists; split; eauto. }
  destruct Hmode as (m & -> & Hmm).
  replace (truthy (PStr m)) with true by (now destruct Hmm as [-> | ->]).
  cbn [negb]. rewrite bind_ret_l, Ha. cbn [get_or_none]. rewrite Ta. cbn [negb].
  rewrite bind_gets, Hfind, bind_ret_l, Hcf. cbn [negb]. rewrite bind_ret_l.
  replace (py_eq (PStr m) (PStr "TX") || py_eq (PStr m) (PStr "RX")) with true
    by (now destruct Hmm as [-> | ->]).
  destruct (truthy (get_or_none (dict_get "gain" d))); cbn [negb];
    rewrite ?bind_print, ?bind_ret_l;
  destruct (truthy (get_or_none (dict_get "sampleRate" d))); cbn [negb];
    rewrite ?bind_print, ?bind_ret_l;
  destruct (truthy (get_or_none (dict_get "signalAmp" d))); cbn [negb];
    rewrite ?bind_print, ?bind_ret_l;
  destruct (negb (truthy (get_or_none (dict_get "waveform" d))) && py_eq (PStr m) (PStr "TX"));
    rewrite ?bind_print, ?bind_ret_l; unfold ret; rewrite ?printed_printed;
  first [eexists; reflexivity | exists []; now rewrite printed_nil].
Qed.

(** X12.  [simCreateNode] only prints, and the Nodes it returns are, in
    order, those of a sub-sequence of the parameter sets, each of which has
    a non-empty address no created Node holds, a centerFreq and the mode
    "TX" or "RX"; no parameter set yields more than one Node. *)
Theorem simCreateNode_sound :
  forall (requests : list pyval) (st st' : State) (arr : list Node),
    simCreateNode serial_of requests st = Ok arr st' ->
    same_core st st' /\
    exists chosen, sublist chosen requests /\
      Forall2 (fun rq n => exists a, creatable st rq a /\ n = Node_new serial_of a)
              chosen arr.
Proof.
  intros requests st st' arr E. unfold simCreateNode in E.
  assert (H : wp (for_each (simCreateNode_body serial_of) 0 requests [])
                 (fun arr' st' =>
                    same_core st st' /\
                    exists chosen, sublist chosen ([] ++ requests) /\
                      Forall2 (fun rq n => exists a, creatable st rq a /\
                                                     n = Node_new serial_of a)
                              chosen arr') st).
  { apply (wp_for_each_prefix (simCreateNode_body serial_of)
             (fun done arr' st' =>
                same_core st st' /\
                exists chosen, sublist chosen done /\
                  Forall2 (fun rq n => exists a, creatable st rq a /\
                                                 n = Node_new serial_of a)
                          chosen arr')).
    - intros i done el loc st1 HI. now apply simCreateNode_body_sound.
    - split; [apply same_core_refl|]. exists []. split; constructor. }
  exact (wp_elim _ _ _ _ _ H E).
Qed.

(** X13.  When every parameter set of the batch qualifies against the
    registry, [simCreateNode] returns one Node per parameter set, in order,
    and only prints.  The address is checked against the registry only, not
    against the Nodes built earlier in the same batch: a batch that names
    the same new address twice yields two Nodes with that address. *)
Theorem simCreateNode_complete :
  forall (requests : list pyval) (st : State),
    Forall (fun rq => exists a, creatable st rq a) requests ->
    exists st',
      simCreateNode serial_of requests st
      = Ok (map (fun rq => Node_new serial_of (get_or_none (field rq "address"))) requests) st'
      /\ same_core st st'.
Proof.
  intros requests st Hall. unfold simCreateNode.
  assert (G : forall i acc st1, same_core st st1 ->
            exists st',
              for_each (simCreateNode_body serial_of) i requests acc st1
              = Ok (acc ++ map (fun rq => Node_new serial_of (get_or_none (field rq "address")))
                              requests) st'
              /\ same_core st st').
  { induction Hall as [|rq l (a & Ha) _ IH]; intros i acc st1 Hc.
    - exists st1. cbn. now rewrite app_nil_r.
    - destruct (simCreateNode_body_creatable st i rq a acc st1 Ha Hc) as [ls E].
      cbn [for_each map]. unfold bind. rewrite E.
      destruct (IH (S i) (acc ++ [Node_new serial_of a]) (printed ls st1)) as (st' & E' & Hc').
      { eapply same_core_trans; [exact Hc|apply same_core_printed]. }
      exists st'. split; [|exact Hc'].
      rewrite E', <- app_assoc. cbn [app].
      destruct Ha as (-> & _). reflexivity. }
  apply (G 0 [] st). apply same_core_refl.
Qed.

End Creation.

Lemma create_request_creatable : creatable st_lab create_request (PStr "10.0.0.9").
Proof.
  unfold creatable. split; [reflexivity|]. split; [reflexivity|].
  split; [reflexivity|]. split; [now left|].
  repeat constructor.
Defined.

Lemma simCreateNode_sound_witness :
  exists arr st',
    simCreateNode lab_serial [create_request] st_lab = Ok arr st' /\ same_core st_lab st'.
Proof.
  destruct (simCreateNode lab_serial [create_request] st_lab) as [arr st'|e st'] eqn:E.
  - exists arr, st'. split; [reflexivity|].
    exact (proj1 (simCreateNode_sound lab_serial _ _ _ _ E)).
  - vm_compute in E. discriminate E.
Defined.

Lemma simCreateNode_complete_witness :
  exists st',
    simCreateNode lab_serial [create_request; create_request] st_lab
    = Ok [Node_new lab_serial (PStr "10.0.0.9"); Node_new lab_serial (PStr "10.0.0.9")] st'.
Proof.
  destruct (simCreateNode_complete lab_serial [create_request; create_request] st_lab)
    as (st' & E & _).
  - constructor; [exists (PStr "10.0.0.9"); exact create_request_creatable|].
    constructor; [exists (PStr "10.0.0.9"); exact create_request_creatable|constructor].
  - exists st'. exact E.
Defined.

(** ** The request functions *)

Section Requests.

Variable RegistrationRequest_asdict : RegistrationRequest -> pyval.
Variable cmdRegistrationReq : M (list pyval).
Variable cmdGrantReq : M (list pyval).

(** X14.  In simulation mode [registrationRequest] asks nothing at the
    terminal and, when it returns, has sent exactly one message, the
    "registrationRequest" array with one entry per Node of the queue it
    leaves, entry and Node going together in order; Nodes and registry are
    untouched.  When it raises (a payload that cannot be iterated, or the
    builder stopping) nothing has been sent. *)
Theorem registrationRequest_sim_emits :
  forall (payload : pyval) (answers : list string) (st : State),
    match registrationRequest RegistrationRequest_asdict cmdRegistrationReq
            true payload answers st with
    | Ok _ st' =>
        exists arr,
          sent st' = sent st ++
            [("registrationRequest",
              PDict [("registrationRequest", PList (map RegistrationRequest_asdict arr))])] /\
          Forall2 (reg_entry st) arr (tempNodeList st') /\
          nodes st' = nodes st /\ created_nodes st' = created_nodes st
    | Raise _ st' => sent st' = sent st
    end.
Proof.
  intros payload answers st. unfold registrationRequest.
  destruct (py_iter payload) as [requests|]; [|reflexivity].
  unfold bind at 1. unfold bind at 1.
  destruct (builders_same_but_queue requests) as (Hw & _).
  specialize (Hw st). cbv beta in Hw.
  destruct (simRegistrationReq requests st) as [arr st1|e st1] eqn:E; cbn [final] in Hw.
  - cbn. exists arr.
    pose proof (simRegistrationReq_entries _ _ _ _ E) as Hall.
    split; [now rewrite (same_but_queue_sent _ _ Hw)|].
    split; [exact Hall|].
    split; [apply (same_but_queue_nodes _ _ Hw)|apply (same_but_queue_created _ _ Hw)].
  - apply (same_but_queue_sent _ _ Hw).
Qed.

Lemma request_prompt_no_entry question config answers :
  Forall (fun a => a <> "E" /\ a <> "e") answers ->
  forall st,
    match request_prompt question cmdGrantReq config answers st with
    | Ok o st' => same_core st st' /\ (o = None \/ o = Some config)
    | Raise _ st' => same_core st st'
    end.
Proof.
  induction 1 as [|a l [HE He] _ IH]; intros st; cbn [request_prompt].
  - rewrite bind_print. cbn. apply same_core_printed.
  - rewrite bind_print.
    apply String.eqb_neq in HE, He. rewrite HE, He. cbn [orb].
    destruct (String.eqb a "L" || String.eqb a "l").
    { cbn. split; [apply same_core_printed|now right]. }
    destruct (String.eqb a "exit").
    { cbn. split; [apply same_core_printed|now left]. }
    rewrite bind_print. specialize (IH (printed [Line "Invalid Entry... Please enter 'E' for Manual Entry or 'L' to load from a config file..."] (printed [Line question] st))).
    rewrite printed_printed in *.
    destruct (request_prompt question cmdGrantReq config l _) as [o st'|e st'].
    + destruct IH as [Hc Ho]. split; [|exact Ho].
      eapply same_core_trans; [apply same_core_printed|exact Hc].
    + eapply same_core_trans; [apply same_core_printed|exact IH].
Qed.

(** X15.  [grantRequest] never sends what [simGrantReq] has built: the
    prompt is asked in simulation mode too and its outcome replaces the
    array.  With answers other than E, the message sent, if any, is the
    "grantRequest" array of the configuration stub, a single null;
    Nodes, registry and timers stay as they were. *)
Theorem grantRequest_sim_array_dropped :
  forall (sim_mode : bool) (payload : pyval) (answers : list string) (st : State),
    Forall (fun a => a <> "E" /\ a <> "e") answers ->
    let st' := final (grantRequest cmdGrantReq sim_mode payload answers st) in
    (sent st' = sent st \/
     sent st' = sent st ++ [("grantRequest", PDict [("grantRequest", PList [PNone])])]) /\
    nodes st' = nodes st /\ created_nodes st' = created_nodes st /\
    timers st' = timers st.
Proof.
  intros sim_mode payload answers st Hans. cbv zeta. unfold grantRequest.
  set (build := if sim_mode then _ else _).
  assert (Hb : same_but_queue (core st) (core (final (build st)))).
  { subst build. destruct sim_mode; [|reflexivity].
    destruct (py_iter payload) as [requests|]; [|reflexivity].
    destruct (builders_same_but_queue requests) as (_ & _ & Hw & _).
    specialize (Hw st). cbv beta in Hw. unfold bind.
    now destruct (simGrantReq requests st). }
  rewrite bind_run.
  destruct (build st) as [[] st1|e st1]; cbn [final] in Hb.
  2:{ cbn [final]. split; [left; apply (same_but_queue_sent _ _ Hb)|].
      split; [apply (same_but_queue_nodes _ _ Hb)|].
      split; [apply (same_but_queue_created _ _ Hb)|apply (same_but_queue_timers _ _ Hb)]. }
  rewrite bind_run.
  pose proof (request_prompt_no_entry
                "Would you like to manually enter the Grant Request info or load from a file? (E)nter or (L)oad: "
                [PNone] answers Hans st1) as Hp.
  destruct (request_prompt _ cmdGrantReq [PNone] answers st1) as [o st2|e st2].
  - destruct Hp as [Hc Ho].
    assert (Hs : sent st2 = sent st).
    { rewrite <- (same_but_queue_sent _ _ Hb).
      change (sent (core st2) = sent (core st1)). now rewrite Hc. }
    assert (Hn : nodes st2 = nodes st).
    { rewrite (same_core_nodes _ _ Hc). apply (same_but_queue_nodes _ _ Hb). }
    assert (Hcr : created_nodes st2 = created_nodes st).
    { rewrite <- (same_but_queue_created _ _ Hb).
      change (created_nodes (core st2) = created_nodes (core st1)). now rewrite Hc. }
    assert (Ht : timers st2 = timers st).
    { rewrite (same_core_timers _ _ Hc). apply (same_but_queue_timers _ _ Hb). }
    destruct Ho as [-> | ->]; cbn; rewrite ?Hs; auto.
  - cbn [final].
    split; [left; rewrite <- (same_but_queue_sent _ _ Hb);
            change (sent (core st2) = sent (core st1)); now rewrite Hp|].
    split; [rewrite (same_core_nodes _ _ Hp); apply (same_but_queue_nodes _ _ Hb)|].
    split; [rewrite <- (same_but_queue_created _ _ Hb);
            change (created_nodes (core st2) = created_nodes (core st1)); now rewrite Hp|].
    rewrite (same_core_timers _ _ Hp). apply (same_but_queue_timers _ _ Hb).
Qed.

End Requests.

Lemma grantRequest_sim_array_dropped_witness :
  sent (final (grantRequest (ret []) true (PList grant_requests) ["L"] st_lab))
  = sent st_lab ++ [("grantRequest", PDict [("grantRequest", PList [PNone])])].
Proof.
  destruct (grantRequest_sim_array_dropped (ret []) true (PList grant_requests) ["L"] st_lab)
    as ([H|H] & _).
  - constructor; [split; discriminate|constructor].
  - vm_compute in H. discriminate H.
  - exact H.
Defined.

(** ** The measurement report configuration of a registration *)

(** X16.  [handleRegistrationResponse] never records a measReportConfig:
    whatever the payload, every Node has after the handler the
    measReportConfig it had before.  The branch that would store it prints
    a str added to a list first, which raises TypeError, so
    [setMeasReportConfig] is never reached; the grant handler, which has no
    such print, does store it. *)
Theorem registration_never_stores_measReportConfig :
  forall (json_data : pyval) (st : State) (r : nat),
    measReportConfig (nodes (final (handleRegistrationResponse json_data st)) r)
    = measReportConfig (nodes st r).
Proof.
  intros json_data st.
  pose (P := fun c c' : State =>
               forall r, measReportConfig (nodes c' r) = measReportConfig (nodes c r)).
  assert (R : forall c, P c c) by (intros c r; reflexivity).
  assert (T : forall a b c, P a b -> P b c -> P a c).
  { intros a b c H1 H2 r. now rewrite H2, H1. }
  assert (W : within P (handleRegistrationResponse json_data)).
  { unfold handleRegistrationResponse.
    apply within_bind; [exact R|frame|intros regResponses].
    destruct (truthy regResponses); cbn [negb]; [|apply within_prints; [exact R|frame]].
    apply within_bind; [exact R|frame|intros _].
    destruct (py_iter regResponses) as [els|]; [|apply within_prints; [exact R|frame]].
    apply within_for_each; [exact R|exact T|].
    intros i el loc s.
    destruct (registration_body_within i el loc s) as [->|(n & c & _ & _ & _ & ->)];
      intros r; [reflexivity|].
    cbn. destruct (Nat.eqb_spec r n) as [->|_]; reflexivity. }
  exact (W st).
Qed.
